(* ===== verification/_CoqProject ===== *)
-Q . S2P
Prelude.v
GoLib.v
Security.v
Models.v
Http.v
Auth.v
Store.v
Spec.v
Handler.v
UsersCtl.v
PublicationsCtl.v
LoginCtl.v
Router.v
Safety.v
Server.v
Refinement.v
