(* ===== verification/Prelude.v ===== *)
(** * A verification of the social-network REST backend (Go)

    This development models, in Rocq, the Go repository
    WelintonJLopes/Social-network-golang.  It is a REST backend with
    users, publications, follow relationships and likes, protected by
    signed tokens and bcrypt-hashed passwords.  The Go files are under
    [src/]; every definition below names the file and the function it
    translates.

    ** The program and how its parts interact

    A request reaches the gorilla/mux router built by [router.Generate]
    ([src/src/router/router.go]).  [Configure]
    ([src/src/router/routers/router.go]) registers every route of the
    tables [routerUser], [routerLogin] and [routerPublication], wrapped in
    [middlewares.Logger(middlewares.Authenticate(f))] or
    [middlewares.Logger(f)].  Each handler of [src/src/controllers] does
    the following, returning early with [answers.Err] on the first
    failure:
    - parse the path variable ([strconv.ParseUint]);
    - read the caller's id from the token
      ([authentication.ExtractUserID]);
    - check ownership;
    - read and unmarshal the body;
    - [Prepare] the model ([src/src/models]);
    - connect to the database;
    - call a repository method ([src/src/repositories]);
    - answer with [answers.JSON].
    Passwords go through [security.HashPassword] and
    [security.PasswordCheck] ([src/src/security/security.go]).

    ** Files, in dependency order

    - [Prelude] (this file) holds the error values, the [result] type of
      Go's [(value, error)] returns with its [let*] notation, [uint64]
      helpers, the shared tactics and the hint database [go].
    - [GoLib] holds the Go library functions the code calls, at their
      documented semantics: [strings.Split], [Join], [TrimSpace] and
      [ToLower] on bytes; [strconv.ParseUint] in base 10 with 64 bits,
      the digit loop with its cutoff and wrap-around checks;
      [strconv.FormatUint]; and the e-mail format check of checkmail.
    - [Security] states bcrypt as a class [Hasher] with its laws: a fresh
      hash verifies its password; another password of at most 72 bytes
      does not; longer passwords are refused; the empty hash verifies
      nothing.  It models the two wrappers of [security.go] and gives an
      executable instance.
    - [Models] has the records [User.t] and [Publication.t], with
      [validate], [format] and [Prepare] as written (validate first, then
      trim, then hash on "register").
    - [Http] has requests (method, path, mux variables, query,
      [Authorization] header, body), responses (status and payload), the
      body decoders, and the environment [env].  The environment carries
      the signing secret, the clock, the bcrypt salt, and whether
      [database.Connect] and the statements succeed.
    - [Auth] is the token service, modelled from the specification since
      the [authentication] package is not under [src/].  An HMAC class
      [Signer] signs the claims [(sub, iat, exp)], with [exp = iat + 6h].
      [ValidateToken] checks the structure, then the signature, then the
      expiry.  [extractToken] reads the [Bearer] header, and
      [ExtractUserID] combines the two.
    - [Store] is the database: a [gmap] of user rows, a [gset] of
      [(user_id, follower_id)] pairs, a [gmap] of publication rows and
      the two AUTO_INCREMENT counters.  Each method of
      [repositories/users.go] and [repositories/publications.go] is a
      function in it, with its SQL as written.  The module also holds the
      well-formedness invariant [wf] and its preservation by every
      method, and the meaning of the [LIKE] pattern of [Users.Search]
      against the reference "contains, ignoring case".
    - [Spec] is the abstract specification of the API, from the
      specification's OwnershipGuard protocol (section 4.4).  Its state is
      the three tables without the counters ([abs] forgets them).  Its
      operations [op] each have one authorization rule ([allowed], the
      single reusable predicate of section 9) and an effect stated field
      by field ([effect]).  [spec_step] is "nothing changes, or one
      allowed operation".
    - [Handler] is the monad of the handlers.  [M A] takes the database
      to an early answer or a value, paired with the new database.
      [check], [guard_that], [connect], [query], [write] and [insert] are
      the [if err != nil { answers.Err(...); return }] steps of the
      controllers.
    - [UsersCtl], [PublicationsCtl] and [LoginCtl] hold every handler of
      [controllers/users.go], [publications.go] and [login.go], step for
      step.
    - [Router] has the route tables copied from the sources, [Configure],
      the middlewares (modelled from the specification), and the mux
      dispatch.  Mux picks the first route whose template and method
      match.  A template without a leading '/' never matches, because
      mux rejects it.  Otherwise mux answers 405 or 404.  [serve] is one
      request of the running server.  It returns the response, the new
      database, and the events: the log line and the handler run.
    - [Safety] has the properties across all handlers: the footprint
      [respects] of a request, preserved by [serve], and reachability
      ([reachable]: every database obtained from the empty one by a
      sequence of served requests), with [wf] proved for it by rule
      induction.
    - [Server] models [main] ([src/main.go]): [ListenAndServe] serves a
      sequence of requests, each by [Router.serve] on the database the
      previous ones left.  net/http runs handlers concurrently; the
      model takes the requests in the order their statements reach the
      database, and the file shows that the one check-then-write of the
      code (the ownership check of [UpdatePublication] and
      [DeletePublication]) survives any requests that run in between.
    - [Refinement] proves, repository method by repository method and
      then handler by handler, that every served request is a
      [spec_step] of its caller, and that a run of [ListenAndServe] is a
      [spec_run], one step per request.

    ** What the theorems show (claim ids C1 to C40)

    - Access control: [Safety.serve_respects] (C1) is non-interference.
      A request changes a user row only for its owner, a publication's
      title, content or author only for its author, and the follow table
      only for the follower.  The per-handler guards answer 403 without
      touching the database: [owner_guard_forbidden] (C3),
      [publication_owner_forbidden] (C4) and [self_guard_forbidden] (C5).
    - Invariants: no self-follow in any reachable database (C2); every
      handler call keeps like counts at 0 or more, the saturation of
      [DislikePublication] (C17).
    - Authentication: every handler that runs behind the router either
      is public or was called with a valid token (C6).  A missing,
      expired or tampered token stops a request before any protected
      handler (C7, C9, C10).
    - Tokens and login: the token [Login] hands out authenticates later
      requests as the matched row's id until expiry (C8).  Tokens are
      issued only after a successful password check for an existing row
      (C11).  Registering and then logging in works (C12).  Password
      change fails with a wrong current password (C13) and otherwise
      stores a fresh hash of the new password (C14), after which login
      takes the new password and refuses the old one (C30).
      Publications belong to their creator (C15), and reading one back
      after creating it gives the stored row (C28).
    - What the model exposes about the code: three routes are dead (C16);
      [Users.SearchFollowers] returns the user itself (C18); the feed of
      [Publications.Search] has at most one row and the wrong filter
      (C19); [CreateUser] answers with the hash of the submitted
      password (C20); whitespace-only names, titles and contents are
      accepted and stored empty (C21).  [Users.SearchFollowing], unlike
      [SearchFollowers], returns exactly the users followed (C27).
    - What the answers reveal (specification, section 7): the 401 of
      [Login] tells an unknown e-mail from a wrong password, so it
      reveals whether an account exists (C22), while the 403 of the
      publication ownership check is the same whether the publication
      is missing or another user's (C37).
    - Path ids through the router: "GET /users/<k>" reads back the
      decimal [k] and answers the row of [k] (C23), and a value of [2^64]
      or more is answered 400 with the range error (C24).
    - Storage failures: with failing statements every handler answers an
      error status and changes nothing (C25).
    - Refinement of the specification (C26): every served request is
      "nothing changes" or one operation the caller is allowed to
      perform, with the specified effect.
    - [Users.Search] returns exactly the users whose name or nick
      contains the term, ignoring case (C29); the lemma [like_contains]
      reduces [LIKE %q%] to that reference.
    - Liveness: public routes run whatever the token (C31), and a
      follower can always remove its follow edge (C32).
    - Error paths the code takes: an empty new password is accepted
      (C33); a missing user comes back as the zero value with 200 (C34);
      [SearchPublicationsUser] reads the wrong path variable (C35); liking
      a missing publication succeeds (C36).
    - The running server: the author the ownership check reads is still
      the author at the write, whatever requests interleave (C38); the
      server loop gives every request exactly one outcome, mux's 404 or
      405, or the log line then a 401 or one handler run, with no retry
      (C39); and a run of
      the loop from any well-formed database is a run of the
      specification, request by request (C40).
    Each claim with hypotheses has a witness, [<theorem>_witness], that
    applies it to a concrete request.  The witnesses compute with the
    executable [Hasher] and [Signer] instances.

    ** Bounds and fuel

    Ids, timestamps and signatures are [Z] kept within [0, 2^64).  The
    theorems that need it ask for [is_u64] or an explicit bound: an
    AUTO_INCREMENT counter or a clock below [2^64].  [FormatUint] uses
    fuel 20, the number of decimal digits of [2^64 - 1]; it returns the
    full digit string of every [uint64] ([format_digits_spec]), and more
    fuel gives the same string ([FormatUint_fuel]).  [FormatUint] is not
    called by the code under [src/]; it prints the claims of the
    spec-modelled tokens.  All other definitions are structural, so no
    fuel is needed anywhere else: [ListenAndServe] is a recursion on the
    list of requests, and C39 shows it reaches an outcome for every one.

    ** Not modelled

    - In [main.go], [config.Load] and the printing; [config] and
      [database]: environment loading and the SQL driver.  A failing
      connection or statement is the [env_connect] / [env_exec] flags.
      These packages are not in the repository, and the specification
      (section 1) puts process bootstrapping out of scope, so there is no
      code or contract to model them from beyond the values they provide
      ([Http.env]).
    - [answers]: the JSON encoding.  A response is a status and a payload
      value.  The package is not in the repository and the specification
      puts JSON marshaling out of scope; the payload keeps the value the
      handler passes, which is what the theorems about answers observe.
    - The table schema, which is not in the repository.  The model has no
      foreign-key or unique constraints, so [SearchEmail] reads the first
      row with the e-mail in key order, and deleting an account removes
      only its row (an [ON DELETE CASCADE] would also drop follow edges
      and publications).  Theorems that need a unique e-mail assume it.
      The like count is an unbounded [Z] (its SQL type is unknown); the
      like routes are unreachable anyway (C16).  [LIKE] is
      case-insensitive on ASCII letters only; the accent folding of a
      MySQL [_ci] collation is not modelled.
    - Partial failures inside a request: [env_exec] says whether all the
      statements of a request succeed, so a read that succeeds followed
      by a write that fails is not represented.  That path writes
      nothing, so the footprint and refinement results do not depend on
      it.
    - bcrypt itself, which is the [Hasher] class.  Its laws are the
      documented behaviour of [golang.org/x/crypto/bcrypt], with
      collision-freedom stated for passwords of at most 72 bytes.
    - [strings.TrimSpace] on non-ASCII (Unicode) white space: the model
      trims the ASCII white-space bytes only.
    - Interleaving below the request: [ListenAndServe] runs each request
      as one step [serve].  The only place where a request reads and
      later writes the same row on the strength of what it read is the
      ownership check of the publication handlers, and C38 covers any
      requests run between the two; other interleavings of statements
      are not modelled.
    - The per-request phase machine of the specification (section 4.4:
      Received, Logged, token checks, AuthenticatedAs, authorization,
      Executed, ResponseSent).  Its observable content is covered by the
      events of [serve] (C6, C7, C9, C10, C31, C39) and by the 403 answers
      that precede every write (C3 to C5); the phases themselves leave no
      trace in the code to model. *)

From stdpp Require Export base gmap strings list.
From Stdlib Require Export ZArith Lia String Ascii.

Declare Scope go_scope.
Delimit Scope go_scope with go.

(** ** Error values

    The Go code passes [error] values around and turns them into HTTP
    statuses at the handler boundary.  Each constructor is one error
    value (or family of values) that the program can produce. *)
Inductive goerr :=
| ErrSyntax                      (* strconv: invalid syntax *)
| ErrRange                       (* strconv: value out of range *)
| ErrPasswordTooLong             (* bcrypt: password longer than 72 bytes *)
| ErrHashTooShort                (* bcrypt: malformed stored hash *)
| ErrMismatchedHashAndPassword   (* bcrypt: wrong password *)
| ErrInvalidToken                (* authentication: missing/malformed/bad signature *)
| ErrExpiredToken                (* authentication: exp <= now *)
| ErrNew (msg : string)          (* errors.New(msg) in models and controllers *)
| ErrBody                        (* ioutil.ReadAll *)
| ErrJson                        (* json.Unmarshal *)
| ErrStorage.                    (* database/sql *)

#[export] Instance goerr_eq_dec : EqDecision goerr.
Proof. solve_decision. Defined.

(** A Go pair [(v, err)]: either a value or an error. *)
Inductive result (A : Type) :=
| Ok (a : A)
| Err (e : goerr).
Arguments Ok {A} a.
Arguments Err {A} e.

Definition result_bind {A B} (r : result A) (k : A -> result B) : result B :=
  match r with
  | Ok a => k a
  | Err e => Err e
  end.

Definition is_ok {A} (r : result A) : bool :=
  match r with Ok _ => true | Err _ => false end.

Notation "'let*' x ':=' c 'in' k" := (result_bind c (fun x => k))
  (at level 10, x name, c at level 100, k at level 200) : go_scope.

Lemma result_bind_ok {A B} (r : result A) (k : A -> result B) b :
  result_bind r k = Ok b -> exists a, r = Ok a /\ k a = Ok b.
Proof. destruct r; simpl; [eauto | discriminate]. Qed.

Lemma result_bind_err {A B} (r : result A) (k : A -> result B) e :
  r = Err e -> result_bind r k = Err e.
Proof. intros ->. reflexivity. Qed.

(** ** Unsigned 64-bit integers

    Go's [uint64] values (identifiers, likes, timestamps) are kept as [Z]
    together with the range predicate; wrap-around is written out where
    the code can overflow. *)
Open Scope Z_scope.

Definition u64_modulus : Z := 2 ^ 64.
Definition u64_max : Z := u64_modulus - 1.

Definition is_u64 (z : Z) : Prop := 0 <= z < u64_modulus.
#[export] Instance is_u64_dec z : Decision (is_u64 z).
Proof. unfold is_u64. apply _. Defined.

(** [x + y] on [uint64]. *)
Definition add64 (x y : Z) : Z := (x + y) mod u64_modulus.

Lemma u64_modulus_pos : 0 < u64_modulus.
Proof. reflexivity. Qed.

Lemma add64_small x y : 0 <= x + y < u64_modulus -> add64 x y = x + y.
Proof. intros H. unfold add64. apply Z.mod_small; lia. Qed.

Lemma add64_is_u64 x y : is_u64 (add64 x y).
Proof. unfold add64, is_u64. apply Z.mod_pos_bound. reflexivity. Qed.

Lemma is_u64_max : is_u64 u64_max.
Proof. unfold is_u64, u64_max, u64_modulus. lia. Qed.

(** Exclusive or of two [uint64] values stays in [uint64]. *)
Lemma lxor_u64 a b : is_u64 a -> is_u64 b -> is_u64 (Z.lxor a b).
Proof.
  unfold is_u64, u64_modulus. intros Ha Hb. split; [apply Z.lxor_nonneg; lia|].
  assert (Hlog : forall x, 0 <= x < 2 ^ 64 -> Z.log2 x < 64 \/ x = 0).
  { intros x Hx. destruct (Z.eq_dec x 0); [auto|left]. apply Z.log2_lt_pow2; lia. }
  destruct (Z.eq_dec (Z.lxor a b) 0) as [->|Hne]; [lia|].
  apply Z.log2_lt_pow2; [pose proof (Z.lxor_nonneg a b); lia|].
  pose proof (Z.log2_lxor a b ltac:(lia) ltac:(lia)).
  pose proof (Z.log2_nonneg a); pose proof (Z.log2_nonneg b).
  destruct (Hlog a Ha) as [Ha'|Ha'], (Hlog b Hb) as [Hb'|Hb']; subst; simpl in *; lia.
Qed.

(** Flipping a bit changes the value. *)
Lemma lxor_pow2_ne a i : 0 <= i -> Z.lxor a (2 ^ i) <> a.
Proof.
  intros Hi E. assert (Z.lxor (Z.lxor a (2 ^ i)) a = 0) as E0 by (rewrite E; apply Z.lxor_nilpotent).
  rewrite Z.lxor_comm, <- Z.lxor_assoc, Z.lxor_nilpotent, Z.lxor_0_l in E0.
  pose proof (Z.pow_pos_nonneg 2 i ltac:(lia) Hi). lia.
Qed.

Lemma pow2_u64 i : 0 <= i < 64 -> is_u64 (2 ^ i).
Proof.
  unfold is_u64, u64_modulus. intros Hi. split; [apply Z.pow_nonneg; lia|].
  apply Z.pow_lt_mono_r; lia.
Qed.

(** ** Tactics and hints shared by the development *)

(** ** Strings as byte lists *)

Lemma list_ascii_of_string_app s t :
  list_ascii_of_string (s ++ t) = list_ascii_of_string s ++ list_ascii_of_string t.
Proof. induction s as [|c s IH]; simpl; [done|by rewrite IH]. Qed.

Create HintDb go discriminated.
#[export] Hint Resolve add64_is_u64 is_u64_max u64_modulus_pos lxor_u64 : go.

(** [invc H]: invert a hypothesis and clean up. *)
Ltac invc H := inversion H; subst; clear H.

(** [go_branch]: walk the [if]/[match] of a handler on concrete guards,
    discharging the impossible branches. *)
Ltac go_branch :=
  repeat (case_match; simplify_eq/=; try congruence).

(** Decide a [bool_decide] appearing in the goal or a hypothesis. *)
Ltac go_decide :=
  repeat match goal with
  | H : context [bool_decide ?P] |- _ => destruct (bool_decide_reflect P)
  | |- context [bool_decide ?P] => destruct (bool_decide_reflect P)
  end.
