(* ===== verification/GoLib.v ===== *)
(** * Go library functions called by the handlers

    The handlers of [src/src/controllers] call a few functions of Go's
    standard library whose behaviour decides which branch they take:
    [strings.Split] (token extraction, path matching), [strings.TrimSpace]
    (models' [format]), [strconv.ParseUint(s, 10, 64)] (every path
    variable) and [strconv.FormatUint].  They are modelled here at the
    semantics of the Go sources of those functions (strings.go, atoi.go),
    on byte strings ([string] of [ascii]). *)

From S2P Require Import Prelude.
Import ListNotations.
Open Scope Z_scope.

Module GoStrings.

(** [strings.Split(s, sep)] for a one-byte separator: the maximal
    substrings between occurrences of [sep]; [Split("", sep) = [""]]. *)
Fixpoint Split (sep : ascii) (s : string) : list string :=
  match s with
  | EmptyString => [EmptyString]
  | String c r =>
      let parts := Split sep r in
      if ascii_dec c sep then EmptyString :: parts
      else match parts with
           | p :: ps => String c p :: ps
           | [] => [String c EmptyString]
           end
  end.

(** [strings.Join(elems, sep)]. *)
Fixpoint Join (sep : ascii) (l : list string) : string :=
  match l with
  | [] => EmptyString
  | [p] => p
  | p :: ps => (p ++ String sep (Join sep ps))%string
  end.

(** A byte occurs in a string. *)
Fixpoint has_byte (c : ascii) (s : string) : bool :=
  match s with
  | EmptyString => false
  | String d r => if ascii_dec c d then true else has_byte c r
  end.

(** The ASCII white space of [unicode.IsSpace]: '\t', '\n', '\v', '\f',
    '\r' and ' '. *)
Definition is_space (c : ascii) : bool :=
  match c with
  | "009" | "010" | "011" | "012" | "013" | " " => true
  | _ => false
  end%char.

Fixpoint TrimLeftSpace (s : string) : string :=
  match s with
  | EmptyString => EmptyString
  | String c r => if is_space c then TrimLeftSpace r else s
  end.

Fixpoint TrimRightSpace (s : string) : string :=
  match s with
  | EmptyString => EmptyString
  | String c r =>
      let r' := TrimRightSpace r in
      match r' with
      | EmptyString => if is_space c then EmptyString else String c EmptyString
      | _ => String c r'
      end
  end.

(** [strings.TrimSpace]: drop the leading and the trailing white space. *)
Definition TrimSpace (s : string) : string := TrimRightSpace (TrimLeftSpace s).

(** Every byte of [s] is white space. *)
Fixpoint all_space (s : string) : bool :=
  match s with
  | EmptyString => true
  | String c r => is_space c && all_space r
  end.

(** ASCII case folding of one byte, and [strings.ToLower] on ASCII. *)
Definition lower_byte (c : ascii) : ascii :=
  let n := nat_of_ascii c in
  if (65 <=? n)%nat && (n <=? 90)%nat then ascii_of_nat (n + 32) else c.

Fixpoint ToLower (s : string) : string :=
  match s with
  | EmptyString => EmptyString
  | String c r => String (lower_byte c) (ToLower r)
  end.

(** ** Lemmas on [Split] and [Join] *)

Lemma Split_not_nil sep s : Split sep s <> [].
Proof.
  induction s as [|c r IH]; simpl; [discriminate|].
  destruct (ascii_dec c sep); [discriminate|].
  destruct (Split sep r); discriminate.
Qed.

Lemma Split_cons_other sep c r p ps :
  c <> sep -> Split sep r = p :: ps -> Split sep (String c r) = String c p :: ps.
Proof. intros Hc Hr. simpl. rewrite Hr. destruct (ascii_dec c sep); congruence. Qed.

(** Splitting a part that has no separator gives the part itself. *)
Lemma Split_no_sep sep s : has_byte sep s = false -> Split sep s = [s].
Proof.
  induction s as [|c r IH]; simpl; [done|].
  destruct (ascii_dec sep c) as [->|Hne]; [discriminate|].
  intros Hr. rewrite IH by done.
  destruct (ascii_dec c sep); [congruence|done].
Qed.

Lemma Split_app_sep sep p s :
  has_byte sep p = false ->
  Split sep (p ++ String sep s) = p :: Split sep s.
Proof.
  induction p as [|c r IH]; simpl; intros Hp.
  - destruct (ascii_dec sep sep); [done|congruence].
  - destruct (ascii_dec sep c) as [->|Hne]; [discriminate|].
    rewrite IH by done. destruct (ascii_dec c sep); [congruence|done].
Qed.

(** Round trip: splitting a join of separator-free parts gives the parts. *)
Lemma Split_Join sep l :
  l <> [] -> Forall (fun p => has_byte sep p = false) l ->
  Split sep (Join sep l) = l.
Proof.
  induction l as [|p ps IH]; intros Hne Hall; [done|].
  apply Forall_cons in Hall as [Hp Hps].
  destruct ps as [|q qs]; simpl.
  - by apply Split_no_sep.
  - rewrite (Split_app_sep sep p _ Hp). f_equal. apply IH; [discriminate|done].
Qed.

(** ** Lemmas on [TrimSpace] *)

Lemma TrimLeftSpace_all_space s :
  TrimLeftSpace s = EmptyString <-> all_space s = true.
Proof.
  induction s as [|c r IH]; simpl; [done|].
  destruct (is_space c); simpl; [done|].
  split; discriminate.
Qed.

Lemma TrimRightSpace_empty s :
  TrimRightSpace s = EmptyString <-> all_space s = true.
Proof.
  induction s as [|c r IH]; simpl; [done|].
  destruct (TrimRightSpace r) eqn:E.
  - destruct (is_space c); simpl; [by rewrite <- IH|split; discriminate].
  - destruct (is_space c); simpl.
    + split; [discriminate|]. intros H. apply IH in H. discriminate.
    + split; discriminate.
Qed.

Lemma all_space_TrimLeftSpace s :
  all_space (TrimLeftSpace s) = all_space s.
Proof.
  induction s as [|c r IH]; simpl; [done|].
  destruct (is_space c) eqn:E; simpl; [done|by rewrite E].
Qed.

(** [TrimSpace s] is empty exactly when [s] is all white space. *)
Lemma TrimSpace_empty s : TrimSpace s = EmptyString <-> all_space s = true.
Proof.
  unfold TrimSpace. rewrite TrimRightSpace_empty. by rewrite all_space_TrimLeftSpace.
Qed.

Lemma TrimSpace_no_space s : all_space s = false -> TrimSpace s <> EmptyString.
Proof. intros H E. apply TrimSpace_empty in E. congruence. Qed.

Lemma has_byte_app c s1 s2 :
  has_byte c (s1 ++ s2) = has_byte c s1 || has_byte c s2.
Proof. induction s1 as [|d r IH]; simpl; [done|]. by destruct (ascii_dec c d). Qed.

(** A joined string contains a byte only if the separator or a part does. *)
Lemma has_byte_Join c sep l :
  c <> sep -> Forall (fun p => has_byte c p = false) l -> has_byte c (Join sep l) = false.
Proof.
  intros Hc. induction l as [|p ps IH]; intros Hall; [done|].
  apply Forall_cons in Hall as [Hp Hps].
  destruct ps as [|q qs]; [done|].
  change (has_byte c (p ++ String sep (Join sep (q :: qs))) = false).
  rewrite has_byte_app, Hp. simpl. destruct (ascii_dec c sep); [done|]. by apply IH.
Qed.

(** Splitting then joining gives the string back. *)
Lemma Join_Split sep s : Join sep (Split sep s) = s.
Proof.
  induction s as [|c r IH]; [done|]. cbn [Split].
  pose proof (Split_not_nil sep r) as Hne.
  destruct (ascii_dec c sep) as [->|Hc]; destruct (Split sep r) as [|p ps]; try done.
  - change (Join sep ("" :: p :: ps)) with (String sep (Join sep (p :: ps))). by rewrite IH.
  - destruct ps as [|q qs]; [cbn in IH |- *; by rewrite IH|].
    change (Join sep (String c p :: q :: qs)) with (String c (Join sep (p :: q :: qs))).
    by rewrite IH.
Qed.

(** Every byte of a joined string is a byte of a part or the separator. *)
Lemma forallb_Join (f : ascii -> bool) sep l :
  f sep = true -> Forall (fun p => forallb f (list_ascii_of_string p) = true) l ->
  forallb f (list_ascii_of_string (Join sep l)) = true.
Proof.
  intros Hsep. induction l as [|p [|q qs] IH]; intros Hall; [done|by inversion Hall|].
  apply Forall_cons in Hall as [Hp Hrest].
  change (Join sep (p :: q :: qs)) with (p ++ String sep (Join sep (q :: qs)))%string.
  rewrite list_ascii_of_string_app, forallb_app. cbn [list_ascii_of_string forallb].
  by rewrite Hp, Hsep, IH.
Qed.

(** A string without white space is its own [TrimSpace]. *)
Lemma TrimSpace_id s :
  forallb (fun c => negb (is_space c)) (list_ascii_of_string s) = true -> TrimSpace s = s.
Proof.
  intros Hs. unfold TrimSpace.
  assert (Hl : TrimLeftSpace s = s).
  { destruct s as [|c r]; [done|]. simpl in *. apply andb_true_iff in Hs as [Hc _].
    by destruct (is_space c). }
  rewrite Hl. clear Hl. induction s as [|c r IH]; [done|].
  simpl in *. apply andb_true_iff in Hs as [Hc Hr]. rewrite IH by done.
  destruct (is_space c); [done|]. by destruct r.
Qed.

End GoStrings.

Module GoStrconv.

(** The value of a decimal digit byte, [None] for any other byte.  In
    [ParseUint] a letter gets a digit value [>= 10 = base], which is the
    same [ErrSyntax] as any other non-digit byte. *)
Definition digit_val (c : ascii) : option Z :=
  let k := Z.of_nat (nat_of_ascii c) in
  if (48 <=? k) && (k <=? 57) then Some (k - 48) else None.

(** [cutoff = maxUint64/10 + 1]: the smallest [n] with [n*10 > maxUint64]. *)
Definition cutoff : Z := u64_max / 10 + 1.

(** The body of the digit loop of [ParseUint], on [n] and the digit [d]:
    the two overflow checks, with the [uint64] wrap-around of [n *= 10]
    and [n1 := n + d] written out. *)
Definition parse_step (n d : Z) : result Z :=
  if cutoff <=? n then Err ErrRange
  else
    let n' := (n * 10) mod u64_modulus in
    let n1 := add64 n' d in
    if (n1 <? n') || (u64_max <? n1) then Err ErrRange else Ok n1.

Fixpoint parse_loop (s : string) (n : Z) : result Z :=
  match s with
  | EmptyString => Ok n
  | String c r =>
      match digit_val c with
      | None => Err ErrSyntax
      | Some d =>
          match parse_step n d with
          | Ok n1 => parse_loop r n1
          | Err e => Err e
          end
      end
  end.

(** [strconv.ParseUint(s, 10, 64)]. *)
Definition ParseUint (s : string) : result Z :=
  match s with
  | EmptyString => Err ErrSyntax
  | _ => parse_loop s 0
  end.

Definition digit_char (d : Z) : ascii := ascii_of_nat (Z.to_nat (48 + d)).

(** The decimal digits of [n], most significant first, within [fuel]
    digits. *)
Fixpoint format_digits (fuel : nat) (n : Z) : string :=
  match fuel with
  | O => EmptyString
  | S f =>
      if n <? 10 then String (digit_char n) EmptyString
      else (format_digits f (n / 10) ++ String (digit_char (n mod 10)) EmptyString)%string
  end.

(** [strconv.FormatUint(n, 10)]: a [uint64] has at most 20 decimal digits. *)
Definition FormatUint (n : Z) : string := format_digits 20 n.

(** ** Reference semantics: a non-empty string of decimal digits and its
    value. *)
Fixpoint all_digits (s : string) : bool :=
  match s with
  | EmptyString => true
  | String c r => match digit_val c with Some _ => all_digits r | None => false end
  end.

Fixpoint dec_value (s : string) (acc : Z) : Z :=
  match s with
  | EmptyString => acc
  | String c r =>
      match digit_val c with
      | Some d => dec_value r (acc * 10 + d)
      | None => acc
      end
  end.

(** ** The loop against the reference *)

Lemma digit_val_range c d : digit_val c = Some d -> 0 <= d < 10.
Proof.
  unfold digit_val. destruct (_ && _) eqn:E; [|discriminate].
  apply andb_true_iff in E as [E1 E2]. apply Z.leb_le in E1. apply Z.leb_le in E2.
  intros [= <-]. lia.
Qed.

(** One step of the loop is exact: it fails with [ErrRange] precisely
    when [n*10 + d] does not fit in 64 bits. *)
Lemma parse_step_spec n d :
  is_u64 n -> 0 <= d < 10 ->
  parse_step n d = if n * 10 + d <? u64_modulus then Ok (n * 10 + d) else Err ErrRange.
Proof.
  unfold parse_step, is_u64, add64, cutoff, u64_max.
  change u64_modulus with 18446744073709551616. intros Hn Hd.
  change ((18446744073709551616 - 1) / 10 + 1) with 1844674407370955162.
  destruct (Z.leb_spec 1844674407370955162 n).
  { destruct (Z.ltb_spec (n * 10 + d) 18446744073709551616); [lia|done]. }
  rewrite (Z.mod_small (n * 10)) by lia.
  destruct (Z.ltb_spec (n * 10 + d) 18446744073709551616) as [Hlt|Hge].
  - rewrite Z.mod_small by lia.
    destruct (Z.ltb_spec (n * 10 + d) (n * 10)); [lia|].
    destruct (Z.ltb_spec (18446744073709551616 - 1) (n * 10 + d)); [lia|done].
  - rewrite <- (Z.mod_unique (n * 10 + d) 18446744073709551616 1
               (n * 10 + d - 18446744073709551616)) by lia.
    destruct (Z.ltb_spec (n * 10 + d - 18446744073709551616) (n * 10)); [done|lia].
Qed.

Lemma dec_value_ge s acc : 0 <= acc -> acc <= dec_value s acc.
Proof.
  revert acc. induction s as [|c r IH]; intros acc Hacc; simpl; [lia|].
  destruct (digit_val c) as [d|] eqn:Hd; [|lia].
  apply digit_val_range in Hd. specialize (IH (acc * 10 + d)). lia.
Qed.

Lemma parse_loop_spec s n :
  is_u64 n -> all_digits s = true ->
  parse_loop s n =
    if dec_value s n <? u64_modulus then Ok (dec_value s n) else Err ErrRange.
Proof.
  revert n. induction s as [|c r IH]; intros n Hn Hs; simpl.
  { destruct Hn as [_ Hn]. by destruct (Z.ltb_spec n u64_modulus); [|lia]. }
  simpl in Hs. destruct (digit_val c) as [d|] eqn:Hd; [|discriminate].
  pose proof (digit_val_range _ _ Hd) as Hd'.
  rewrite parse_step_spec by done.
  destruct (Z.ltb_spec (n * 10 + d) u64_modulus) as [Hlt|Hge].
  - apply IH; [unfold is_u64 in *; lia|done].
  - pose proof (dec_value_ge r (n * 10 + d)) as Hge'.
    destruct (Z.ltb_spec (dec_value r (n * 10 + d)) u64_modulus);
      [unfold is_u64 in *; lia|done].
Qed.

Lemma parse_loop_ok_digits s n m : parse_loop s n = Ok m -> all_digits s = true.
Proof.
  revert n. induction s as [|c r IH]; intros n; simpl; [done|].
  destruct (digit_val c); [|discriminate].
  destruct (parse_step n z); [apply IH|discriminate].
Qed.

(** ** Formatting and its round trip *)

Lemma digit_val_digit_char d : 0 <= d < 10 -> digit_val (digit_char d) = Some d.
Proof.
  intros Hd. unfold digit_val, digit_char.
  rewrite Ascii.nat_ascii_embedding by lia.
  rewrite Z2Nat.id by lia.
  destruct (Z.leb_spec 48 (48 + d)); [|lia].
  destruct (Z.leb_spec (48 + d) 57); [|lia].
  simpl. f_equal. lia.
Qed.

Lemma format_digits_S f n :
  format_digits (S f) n =
    if n <? 10 then String (digit_char n) EmptyString
    else (format_digits f (n / 10) ++ String (digit_char (n mod 10)) EmptyString)%string.
Proof. reflexivity. Qed.

Lemma append_String_not_empty s c t : (s ++ String c t)%string <> EmptyString.
Proof. destruct s; discriminate. Qed.

Lemma all_digits_app s1 s2 :
  all_digits (s1 ++ s2) = all_digits s1 && all_digits s2.
Proof. induction s1 as [|c r IH]; simpl; [done|]. by destruct (digit_val c). Qed.

Lemma dec_value_app s1 s2 acc :
  all_digits s1 = true -> dec_value (s1 ++ s2) acc = dec_value s2 (dec_value s1 acc).
Proof.
  revert acc. induction s1 as [|c r IH]; intros acc Hs; simpl in *; [done|].
  destruct (digit_val c); [by apply IH|discriminate].
Qed.

(** With [k+1] digits of fuel, every [n < 10^(k+1)] is printed as a
    non-empty digit string whose value is [n]. *)
(** Dropping the last digit: one digit fewer bounds the quotient. *)
Lemma div10_bound m n : 0 <= n < 10 ^ Z.of_nat (S m) -> 0 <= n / 10 < 10 ^ Z.of_nat m.
Proof.
  intros Hn. split; [apply Z.div_pos; lia|]. apply Z.div_lt_upper_bound; [lia|].
  rewrite Nat2Z.inj_succ, Z.pow_succ_r in Hn by lia. lia.
Qed.

Lemma format_digits_spec k n :
  0 <= n < 10 ^ Z.of_nat (S k) ->
  format_digits (S k) n <> EmptyString /\
  all_digits (format_digits (S k) n) = true /\
  dec_value (format_digits (S k) n) 0 = n.
Proof.
  revert n. induction k as [|k IH]; intros n Hn; rewrite format_digits_S.
  - change (10 ^ Z.of_nat 1) with 10 in Hn.
    destruct (Z.ltb_spec n 10); [|lia].
    simpl. rewrite digit_val_digit_char by lia. auto.
  - destruct (Z.ltb_spec n 10).
    { simpl. rewrite digit_val_digit_char by lia. auto. }
    destruct (IH (n / 10) (div10_bound _ _ Hn)) as (Hne & Hd & Hv).
    pose proof (Z.mod_pos_bound n 10 ltac:(lia)) as Hm.
    split; [|split].
    + apply append_String_not_empty.
    + rewrite all_digits_app, Hd. simpl. by rewrite digit_val_digit_char.
    + rewrite dec_value_app, Hv by done. simpl. rewrite digit_val_digit_char by done.
      pose proof (Z.div_mod n 10 ltac:(lia)). lia.
Qed.

(** A byte that is not a digit does not occur in a digit string. *)
Lemma all_digits_no_byte c s :
  digit_val c = None -> all_digits s = true -> GoStrings.has_byte c s = false.
Proof.
  intros Hc. induction s as [|d r IH]; simpl; [done|].
  destruct (ascii_dec c d) as [<-|]; [by rewrite Hc|].
  by destruct (digit_val d).
Qed.

Lemma FormatUint_all_digits n : is_u64 n -> all_digits (FormatUint n) = true.
Proof.
  intros Hn. unfold FormatUint.
  destruct (format_digits_spec 19 n) as (_ & Hd & _); [|done].
  unfold is_u64, u64_modulus in Hn. change (10 ^ Z.of_nat 20) with 100000000000000000000. lia.
Qed.

(** What [ParseUint] accepts is a non-empty string of digits. *)
Lemma ParseUint_digits s n : ParseUint s = Ok n -> s <> EmptyString /\ all_digits s = true.
Proof.
  unfold ParseUint. destruct s as [|c r]; [discriminate|].
  intros H. split; [discriminate|exact (parse_loop_ok_digits _ _ _ H)].
Qed.

(** What [ParseUint] returns is a [uint64]. *)
Lemma ParseUint_u64 s n : ParseUint s = Ok n -> is_u64 n.
Proof.
  unfold ParseUint. destruct s as [|c r]; [discriminate|]. intros H.
  pose proof (parse_loop_ok_digits _ _ _ H) as Hd.
  rewrite parse_loop_spec in H by (done || (unfold is_u64, u64_modulus; lia)).
  destruct (Z.ltb_spec (dec_value (String c r) 0) u64_modulus); [|discriminate].
  injection H as <-. pose proof (dec_value_ge (String c r) 0 ltac:(lia)).
  change (0 <= dec_value (String c r) 0 < u64_modulus). lia.
Qed.

(** ** Main properties of [ParseUint] *)

(** [ParseUint] (the digit loop with its cutoff and wrap-around
    checks) accepts exactly the non-empty strings of decimal digits whose
    value fits in 64 bits, and returns that value. *)
Lemma ParseUint_spec s n :
  ParseUint s = Ok n <->
  s <> EmptyString /\ all_digits s = true /\ dec_value s 0 = n /\ n < u64_modulus.
Proof.
  unfold ParseUint. split.
  - intros H. destruct s as [|c r]; [discriminate|].
    pose proof (parse_loop_ok_digits _ _ _ H) as Hd.
    rewrite parse_loop_spec in H by (done || (unfold is_u64, u64_modulus; lia)).
    destruct (Z.ltb_spec (dec_value (String c r) 0) u64_modulus) as [Hlt|]; [|discriminate].
    injection H as <-. split; [discriminate|]. done.
  - intros (Hne & Hd & <- & Hlt). destruct s as [|c r]; [done|].
    rewrite parse_loop_spec by (done || (unfold is_u64, u64_modulus; lia)).
    by destruct (Z.ltb_spec (dec_value (String c r) 0) u64_modulus); [|lia].
Qed.

(** A non-empty decimal string whose value is [2^64] or more is
    rejected with the range error, not accepted modulo [2^64]. *)
Lemma ParseUint_overflow s :
  s <> EmptyString -> all_digits s = true -> u64_modulus <= dec_value s 0 ->
  ParseUint s = Err ErrRange.
Proof.
  intros Hne Hd Hge. destruct s as [|c r]; [done|]. unfold ParseUint.
  rewrite parse_loop_spec by (done || (unfold is_u64, u64_modulus; lia)).
  by destruct (Z.ltb_spec (dec_value (String c r) 0) u64_modulus); [lia|].
Qed.

(** The digit loop of [format_digits] stops by itself once the digits of
    [n] are printed: any fuel beyond the number of digits gives the same
    string. *)
Lemma format_digits_fuel k n g :
  0 <= n < 10 ^ Z.of_nat (S k) -> (S k <= g)%nat -> format_digits g n = format_digits (S k) n.
Proof.
  revert n g. induction k as [|k IH]; intros n g Hn Hg;
    (destruct g as [|g]; [lia|]); rewrite !format_digits_S.
  - change (10 ^ Z.of_nat 1) with 10 in Hn. by destruct (Z.ltb_spec n 10); [|lia].
  - destruct (Z.ltb_spec n 10); [done|].
    rewrite (IH (n / 10) g); [done|by apply div10_bound|lia].
Qed.

(** The fuel of [FormatUint] is enough: a [uint64] has at most 20
    decimal digits, so printing it with any fuel of at least 20 gives the
    string [FormatUint] returns; the bounded loop computes the full
    result of the unbounded one. *)
Lemma FormatUint_fuel n fuel : is_u64 n -> (20 <= fuel)%nat -> format_digits fuel n = FormatUint n.
Proof.
  intros Hn Hf. unfold FormatUint. apply (format_digits_fuel 19); [|lia].
  unfold is_u64, u64_modulus in Hn. change (10 ^ Z.of_nat 20) with 100000000000000000000. lia.
Qed.

(** Round trip: every [uint64] printed by [FormatUint] parses
    back to itself. *)
Lemma ParseUint_FormatUint n : is_u64 n -> ParseUint (FormatUint n) = Ok n.
Proof.
  intros Hn. apply ParseUint_spec. unfold FormatUint.
  destruct (format_digits_spec 19 n) as (Hne & Hd & Hv).
  { unfold is_u64, u64_modulus in Hn. change (10 ^ Z.of_nat 20) with 100000000000000000000. lia. }
  unfold is_u64 in Hn. repeat split; try done; lia.
Qed.

Lemma FormatUint_fuel_witness :
  is_u64 u64_max /\ (20 <= 64)%nat /\ format_digits 64 u64_max = FormatUint u64_max.
Proof.
  assert (Hf : (20 <= 64)%nat) by lia.
  split; [exact is_u64_max|]. split; [exact Hf|]. exact (FormatUint_fuel _ _ is_u64_max Hf).
Defined.

End GoStrconv.

Module Checkmail.

(** [checkmail.ValidateFormat(email)] from github.com/badoux/checkmail: a
    match of
    [^[a-zA-Z0-9.!#$%&'*+/=?^_`{|}~-]+@[a-zA-Z0-9](?:[a-zA-Z0-9-]{0,61}[a-zA-Z0-9])?(?:\.[a-zA-Z0-9](?:[a-zA-Z0-9-]{0,61}[a-zA-Z0-9])?)*$].
    No byte of the local part can be '@' and no byte of a label can be
    '.', so the match is: exactly one '@', a non-empty local part of
    allowed bytes, and a domain whose '.'-separated labels each have 1 to
    63 bytes, letters, digits or '-', starting and ending with a letter or
    a digit. *)
Definition in_range (lo hi : ascii) (c : ascii) : bool :=
  (nat_of_ascii lo <=? nat_of_ascii c)%nat && (nat_of_ascii c <=? nat_of_ascii hi)%nat.

Definition is_alnum (c : ascii) : bool :=
  in_range "a" "z" c || in_range "A" "Z" c || in_range "0" "9" c.

Definition local_specials : list ascii :=
  [".";"!";"#";"$";"%";"&";"'";"*";"+";"/";"=";"?";"^";"_";"`";"{";"|";"}";"~";"-"]%char.

Definition is_local_char (c : ascii) : bool :=
  is_alnum c || existsb (fun d => if ascii_dec c d then true else false) local_specials.

Definition is_label_char (c : ascii) : bool :=
  is_alnum c || (if ascii_dec c "-" then true else false).

Definition valid_label (l : string) : bool :=
  let cs := list_ascii_of_string l in
  match cs with
  | [] => false
  | c :: _ =>
      (List.length cs <=? 63)%nat && is_alnum c && is_alnum (List.last cs c)
      && forallb is_label_char cs
  end.

Definition ValidateFormat (email : string) : bool :=
  match GoStrings.Split "@" email with
  | [local; domain] =>
      negb (String.eqb local EmptyString)
      && forallb is_local_char (list_ascii_of_string local)
      && forallb valid_label (GoStrings.Split "." domain)
  | _ => false
  end.

(** ** Lemmas *)

(** No white-space byte is a byte of an address. *)
Lemma space_not_address_char c :
  GoStrings.is_space c = true -> is_local_char c = false /\ is_label_char c = false.
Proof.
  destruct c as [[] [] [] [] [] [] [] []]; vm_compute; first [discriminate|intros _; split; reflexivity].
Qed.

Lemma forallb_weaken {A} (f g : A -> bool) l :
  (forall x, f x = true -> g x = true) -> forallb f l = true -> forallb g l = true.
Proof. intros Hfg. rewrite !forallb_forall. auto. Qed.

Lemma not_space_of (f : ascii -> bool) c :
  (forall c, GoStrings.is_space c = true -> f c = false) ->
  f c = true -> negb (GoStrings.is_space c) = true.
Proof. intros Hf Hc. destruct (GoStrings.is_space c) eqn:E; [|done]. by rewrite Hf in Hc. Qed.

(** An address [ValidateFormat] accepts has no white space. *)
Lemma ValidateFormat_no_space s :
  ValidateFormat s = true ->
  forallb (fun c => negb (GoStrings.is_space c)) (list_ascii_of_string s) = true.
Proof.
  unfold ValidateFormat. intros H. rewrite <- (GoStrings.Join_Split "@" s).
  destruct (GoStrings.Split "@" s) as [|l [|dom [|]]]; try discriminate.
  apply andb_true_iff in H as [H Hdom]. apply andb_true_iff in H as [_ Hl].
  apply GoStrings.forallb_Join; [reflexivity|]. repeat constructor.
  - revert Hl. apply forallb_weaken. intros x. apply not_space_of.
    intros y Hy. apply (space_not_address_char y Hy).
  - rewrite <- (GoStrings.Join_Split "." dom). apply GoStrings.forallb_Join; [reflexivity|].
    apply Forall_forall. intros lab Hlab. rewrite forallb_forall in Hdom.
    apply list_elem_of_In, Hdom in Hlab. unfold valid_label in Hlab.
    destruct (list_ascii_of_string lab) as [|c cs]; [discriminate|].
    apply andb_true_iff in Hlab as [_ Hlab]. revert Hlab. apply forallb_weaken. intros x.
    apply not_space_of. intros y Hy. apply (space_not_address_char y Hy).
Qed.

Example ValidateFormat_accepts : ValidateFormat "ana.maria@mail-1.example.com" = true.
Proof. reflexivity. Qed.

Example ValidateFormat_rejects_double_at : ValidateFormat "a@b@c" = false.
Proof. reflexivity. Qed.

Example ValidateFormat_rejects_leading_space : ValidateFormat " a@b.com" = false.
Proof. reflexivity. Qed.

Example ValidateFormat_rejects_empty_label : ValidateFormat "a@b..com" = false.
Proof. reflexivity. Qed.

End Checkmail.
