(* ===== verification/Security.v ===== *)
(** * Password hashing: [src/src/security/security.go]

    [HashPassword] and [PasswordCheck] are one-line wrappers over
    golang.org/x/crypto/bcrypt.  bcrypt itself is a library: it is stated
    here as an interface, the class [Hasher], whose laws are what the rest
    of the program relies on (generation succeeds up to 72 bytes, a hash
    verifies the password it was made from and no other one, a malformed
    hash is rejected).  The law [compare_other] is the one cryptographic
    idealisation of the development (no two passwords of at most 72 bytes
    share a hash); every theorem that depends on it takes the class as a
    parameter.  [model_bcrypt] is an executable instance of the interface,
    used by the witnesses and showing that the laws are consistent. *)

From S2P Require Import Prelude.
Open Scope Z_scope.

Module Security.

(** The bcrypt functions [security.go] calls.  The salt that bcrypt draws
    from [crypto/rand] on each call is an explicit argument. *)
Class Hasher := {
  GenerateFromPassword : Z -> string -> result string;
  CompareHashAndPassword : string -> string -> result unit;
  generate_ok : forall salt p,
    (String.length p <= 72)%nat -> exists h, GenerateFromPassword salt p = Ok h;
  generate_too_long : forall salt p,
    (72 < String.length p)%nat -> GenerateFromPassword salt p = Err ErrPasswordTooLong;
  compare_generated : forall salt p h,
    GenerateFromPassword salt p = Ok h -> CompareHashAndPassword h p = Ok tt;
  compare_other : forall salt p q h,
    GenerateFromPassword salt p = Ok h -> q <> p -> (String.length q <= 72)%nat ->
    CompareHashAndPassword h q = Err ErrMismatchedHashAndPassword;
  compare_empty_hash : forall q,
    CompareHashAndPassword EmptyString q = Err ErrHashTooShort
}.

Section WithHasher.
Context `{Hasher}.

(** [security.HashPassword]: [bcrypt.GenerateFromPassword(password, DefaultCost)]. *)
Definition HashPassword (salt : Z) (password : string) : result string :=
  GenerateFromPassword salt password.

(** [security.PasswordCheck]: [bcrypt.CompareHashAndPassword(hash, password)]. *)
Definition PasswordCheck (passwordWithHash passwordString : string) : result unit :=
  CompareHashAndPassword passwordWithHash passwordString.

Lemma HashPassword_length salt p h :
  HashPassword salt p = Ok h -> (String.length p <= 72)%nat.
Proof.
  unfold HashPassword. intros Hh.
  destruct (Nat.le_gt_cases (String.length p) 72) as [|Hgt]; [done|].
  rewrite generate_too_long in Hh by done. discriminate.
Qed.

Lemma PasswordCheck_HashPassword salt p h :
  HashPassword salt p = Ok h -> PasswordCheck h p = Ok tt.
Proof. apply compare_generated. Qed.

Lemma PasswordCheck_other salt p q h :
  HashPassword salt p = Ok h -> q <> p -> (String.length q <= 72)%nat ->
  PasswordCheck h q = Err ErrMismatchedHashAndPassword.
Proof. apply compare_other. Qed.

Lemma PasswordCheck_empty q : PasswordCheck EmptyString q = Err ErrHashTooShort.
Proof. apply compare_empty_hash. Qed.

End WithHasher.

#[export] Hint Resolve PasswordCheck_HashPassword PasswordCheck_empty : go.

(** ** An executable instance

    The encoding is "$2a$10$" followed by the password; it is not one-way,
    but it satisfies every law of [Hasher] and computes. *)
Definition bcrypt_prefix : string := "$2a$10$".

Fixpoint strip_prefix (pre s : string) : option string :=
  match pre, s with
  | EmptyString, _ => Some s
  | String a pre', String b s' => if ascii_dec a b then strip_prefix pre' s' else None
  | String _ _, EmptyString => None
  end.

Lemma strip_prefix_app pre s : strip_prefix pre (pre ++ s) = Some s.
Proof.
  induction pre as [|a pre IH]; simpl; [done|].
  destruct (ascii_dec a a); [done|congruence].
Qed.

Definition model_generate (salt : Z) (p : string) : result string :=
  if (72 <? String.length p)%nat then Err ErrPasswordTooLong
  else Ok (bcrypt_prefix ++ p)%string.

Definition model_compare (h q : string) : result unit :=
  match strip_prefix bcrypt_prefix h with
  | None => Err ErrHashTooShort
  | Some d => if string_dec d q then Ok tt else Err ErrMismatchedHashAndPassword
  end.

Lemma model_generate_ok salt p h : model_generate salt p = Ok h -> h = (bcrypt_prefix ++ p)%string.
Proof. unfold model_generate. destruct (_ <? _)%nat; congruence. Qed.

Definition model_bcrypt : Hasher.
Proof.
  refine {| GenerateFromPassword := model_generate;
            CompareHashAndPassword := model_compare |}.
  - intros salt p Hp. unfold model_generate.
    destruct (Nat.ltb_spec 72 (String.length p)); [lia|eauto].
  - intros salt p Hp. unfold model_generate.
    destruct (Nat.ltb_spec 72 (String.length p)); [done|lia].
  - intros salt p h ->%model_generate_ok. unfold model_compare.
    rewrite strip_prefix_app. by destruct (string_dec p p).
  - intros salt p q h ->%model_generate_ok Hne _. unfold model_compare.
    rewrite strip_prefix_app. by destruct (string_dec p q).
  - intros q. reflexivity.
Defined.

End Security.
