(* ===== verification/Models.v ===== *)
(** * The models: [src/src/models/User.go] and [Publication.go]

    The two records and their [Prepare] methods: [validate] (mandatory
    fields, e-mail format, and for stage "register" a password) followed by
    [format] (trim the text fields; for stage "register" replace the
    password by its bcrypt hash).  Each method is a function returning the
    updated record or the error [Prepare] returns. *)

From S2P Require Import Prelude GoLib Security.
Import GoStrings Security.
Open Scope Z_scope.

Module User.

(** [models.User]; [time.Time] is a Unix timestamp. *)
Record t := mk {
  ID : Z;
  Name : string;
  Nick : string;
  Email : string;
  Password : string;
  CreatedAt : Z
}.

Definition zero : t := mk 0 EmptyString EmptyString EmptyString EmptyString 0.

Definition set_password (u : t) (p : string) : t :=
  mk (ID u) (Name u) (Nick u) (Email u) p (CreatedAt u).

Definition set_id (u : t) (id : Z) : t :=
  mk id (Name u) (Nick u) (Email u) (Password u) (CreatedAt u).

Definition stage_register : string := "register".
Definition stage_edit : string := "edit".

(** [User.validate(stage)] (method of the pointer receiver): the checks in the order of the code. *)
Definition validate (stage : string) (u : t) : result unit :=
  if String.eqb (Name u) EmptyString then
    Err (ErrNew "the name is mandatory and cannot be blank")
  else if String.eqb (Nick u) EmptyString then
    Err (ErrNew "the nick is mandatory and cannot be blank")
  else if String.eqb (Email u) EmptyString then
    Err (ErrNew "the e-mail is mandatory and cannot be blank")
  else if negb (Checkmail.ValidateFormat (Email u)) then
    Err (ErrNew "the email provided does not correspond to a valid address")
  else if String.eqb stage stage_register && String.eqb (Password u) EmptyString then
    Err (ErrNew "the password is mandatory and cannot be blank")
  else Ok tt.

Section WithHasher.
Context `{Hasher}.

(** [User.format(stage)] (method of the pointer receiver): trim, then hash the password on "register";
    [salt] is the salt bcrypt draws for this call. *)
Definition format (salt : Z) (stage : string) (u : t) : result t :=
  let u1 := mk (ID u) (TrimSpace (Name u)) (TrimSpace (Nick u)) (TrimSpace (Email u))
              (Password u) (CreatedAt u) in
  if String.eqb stage stage_register then
    match HashPassword salt (Password u1) with
    | Ok h => Ok (set_password u1 h)
    | Err e => Err e
    end
  else Ok u1.

(** [User.Prepare(stage)] (method of the pointer receiver): [validate], then [format]. *)
Definition Prepare (salt : Z) (stage : string) (u : t) : result t :=
  match validate stage u with
  | Err e => Err e
  | Ok _ => format salt stage u
  end.

(** ** Lemmas *)

Lemma validate_ok stage u :
  validate stage u = Ok tt <->
  Name u <> EmptyString /\ Nick u <> EmptyString /\ Email u <> EmptyString /\
  Checkmail.ValidateFormat (Email u) = true /\
  (stage = stage_register -> Password u <> EmptyString).
Proof.
  unfold validate.
  destruct (String.eqb_spec (Name u) EmptyString), (String.eqb_spec (Nick u) EmptyString),
    (String.eqb_spec (Email u) EmptyString), (Checkmail.ValidateFormat (Email u)),
    (String.eqb_spec stage stage_register), (String.eqb_spec (Password u) EmptyString);
    simpl; split; intros; try discriminate; try naive_solver.
Qed.

Lemma Prepare_validate salt stage u u' :
  Prepare salt stage u = Ok u' -> validate stage u = Ok tt.
Proof. unfold Prepare. by destruct (validate stage u) as [[]|]. Qed.

(** What [Prepare] returns: the trimmed fields and, on "register", the
    hash of the password as sent. *)
Lemma Prepare_user_fields salt stage u u' :
  Prepare salt stage u = Ok u' ->
  ID u' = ID u /\ Name u' = TrimSpace (Name u) /\ Nick u' = TrimSpace (Nick u) /\
  Email u' = TrimSpace (Email u) /\ CreatedAt u' = CreatedAt u /\
  (if String.eqb stage stage_register then HashPassword salt (Password u) = Ok (Password u')
   else Password u' = Password u).
Proof.
  unfold Prepare, format. destruct (validate stage u) as [[]|]; [|discriminate].
  destruct (String.eqb stage stage_register); simpl.
  - destruct (HashPassword salt (Password u)) as [h|] eqn:Hh; [|discriminate].
    intros [= <-]. by split_and!.
  - intros [= <-]. by split_and!.
Qed.

End WithHasher.
End User.

Module Publication.

(** [models.Publication]. *)
Record t := mk {
  ID : Z;
  Title : string;
  Content : string;
  AuthorID : Z;
  AuthorNick : string;
  Likes : Z;
  CreatedAt : Z
}.

Definition zero : t := mk 0 EmptyString EmptyString 0 EmptyString 0 0.

Definition set_author (p : t) (a : Z) : t :=
  mk (ID p) (Title p) (Content p) a (AuthorNick p) (Likes p) (CreatedAt p).

Definition set_id (p : t) (id : Z) : t :=
  mk id (Title p) (Content p) (AuthorID p) (AuthorNick p) (Likes p) (CreatedAt p).

(** [Publication.validate()]. *)
Definition validate (p : t) : result unit :=
  if String.eqb (Title p) EmptyString then Err (ErrNew "o título é obrigatório")
  else if String.eqb (Content p) EmptyString then Err (ErrNew "o content é obrigatório")
  else Ok tt.

(** [Publication.format()]. *)
Definition format (p : t) : t :=
  mk (ID p) (TrimSpace (Title p)) (TrimSpace (Content p)) (AuthorID p) (AuthorNick p)
     (Likes p) (CreatedAt p).

(** [Publication.Prepare()]. *)
Definition Prepare (p : t) : result t :=
  match validate p with
  | Err e => Err e
  | Ok _ => Ok (format p)
  end.

Lemma Prepare_publication_fields p p' :
  Prepare p = Ok p' ->
  Title p <> EmptyString /\ Content p <> EmptyString /\
  Title p' = TrimSpace (Title p) /\ Content p' = TrimSpace (Content p) /\
  ID p' = ID p /\ AuthorID p' = AuthorID p /\ Likes p' = Likes p.
Proof.
  unfold Prepare, validate.
  destruct (String.eqb_spec (Title p) EmptyString); [discriminate|].
  destruct (String.eqb_spec (Content p) EmptyString); [discriminate|].
  intros [= <-]. by split_and!.
Qed.

Lemma Prepare_set_author q a p :
  Prepare (set_author q a) = Ok p -> AuthorID p = a.
Proof. intros Hp. by destruct (Prepare_publication_fields _ _ Hp) as (_ & _ & _ & _ & _ & -> & _). Qed.

End Publication.

(** ** Main properties of the models *)

(** The e-mail a prepared user carries is the address checkmail
    validated: [validate] runs [checkmail.ValidateFormat] on the e-mail as
    sent, an address it accepts has no white space, so the [TrimSpace] of
    [format] leaves it as it is and the stored e-mail passes the format
    check. *)
Theorem Prepare_email_valid `{Hasher} salt stage u u' :
  User.Prepare salt stage u = Ok u' ->
  Checkmail.ValidateFormat (User.Email u') = true /\ User.Email u' = User.Email u.
Proof.
  intros Hp. pose proof (User.Prepare_validate _ _ _ _ Hp) as Hv.
  apply User.validate_ok in Hv as (_ & _ & _ & Hf & _).
  destruct (User.Prepare_user_fields _ _ _ _ Hp) as (_ & _ & _ & He & _).
  rewrite He, TrimSpace_id by (by apply Checkmail.ValidateFormat_no_space). done.
Qed.

(** C21: Both models validate before they trim, so a blank field is
    accepted and stored empty.  Take any user that [User.Prepare]
    accepts.  Replace its name by a non-empty string of white space, and
    [Prepare] still accepts it: [validate] sees a non-empty name, and
    [format] trims it to the empty string.  The result is the same
    prepared user with an empty name.  Likewise [Publication.Prepare]
    accepts a title and a content made only of white space and returns
    them empty.  Trimming before validating would reject these inputs
    instead. *)
Theorem Prepare_accepts_blank `{Hasher} salt stage u u' s c :
  User.Prepare salt stage u = Ok u' ->
  s <> EmptyString -> all_space s = true -> c <> EmptyString -> all_space c = true ->
  User.Prepare salt stage
    (User.mk (User.ID u) s (User.Nick u) (User.Email u) (User.Password u) (User.CreatedAt u)) =
    Ok (User.mk (User.ID u') EmptyString (User.Nick u') (User.Email u') (User.Password u')
          (User.CreatedAt u')) /\
  (forall id a n l ca, Publication.Prepare (Publication.mk id s c a n l ca) =
     Ok (Publication.mk id EmptyString EmptyString a n l ca)).
Proof.
  intros Hp Hs Hbs Hc Hbc. rewrite <- TrimSpace_empty in Hbs, Hbc. split.
  - pose proof (User.Prepare_validate _ _ _ _ Hp) as Hv.
    apply User.validate_ok in Hv as (_ & Hn & He & Hf & Hpw).
    assert (Hv : User.validate stage
      (User.mk (User.ID u) s (User.Nick u) (User.Email u) (User.Password u) (User.CreatedAt u)) = Ok tt)
      by (apply User.validate_ok; simpl; auto).
    unfold User.Prepare in *. rewrite Hv. destruct (User.validate stage u) as [[]|]; [|discriminate].
    unfold User.format in *. simpl in *. rewrite Hbs.
    destruct (String.eqb stage User.stage_register).
    + destruct (HashPassword salt (User.Password u)); [|discriminate]. by injection Hp as <-.
    + by injection Hp as <-.
  - intros id a n l ca. unfold Publication.Prepare, Publication.validate. simpl.
    destruct (String.eqb_spec s EmptyString); [done|]. destruct (String.eqb_spec c EmptyString); [done|].
    unfold Publication.format. simpl. by rewrite Hbs, Hbc.
Qed.

(** Witness, with the executable bcrypt instance: Ana's profile edit with
    a name of three spaces is accepted with an empty name, and so is a
    publication whose title and content are spaces. *)
Lemma Prepare_accepts_blank_witness :
  User.Prepare (H := model_bcrypt) 0 User.stage_edit
    (User.mk 0 "Ana" "ana" "ana@mail.com" "pw" 0) =
    Ok (User.mk 0 "Ana" "ana" "ana@mail.com" "pw" 0) /\
  User.Prepare (H := model_bcrypt) 0 User.stage_edit
    (User.mk 0 "   " "ana" "ana@mail.com" "pw" 0) =
    Ok (User.mk 0 EmptyString "ana" "ana@mail.com" "pw" 0) /\
  Publication.Prepare (Publication.mk 0 "   " "  " 1 "" 0 0) =
    Ok (Publication.mk 0 EmptyString EmptyString 1 "" 0 0).
Proof.
  assert (Hu : User.Prepare (H := model_bcrypt) 0 User.stage_edit
                 (User.mk 0 "Ana" "ana" "ana@mail.com" "pw" 0) =
               Ok (User.mk 0 "Ana" "ana" "ana@mail.com" "pw" 0)) by reflexivity.
  destruct (Prepare_accepts_blank 0 User.stage_edit _ _ "   " "  " Hu
              ltac:(discriminate) eq_refl ltac:(discriminate) eq_refl) as [H1 H2].
  split; [exact Hu|]. split; [exact H1|]. exact (H2 0 1 "" 0 0).
Defined.
