(* ===== verification/Http.v ===== *)
(** * Requests, responses and the request environment

    What a handler of [src/src/controllers] reads and writes: the request
    (method, path, the path variables [mux.Vars] fills in, the query, the
    [Authorization] header and the body), the response written through the
    [answers] package ([answers.JSON], [answers.Err]) or [w.Write], and
    the per-request environment: the signing secret and clock the token
    service reads, the salt bcrypt draws, and whether [database.Connect]
    and the SQL statements succeed.  The body is kept at the level of what
    [json.Unmarshal] produces for each destination struct. *)

From S2P Require Import Prelude Models.
Open Scope Z_scope.

Module Http.

(** The [http.Status*] constants the code uses, and the ones mux answers. *)
Inductive status :=
| StatusOK | StatusCreated | StatusNoContent
| StatusBadRequest | StatusUnauthorized | StatusForbidden | StatusNotFound
| StatusMethodNotAllowed | StatusUnprocessableEntity | StatusInternalServerError.

#[export] Instance status_eq_dec : EqDecision status.
Proof. solve_decision. Defined.

Definition code (s : status) : Z :=
  match s with
  | StatusOK => 200 | StatusCreated => 201 | StatusNoContent => 204
  | StatusBadRequest => 400 | StatusUnauthorized => 401 | StatusForbidden => 403
  | StatusNotFound => 404 | StatusMethodNotAllowed => 405
  | StatusUnprocessableEntity => 422 | StatusInternalServerError => 500
  end.

(** [models.Password] (the body of update-password): not under [src/];
    its two fields are the ones the handler reads. *)
Record password_body := mkPassword { Current : string; New : string }.

(** A request body, as far as [ioutil.ReadAll] and [json.Unmarshal] can
    tell: unreadable, not JSON, or a JSON object carrying the fields of one
    of the structs. *)
Inductive body :=
| BodyUnreadable
| BodyInvalidJson
| BodyUser (u : User.t)
| BodyPublication (p : Publication.t)
| BodyPassword (pw : password_body).

Record request := mkRequest {
  req_method : string;
  req_path : string;
  req_vars : gmap string string;   (* mux.Vars(r) *)
  req_query : gmap string string;  (* r.URL.Query() *)
  req_auth : option string;        (* r.Header.Get("Authorization") *)
  req_body : body
}.

Definition with_vars (r : request) (vars : gmap string string) : request :=
  mkRequest (req_method r) (req_path r) vars (req_query r) (req_auth r) (req_body r).

(** [mux.Vars(r)[name]]: the empty string when the route has no such
    variable. *)
Definition var (r : request) (name : string) : string :=
  default EmptyString (req_vars r !! name).

(** [ioutil.ReadAll(r.Body)]. *)
Definition ReadAll (r : request) : result body :=
  match req_body r with
  | BodyUnreadable => Err ErrBody
  | b => Ok b
  end.

(** [json.Unmarshal] into [models.User]: the fields of another struct that
    share a JSON name ("id", "createdat") are decoded, the others stay zero. *)
Definition unmarshal_user (b : body) : result User.t :=
  match b with
  | BodyUnreadable | BodyInvalidJson => Err ErrJson
  | BodyUser u => Ok u
  | BodyPublication p =>
      Ok (User.mk (Publication.ID p) EmptyString EmptyString EmptyString EmptyString
                  (Publication.CreatedAt p))
  | BodyPassword _ => Ok User.zero
  end.

(** [json.Unmarshal] into [models.Publication]. *)
Definition unmarshal_publication (b : body) : result Publication.t :=
  match b with
  | BodyUnreadable | BodyInvalidJson => Err ErrJson
  | BodyPublication p => Ok p
  | BodyUser u =>
      Ok (Publication.mk (User.ID u) EmptyString EmptyString 0 EmptyString 0 (User.CreatedAt u))
  | BodyPassword _ => Ok Publication.zero
  end.

(** [json.Unmarshal] into [models.Password]. *)
Definition unmarshal_password (b : body) : result password_body :=
  match b with
  | BodyUnreadable | BodyInvalidJson => Err ErrJson
  | BodyPassword pw => Ok pw
  | _ => Ok (mkPassword EmptyString EmptyString)
  end.

(** What a handler writes. *)
Inductive payload :=
| PNone
| PError (e : goerr)
| PUser (u : User.t)
| PUsers (us : list User.t)
| PPublication (p : Publication.t)
| PPublications (ps : list Publication.t)
| PToken (tok : string).

Record response := mkResponse { resp_status : status; resp_payload : payload }.

(** [answers.JSON(w, status, data)] and [answers.Err(w, status, err)]. *)
Definition JSON (s : status) (p : payload) : response := mkResponse s p.
Definition Error (s : status) (e : goerr) : response := mkResponse s (PError e).

(** The environment of one request. *)
Record env := mkEnv {
  env_secret : string;   (* config.SecretKey *)
  env_now : Z;           (* time.Now().Unix() *)
  env_salt : Z;          (* the salt bcrypt draws *)
  env_connect : bool;    (* database.Connect() succeeds *)
  env_exec : bool        (* the SQL statements succeed *)
}.

End Http.
