(* ===== verification/Auth.v ===== *)
(** * The token service (package [authentication], spec-modelled)

    The controllers call [authentication.CreateToken(userID)] (login) and
    [authentication.ExtractUserID(r)] (every protected handler); the
    middleware [Authenticate] calls [ValidateToken].  The package is not
    under [src/], so it is modelled from the specification: a token is a
    three-part signed structure carrying the subject, the issue time and
    the expiry, here the '.'-joined string
    ["HS256" . sub . iat . exp . signature] of decimal [uint64] fields; the
    signature is an HMAC of the claims under the process-wide secret; a
    token is accepted when its signature verifies and [now < exp]; the
    token is read from an [Authorization: Bearer <token>] header.  The HMAC
    is an interface ([Signer]): no property below depends on which keyed
    function it is. *)

From S2P Require Import Prelude GoLib Models Http.
Import ListNotations GoStrings GoStrconv Http.
Open Scope Z_scope.

Module Auth.

(** The keyed MAC of the signature scheme, with its 64-bit output. *)
Class Signer := {
  HMAC : string -> string -> Z;
  HMAC_u64 : forall key msg, is_u64 (HMAC key msg)
}.

(** The claims of a token. *)
Record claims := mkClaims { sub : Z; iat : Z; exp : Z }.

(** Validity window of an issued token, in seconds (a fixed configuration
    constant of the token service). *)
Definition TTL : Z := 6 * 3600.

Definition header : string := "HS256".

Definition signing_input (c : claims) : string :=
  Join "." [FormatUint (sub c); FormatUint (iat c); FormatUint (exp c)].

Definition encode (c : claims) (signature : Z) : string :=
  Join "." [header; FormatUint (sub c); FormatUint (iat c); FormatUint (exp c);
            FormatUint signature].

(** The [Authorization] header value for a token. *)
Definition bearer (tok : string) : string := ("Bearer" ++ String " " tok)%string.

Section WithSigner.
Context `{Signer}.

Definition sign (secret : string) (c : claims) : string :=
  encode c (HMAC secret (signing_input c)).

(** [authentication.CreateToken(userID)] at time [now]. *)
Definition CreateToken (secret : string) (now userID : Z) : result string :=
  Ok (sign secret (mkClaims userID now (now + TTL))).

(** Parse the structure of a token: five fields, the header, four
    [uint64]s. *)
Definition parse_token (tok : string) : result (claims * Z) :=
  match Split "." tok with
  | [h; s; i; e; g] =>
      if String.eqb h header then
        match ParseUint s, ParseUint i, ParseUint e, ParseUint g with
        | Ok s', Ok i', Ok e', Ok g' => Ok (mkClaims s' i' e', g')
        | _, _, _, _ => Err ErrInvalidToken
        end
      else Err ErrInvalidToken
  | _ => Err ErrInvalidToken
  end.

(** [authentication.ValidateToken]: structure, then signature, then
    expiry. *)
Definition ValidateToken (secret : string) (now : Z) (tok : string) : result claims :=
  match parse_token tok with
  | Err e => Err e
  | Ok (c, g) =>
      if negb (g =? HMAC secret (signing_input c)) then Err ErrInvalidToken
      else if now <? exp c then Ok c
      else Err ErrExpiredToken
  end.

(** [extractToken(r)]: the second word of a two-word [Authorization]
    header with the [Bearer] scheme, otherwise the empty string. *)
Definition extractToken (h : option string) : string :=
  match h with
  | None => EmptyString
  | Some v =>
      match Split " " v with
      | [scheme; tok] => if String.eqb scheme "Bearer" then tok else EmptyString
      | _ => EmptyString
      end
  end.

(** [authentication.ExtractUserID(r)]. *)
Definition ExtractUserID (e : env) (r : request) : result Z :=
  match ValidateToken (env_secret e) (env_now e) (extractToken (req_auth r)) with
  | Ok c => Ok (sub c)
  | Err err => Err err
  end.

(** ** Lemmas *)

Definition claims_u64 (c : claims) : Prop := is_u64 (sub c) /\ is_u64 (iat c) /\ is_u64 (exp c).

Lemma FormatUint_no_byte c n :
  digit_val c = None -> is_u64 n -> has_byte c (FormatUint n) = false.
Proof. intros Hc Hn. apply all_digits_no_byte; [done|by apply FormatUint_all_digits]. Qed.

(** Parsing inverts encoding. *)
Lemma parse_encode c g :
  claims_u64 c -> is_u64 g -> parse_token (encode c g) = Ok (c, g).
Proof.
  intros (Hs & Hi & He) Hg. unfold parse_token, encode.
  rewrite Split_Join; [|discriminate|].
  - simpl. rewrite !ParseUint_FormatUint by done. by destruct c.
  - repeat constructor; try reflexivity; by apply FormatUint_no_byte.
Qed.

Lemma encode_no_space c g : claims_u64 c -> is_u64 g -> has_byte " " (encode c g) = false.
Proof.
  intros (Hs & Hi & He) Hg. apply has_byte_Join; [discriminate|].
  repeat constructor; try reflexivity; by apply FormatUint_no_byte.
Qed.

Lemma extractToken_bearer tok :
  has_byte " " tok = false -> extractToken (Some (bearer tok)) = tok.
Proof.
  intros Htok. unfold extractToken, bearer.
  change ("Bearer" ++ String " " tok)%string with (Join " " ["Bearer"; tok]).
  rewrite Split_Join; [done|discriminate|]. repeat constructor; done.
Qed.

(** The verdict on a well-formed token: signature first, then expiry. *)
Lemma ValidateToken_encode secret now c g :
  claims_u64 c -> is_u64 g ->
  ValidateToken secret now (encode c g) =
    if negb (g =? HMAC secret (signing_input c)) then Err ErrInvalidToken
    else if now <? exp c then Ok c else Err ErrExpiredToken.
Proof. intros Hc Hg. unfold ValidateToken. by rewrite parse_encode. Qed.

(** What acceptance means: the token parses to claims whose signature is
    the HMAC of the claims under the secret, and it has not expired. *)
Lemma ValidateToken_sound secret now tok c :
  ValidateToken secret now tok = Ok c ->
  exists g, parse_token tok = Ok (c, g) /\ g = HMAC secret (signing_input c) /\ now < exp c.
Proof.
  unfold ValidateToken. destruct (parse_token tok) as [[c' g]|]; [|discriminate].
  destruct (Z.eqb_spec g (HMAC secret (signing_input c'))); [|discriminate].
  destruct (Z.ltb_spec now (exp c')); [|discriminate]. intros [= <-]. eauto.
Qed.

(** The claims of a token that parses are [uint64]s. *)
Lemma parse_token_u64 tok c g : parse_token tok = Ok (c, g) -> claims_u64 c /\ is_u64 g.
Proof.
  unfold parse_token. destruct (Split "." tok) as [|h [|s [|i [|x [|y [|]]]]]]; try discriminate.
  destruct (String.eqb h header); [|discriminate].
  destruct (ParseUint s) eqn:Hs; try discriminate; destruct (ParseUint i) eqn:Hi; try discriminate;
    destruct (ParseUint x) eqn:Hx; try discriminate; destruct (ParseUint y) eqn:Hy; try discriminate.
  intros [= <- <-]. split; [split; [|split]|]; simpl; eapply ParseUint_u64; eauto.
Qed.

(** The identity a request is attributed to is a [uint64]. *)
Lemma ExtractUserID_u64 e r u : ExtractUserID e r = Ok u -> is_u64 u.
Proof.
  unfold ExtractUserID. destruct (ValidateToken _ _ _) as [c|] eqn:Hv; [|discriminate].
  intros [= <-]. apply ValidateToken_sound in Hv as (g & Hp & _).
  by destruct (parse_token_u64 _ _ _ Hp) as [[Hs _] _].
Qed.

Lemma ExtractUserID_sound e r u :
  ExtractUserID e r = Ok u ->
  exists c, ValidateToken (env_secret e) (env_now e) (extractToken (req_auth r)) = Ok c /\ sub c = u.
Proof.
  unfold ExtractUserID. destruct (ValidateToken _ _ _) as [c|]; [|discriminate].
  intros [= <-]. eauto.
Qed.

(** Without an [Authorization] header the request is not authenticated. *)
Lemma ExtractUserID_no_header e r :
  req_auth r = None -> ExtractUserID e r = Err ErrInvalidToken.
Proof. intros Hr. unfold ExtractUserID. by rewrite Hr. Qed.

Lemma extractToken_encode c g :
  claims_u64 c -> is_u64 g -> extractToken (Some (bearer (encode c g))) = encode c g.
Proof. intros Hc Hg. by apply extractToken_bearer, encode_no_space. Qed.

Lemma sign_claims_u64 now u :
  is_u64 u -> is_u64 now -> is_u64 (now + TTL) -> claims_u64 (mkClaims u now (now + TTL)).
Proof. by split; [|split]. Qed.

(** ** Main properties of the token service *)

(** Round trip: a request that carries, as a bearer token, the
    token issued for user [u] at time [t0] is attributed to [u] by
    [ExtractUserID] at every time before the token's expiry [t0 + TTL]. *)
Theorem ExtractUserID_CreateToken e r u t0 tok :
  is_u64 u -> is_u64 t0 -> is_u64 (t0 + TTL) -> env_now e < t0 + TTL ->
  CreateToken (env_secret e) t0 u = Ok tok ->
  req_auth r = Some (bearer tok) ->
  ExtractUserID e r = Ok u.
Proof.
  intros Hu Ht0 Hexp Hnow [= <-] Hr. unfold ExtractUserID. rewrite Hr.
  pose proof (sign_claims_u64 t0 u Hu Ht0 Hexp) as Hc.
  unfold sign. rewrite extractToken_bearer by (apply encode_no_space; auto using HMAC_u64).
  rewrite ValidateToken_encode by auto using HMAC_u64. rewrite Z.eqb_refl. simpl.
  by destruct (Z.ltb_spec (env_now e) (t0 + TTL)); [|lia].
Qed.

(** Expiry: a token whose signature verifies is rejected with the
    distinguishable [ErrExpiredToken] once [exp <= now]. *)
Theorem ValidateToken_expired secret now c :
  claims_u64 c -> exp c <= now ->
  ValidateToken secret now (sign secret c) = Err ErrExpiredToken.
Proof.
  intros Hc Hle. unfold sign. rewrite ValidateToken_encode by auto using HMAC_u64.
  rewrite Z.eqb_refl. simpl. by destruct (Z.ltb_spec now (exp c)); [lia|].
Qed.

(** Tampering: flipping any one of the 64 bits of the signature of
    a token makes it invalid ([ErrInvalidToken]), at any time, expired or
    not: the signature is checked before the expiry. *)
Theorem ValidateToken_tampered secret now c i :
  claims_u64 c -> 0 <= i < 64 ->
  ValidateToken secret now (encode c (Z.lxor (HMAC secret (signing_input c)) (2 ^ i)))
  = Err ErrInvalidToken.
Proof.
  intros Hc Hi. rewrite ValidateToken_encode by auto using lxor_u64, HMAC_u64, pow2_u64.
  destruct (Z.eqb_spec (Z.lxor (HMAC secret (signing_input c)) (2 ^ i))
                       (HMAC secret (signing_input c))) as [E|]; [|done].
  exfalso. by apply (lxor_pow2_ne (HMAC secret (signing_input c)) i ltac:(lia)).
Qed.

End WithSigner.

(** ** Executable instance for the witnesses *)
Definition model_signer : Signer.
Proof.
  refine {| HMAC := fun key msg =>
              (Z.of_nat (String.length key) * 1000003 + Z.of_nat (String.length msg)) mod u64_modulus |}.
  intros key msg. apply Z.mod_pos_bound. reflexivity.
Defined.

(** Examples, with the executable signer: secret "k", a token issued at
    time 50 for user 1, presented at time 100. *)
Lemma ExtractUserID_CreateToken_witness :
  let e := mkEnv "k" 100 0 true true in
  let tok := sign (H := model_signer) "k" (mkClaims 1 50 (50 + TTL)) in
  let r := mkRequest "GET" "/users" ∅ ∅ (Some (bearer tok)) BodyInvalidJson in
  is_u64 1 /\ is_u64 50 /\ is_u64 (50 + TTL) /\ env_now e < 50 + TTL /\
  CreateToken (H := model_signer) (env_secret e) 50 1 = Ok tok /\
  req_auth r = Some (bearer tok) /\
  ExtractUserID (H := model_signer) e r = Ok 1.
Proof.
  intros e tok r.
  assert (H1 : is_u64 1) by (unfold is_u64, u64_modulus; lia).
  assert (H2 : is_u64 50) by (unfold is_u64, u64_modulus; lia).
  assert (H3 : is_u64 (50 + TTL)) by (unfold is_u64, u64_modulus, TTL; lia).
  assert (H4 : env_now e < 50 + TTL) by (simpl; unfold TTL; lia).
  split; [exact H1|]. split; [exact H2|]. split; [exact H3|]. split; [exact H4|].
  split; [reflexivity|]. split; [reflexivity|].
  exact (ExtractUserID_CreateToken e r 1 50 tok H1 H2 H3 H4 eq_refl eq_refl).
Defined.

Lemma ValidateToken_expired_witness :
  claims_u64 (mkClaims 1 0 10) /\ exp (mkClaims 1 0 10) <= 20 /\
  ValidateToken (H := model_signer) "k" 20 (sign (H := model_signer) "k" (mkClaims 1 0 10))
    = Err ErrExpiredToken.
Proof.
  assert (Hc : claims_u64 (mkClaims 1 0 10)) by (unfold claims_u64, is_u64, u64_modulus; simpl; lia).
  assert (Hl : exp (mkClaims 1 0 10) <= 20) by (simpl; lia).
  split; [exact Hc|]. split; [exact Hl|]. exact (ValidateToken_expired "k" 20 _ Hc Hl).
Defined.

Lemma ValidateToken_tampered_witness :
  claims_u64 (mkClaims 1 50 (50 + TTL)) /\ 0 <= 5 < 64 /\
  ValidateToken (H := model_signer) "k" 100
    (encode (mkClaims 1 50 (50 + TTL))
       (Z.lxor (HMAC (Signer := model_signer) "k" (signing_input (mkClaims 1 50 (50 + TTL)))) (2 ^ 5)))
  = Err ErrInvalidToken.
Proof.
  assert (Hc : claims_u64 (mkClaims 1 50 (50 + TTL)))
    by (unfold claims_u64, is_u64, u64_modulus, TTL; simpl; lia).
  assert (Hi : 0 <= 5 < 64) by lia.
  split; [exact Hc|]. split; [exact Hi|]. exact (ValidateToken_tampered "k" 100 _ 5 Hc Hi).
Defined.

End Auth.
