(* ===== verification/Store.v ===== *)
(** * The database and the repositories: [src/src/repositories]

    The MySQL database is modelled by its three tables and its two
    AUTO_INCREMENT counters: [users] and [publications] are maps from the
    primary key to the row, [followers] is the set of its
    [(user_id, follower_id)] rows (its primary key, which makes
    [insert ignore] idempotent).  Each repository method is one function:
    its SQL statement evaluated on the tables, or [ErrStorage] when the
    statement fails ([env_exec] false).  A query selects only some columns:
    the other fields of the Go struct it scans into stay at their zero
    value, as in the code.  The schema itself is not under [src/]: the
    model assumes no foreign-key cascades, no unique keys besides the
    primary keys, and a case-insensitive collation for [like]. *)

From S2P Require Import Prelude GoLib Models Http.
Import ListNotations Http.
Open Scope Z_scope.

Module Store.

Record db := mkDb {
  users : gmap Z User.t;
  followers : gset (Z * Z);
  publications : gmap Z Publication.t;
  next_user : Z;
  next_pub : Z
}.

Definition set_users (d : db) (m : gmap Z User.t) : db :=
  mkDb m (followers d) (publications d) (next_user d) (next_pub d).
Definition set_followers (d : db) (f : gset (Z * Z)) : db :=
  mkDb (users d) f (publications d) (next_user d) (next_pub d).
Definition set_publications (d : db) (m : gmap Z Publication.t) : db :=
  mkDb (users d) (followers d) m (next_user d) (next_pub d).

(** ** SQL helpers *)

(** [s like p] under a case-insensitive collation: '%' matches any
    sequence, '_' any one character. *)
Fixpoint like_list (p s : list ascii) : bool :=
  match p with
  | [] => match s with [] => true | _ => false end
  | c :: p' =>
      if ascii_dec c "%" then
        (fix any (s : list ascii) : bool :=
           like_list p' s || match s with [] => false | _ :: s' => any s' end) s
      else match s with
           | [] => false
           | d :: s' =>
               (if ascii_dec c "_" then true
                else if ascii_dec (GoStrings.lower_byte c) (GoStrings.lower_byte d) then true else false)
               && like_list p' s'
           end
  end.

Definition like (s p : string) : bool := like_list (list_ascii_of_string p) (list_ascii_of_string s).

(** A search term without the two wildcards of LIKE. *)
Definition no_wildcards (q : string) : bool :=
  forallb (fun c => negb (bool_decide (c = "%"%char) || bool_decide (c = "_"%char)))
    (list_ascii_of_string q).

(** The reference meaning of the search: [s] contains [q], ignoring the
    case of ASCII letters. *)
Definition contains_ci (s q : string) : Prop :=
  exists pre post, map GoStrings.lower_byte (list_ascii_of_string s) =
    pre ++ map GoStrings.lower_byte (list_ascii_of_string q) ++ post.

(** The columns [id, name, nick, email, createdat] of a user row. *)
Definition user_columns (u : User.t) : User.t :=
  User.mk (User.ID u) (User.Name u) (User.Nick u) (User.Email u) EmptyString (User.CreatedAt u).

(** A publication row joined with its author's nick ([p.*, u.nick]). *)
Definition with_nick (p : Publication.t) (nick : string) : Publication.t :=
  Publication.mk (Publication.ID p) (Publication.Title p) (Publication.Content p)
    (Publication.AuthorID p) nick (Publication.Likes p) (Publication.CreatedAt p).

(** [if rows.Next() { rows.Scan(...) }]: the first row, or the zero value. *)
Definition first_or {A} (zero : A) (rows : list A) : A := default zero (head rows).

Definition guard {A} (e : env) (k : result A) : result A :=
  if env_exec e then k else Err ErrStorage.

Module Users.

(** [Users.Create]: [insert into users (name, nick, email, password)]. *)
Definition Create (e : env) (u : User.t) (d : db) : result (Z * db) :=
  guard e (
    let id := next_user d in
    let row := User.mk id (User.Name u) (User.Nick u) (User.Email u) (User.Password u) (env_now e) in
    Ok (id, mkDb (<[id := row]> (users d)) (followers d) (publications d) (id + 1) (next_pub d))).

(** [Users.Search]: [where name like %s% or nick like %s%]. *)
Definition Search (e : env) (nameOuNick : string) (d : db) : result (list User.t) :=
  let pat := ("%" ++ nameOuNick ++ "%")%string in
  guard e (Ok (map (fun kv => user_columns kv.2)
                   (filter (fun kv => like (User.Name kv.2) pat = true \/ like (User.Nick kv.2) pat = true)
                           (map_to_list (users d))))).

(** [Users.SearchID]: the row, or a zero [User] when there is none. *)
Definition SearchID (e : env) (id : Z) (d : db) : result User.t :=
  guard e (Ok (from_option user_columns User.zero (users d !! id))).

(** [Users.SearchEmail]: [select id, password where email = ?], first row. *)
Definition SearchEmail (e : env) (email : string) (d : db) : result User.t :=
  guard e (Ok (first_or User.zero
    (map (fun kv => User.mk (User.ID kv.2) EmptyString EmptyString EmptyString (User.Password kv.2) 0)
         (filter (fun kv => User.Email kv.2 = email) (map_to_list (users d)))))).

(** [Users.Update]: [update users set name, nick, email where id = ?]. *)
Definition Update (e : env) (id : Z) (u : User.t) (d : db) : result db :=
  guard e (Ok (set_users d (alter (fun row =>
    User.mk (User.ID row) (User.Name u) (User.Nick u) (User.Email u) (User.Password row)
            (User.CreatedAt row)) id (users d)))).

(** [Users.Delete]: [delete from users where id = ?]. *)
Definition Delete (e : env) (id : Z) (d : db) : result db :=
  guard e (Ok (set_users d (delete id (users d)))).

(** [Users.Follow]: [insert ignore into followers (user_id, follower_id)]. *)
Definition Follow (e : env) (userID followerID : Z) (d : db) : result db :=
  guard e (Ok (set_followers d ({[(userID, followerID)]} ∪ followers d))).

(** [Users.Unfollowollow]: [delete from followers where user_id and follower_id]. *)
Definition Unfollowollow (e : env) (userID followerID : Z) (d : db) : result db :=
  guard e (Ok (set_followers d (followers d ∖ {[(userID, followerID)]}))).

(** [Users.SearchFollowers]: the join is [u.id = s.follower_id] and the
    filter [s.follower_id = ?]: one copy of the user [userID] per user it
    follows. *)
Definition SearchFollowers (e : env) (userID : Z) (d : db) : result (list User.t) :=
  guard e (Ok (omap (fun pr => user_columns <$> users d !! pr.2)
                    (filter (fun pr => pr.2 = userID) (elements (followers d))))).

(** [Users.SearchFollowing]: the join is [u.id = s.user_id] and the filter
    [s.follower_id = ?]: the users that [userID] follows. *)
Definition SearchFollowing (e : env) (userID : Z) (d : db) : result (list User.t) :=
  guard e (Ok (omap (fun pr => user_columns <$> users d !! pr.1)
                    (filter (fun pr => pr.2 = userID) (elements (followers d))))).

(** [Users.UpdatePassword]: [update users set password where id = ?]. *)
Definition UpdatePassword (e : env) (id : Z) (password : string) (d : db) : result db :=
  guard e (Ok (set_users d (alter (fun row => User.set_password row password) id (users d)))).

(** [Users.SearchPassword]: the stored hash, or "" when there is no row. *)
Definition SearchPassword (e : env) (id : Z) (d : db) : result string :=
  guard e (Ok (from_option User.Password EmptyString (users d !! id))).

End Users.

Module Publications.

(** [Publications.Create]: [insert into publications (title, content, author_id)]. *)
Definition Create (e : env) (p : Publication.t) (d : db) : result (Z * db) :=
  guard e (
    let id := next_pub d in
    let row := Publication.mk id (Publication.Title p) (Publication.Content p)
                 (Publication.AuthorID p) EmptyString 0 (env_now e) in
    Ok (id, mkDb (users d) (followers d) (<[id := row]> (publications d)) (next_user d) (id + 1))).

(** The row [p.*, u.nick] of the join of a publication with its author. *)
Definition joined (d : db) (p : Publication.t) : option Publication.t :=
  (fun u => with_nick p (User.Nick u)) <$> users d !! Publication.AuthorID p.

(** [Publications.SearchID]: the joined row, or a zero [Publication]. *)
Definition SearchID (e : env) (id : Z) (d : db) : result Publication.t :=
  guard e (Ok (default Publication.zero (publications d !! id ≫= joined d))).

(** [Publications.Search]: [select distinct p.*, u.nick] over
    [publications p join users u on u.id = p.author_id join followers s on
    p.author_id = s.user_id where p.id = ? or s.follower_id = ?], read
    with [if rows.Next()]: at most the first row. *)
Definition Search (e : env) (userID : Z) (d : db) : result (list Publication.t) :=
  let rows := omap (fun kv => joined d kv.2)
                (filter (fun kv => Publication.ID kv.2 = userID \/
                          exists pr, pr ∈ followers d /\ pr.1 = Publication.AuthorID kv.2 /\ pr.2 = userID)
                   (filter (fun kv => exists pr, pr ∈ followers d /\ pr.1 = Publication.AuthorID kv.2)
                      (map_to_list (publications d)))) in
  guard e (Ok (take 1 rows)).

(** [Publications.Update]: [update publications set title, content where id = ?]. *)
Definition Update (e : env) (id : Z) (p : Publication.t) (d : db) : result db :=
  guard e (Ok (set_publications d (alter (fun row =>
    Publication.mk (Publication.ID row) (Publication.Title p) (Publication.Content p)
      (Publication.AuthorID row) (Publication.AuthorNick row) (Publication.Likes row)
      (Publication.CreatedAt row)) id (publications d)))).

(** [Publications.Delete]: [delete from publications where id = ?]. *)
Definition Delete (e : env) (id : Z) (d : db) : result db :=
  guard e (Ok (set_publications d (delete id (publications d)))).

(** [Publications.SearchUser]: the joined rows with [author_id = ?], read
    with [if rows.Next()]: at most the first row. *)
Definition SearchUser (e : env) (userID : Z) (d : db) : result (list Publication.t) :=
  guard e (Ok (take 1 (omap (fun kv => joined d kv.2)
    (filter (fun kv => Publication.AuthorID kv.2 = userID) (map_to_list (publications d)))))).

Definition set_likes (p : Publication.t) (n : Z) : Publication.t :=
  Publication.mk (Publication.ID p) (Publication.Title p) (Publication.Content p)
    (Publication.AuthorID p) (Publication.AuthorNick p) n (Publication.CreatedAt p).

(** [Publications.LikePublication]: [likes = likes + 1]. *)
Definition LikePublication (e : env) (id : Z) (d : db) : result db :=
  guard e (Ok (set_publications d
    (alter (fun row => set_likes row (Publication.Likes row + 1)) id (publications d)))).

(** [Publications.DislikePublication]:
    [likes = case when likes > 0 then likes - 1 else 0 end]. *)
Definition DislikePublication (e : env) (id : Z) (d : db) : result db :=
  guard e (Ok (set_publications d
    (alter (fun row => set_likes row (if 0 <? Publication.Likes row
                                      then Publication.Likes row - 1 else 0))
           id (publications d)))).

End Publications.

(** Unfold every repository method down to its [guard]. *)
Ltac unfold_repos := unfold Users.Create, Users.Search, Users.SearchID, Users.SearchEmail,
  Users.Update, Users.Delete, Users.Follow, Users.Unfollowollow, Users.SearchFollowers,
  Users.SearchFollowing, Users.UpdatePassword, Users.SearchPassword, Publications.Create,
  Publications.SearchID, Publications.Search, Publications.Update, Publications.Delete,
  Publications.SearchUser, Publications.LikePublication, Publications.DislikePublication, guard.

Create HintDb store discriminated.

(** ** The invariant of the database

    The AUTO_INCREMENT counters start at 1 and stay above every key; a
    row's [ID] column is its key; the follow table has no edge from a
    user to itself. *)
Record wf (d : db) : Prop := {
  wf_next_user : 1 <= next_user d;
  wf_next_pub : 1 <= next_pub d;
  wf_users : forall k u, users d !! k = Some u -> 1 <= k < next_user d /\ User.ID u = k;
  wf_pubs : forall k p, publications d !! k = Some p -> 1 <= k < next_pub d /\ Publication.ID p = k;
  wf_followers : forall a b, (a, b) ∈ followers d -> a <> b;
  wf_likes : forall k p, publications d !! k = Some p -> 0 <= Publication.Likes p
}.

Lemma users_Create_wf e u d id d' : Users.Create e u d = Ok (id, d') -> wf d -> wf d'.
Proof.
  unfold Users.Create, guard. destruct (env_exec e); [|discriminate]. intros [= <- <-] [].
  constructor; simpl; try lia; try done.
  intros k v. rewrite lookup_insert. case_decide as Hk; [intros [= <-]; simpl; lia|].
  intros Hv. destruct (wf_users0 k v Hv). split; [lia|done].
Qed.

(** A statement that keeps the key set and each row's [ID]. *)
Lemma wf_users_alter (f : User.t -> User.t) k d :
  (forall u, User.ID (f u) = User.ID u) -> wf d -> wf (set_users d (alter f k (users d))).
Proof.
  intros Hf []. constructor; simpl; try done.
  intros j v. rewrite lookup_alter. case_decide; [|apply wf_users0].
  subst. destruct (users d !! j) as [u|] eqn:Hu; [|discriminate]. intros [= <-].
  rewrite Hf. by apply wf_users0.
Qed.

Lemma wf_pubs_alter (f : Publication.t -> Publication.t) k d :
  (forall p, Publication.ID (f p) = Publication.ID p) ->
  (forall p, 0 <= Publication.Likes p -> 0 <= Publication.Likes (f p)) -> wf d ->
  wf (set_publications d (alter f k (publications d))).
Proof.
  intros Hf Hl []. constructor; simpl; try done.
  - intros j v. rewrite lookup_alter. case_decide; [|apply wf_pubs0].
    subst. destruct (publications d !! j) as [p|] eqn:Hp; [|discriminate]. intros [= <-].
    rewrite Hf. by apply wf_pubs0.
  - intros j v. rewrite lookup_alter. case_decide; [|apply wf_likes0].
    subst. destruct (publications d !! j) as [p|] eqn:Hp; [|discriminate]. intros [= <-].
    apply Hl. by apply (wf_likes0 j).
Qed.

Lemma users_Update_wf e k u d d' : Users.Update e k u d = Ok d' -> wf d -> wf d'.
Proof.
  unfold Users.Update, guard. destruct (env_exec e); [|discriminate]. intros [= <-].
  by apply wf_users_alter.
Qed.

Lemma users_UpdatePassword_wf e k p d d' : Users.UpdatePassword e k p d = Ok d' -> wf d -> wf d'.
Proof.
  unfold Users.UpdatePassword, guard. destruct (env_exec e); [|discriminate]. intros [= <-].
  by apply wf_users_alter.
Qed.

Lemma users_Delete_wf e k d d' : Users.Delete e k d = Ok d' -> wf d -> wf d'.
Proof.
  unfold Users.Delete, guard. destruct (env_exec e); [|discriminate]. intros [= <-] [].
  constructor; simpl; try done. intros j v. rewrite lookup_delete. case_decide; [done|].
  apply wf_users0.
Qed.

Lemma users_Follow_wf e a b d d' : Users.Follow e a b d = Ok d' -> a <> b -> wf d -> wf d'.
Proof.
  unfold Users.Follow, guard. destruct (env_exec e); [|discriminate]. intros [= <-] Hab [].
  constructor; simpl; try done. intros x y [[= -> ->]%elem_of_singleton|Hxy]%elem_of_union; auto.
Qed.

Lemma users_Unfollow_wf e a b d d' : Users.Unfollowollow e a b d = Ok d' -> wf d -> wf d'.
Proof.
  unfold Users.Unfollowollow, guard. destruct (env_exec e); [|discriminate]. intros [= <-] [].
  constructor; simpl; try done. intros x y [Hxy _]%elem_of_difference. auto.
Qed.

Lemma pubs_Create_wf e p d id d' : Publications.Create e p d = Ok (id, d') -> wf d -> wf d'.
Proof.
  unfold Publications.Create, guard. destruct (env_exec e); [|discriminate]. intros [= <- <-] [].
  constructor; simpl; try lia; try done.
  - intros k v. rewrite lookup_insert. case_decide as Hk; [intros [= <-]; simpl; lia|].
    intros Hv. destruct (wf_pubs0 k v Hv). split; [lia|done].
  - intros k v. rewrite lookup_insert. case_decide as Hk; [intros [= <-]; simpl; lia|].
    apply wf_likes0.
Qed.

Lemma pubs_Update_wf e k p d d' : Publications.Update e k p d = Ok d' -> wf d -> wf d'.
Proof.
  unfold Publications.Update, guard. destruct (env_exec e); [|discriminate]. intros [= <-].
  by apply wf_pubs_alter.
Qed.

Lemma pubs_Delete_wf e k d d' : Publications.Delete e k d = Ok d' -> wf d -> wf d'.
Proof.
  unfold Publications.Delete, guard. destruct (env_exec e); [|discriminate]. intros [= <-] [].
  constructor; simpl; try done; intros j v; rewrite lookup_delete; case_decide; try done.
  - apply wf_pubs0.
  - apply wf_likes0.
Qed.

Lemma pubs_Like_wf e k d d' : Publications.LikePublication e k d = Ok d' -> wf d -> wf d'.
Proof.
  unfold Publications.LikePublication, guard. destruct (env_exec e); [|discriminate].
  intros [= <-]. apply wf_pubs_alter; [done|simpl; lia].
Qed.

Lemma pubs_Dislike_wf e k d d' : Publications.DislikePublication e k d = Ok d' -> wf d -> wf d'.
Proof.
  unfold Publications.DislikePublication, guard. destruct (env_exec e); [|discriminate].
  intros [= <-]. apply wf_pubs_alter; [done|]. intros p Hp. simpl.
  destruct (Z.ltb_spec 0 (Publication.Likes p)); lia.
Qed.

#[export] Hint Resolve users_Create_wf users_Update_wf users_UpdatePassword_wf users_Delete_wf
  users_Unfollow_wf pubs_Create_wf pubs_Update_wf pubs_Delete_wf pubs_Like_wf pubs_Dislike_wf
  : store.
#[export] Hint Extern 1 (wf _) =>
  match goal with H : Users.Follow _ _ _ _ = Ok _ |- _ => eapply (users_Follow_wf _ _ _ _ _ H) end
  : store.

(** ** Lemmas on the queries used by login *)

Definition email_row (u : User.t) : User.t :=
  User.mk (User.ID u) EmptyString EmptyString EmptyString (User.Password u) 0.

(** [SearchEmail] returns the zero user or the id and hash of a row with
    that e-mail. *)
Lemma SearchEmail_cases e email d v :
  Users.SearchEmail e email d = Ok v ->
  v = User.zero \/ exists k u, users d !! k = Some u /\ User.Email u = email /\ v = email_row u.
Proof.
  unfold Users.SearchEmail, guard, first_or. destruct (env_exec e); [|discriminate].
  intros [= <-].
  destruct (filter _ (map_to_list (users d))) as [|[k u] l] eqn:Hf; [by left|].
  right. exists k, u.
  assert ((k, u) ∈ filter (fun kv : Z * User.t => User.Email kv.2 = email) (map_to_list (users d)))
    as Hin by (rewrite Hf; left).
  apply list_elem_of_filter in Hin as [Hem Hin]. apply elem_of_map_to_list in Hin. done.
Qed.

(** With a single row for the e-mail, [SearchEmail] returns that row. *)
Lemma SearchEmail_unique e email d k u :
  env_exec e = true -> users d !! k = Some u -> User.Email u = email ->
  (forall k' u', users d !! k' = Some u' -> User.Email u' = email -> k' = k) ->
  Users.SearchEmail e email d = Ok (email_row u).
Proof.
  intros Hx Hu Hem Huniq. unfold Users.SearchEmail, guard, first_or. rewrite Hx.
  assert (Hall : forall x, x ∈ filter (fun kv : Z * User.t => User.Email kv.2 = email)
                               (map_to_list (users d)) -> x = (k, u)).
  { intros [k' u'] [Hem' Hin]%list_elem_of_filter. apply elem_of_map_to_list in Hin.
    pose proof (Huniq k' u' Hin Hem') as ->. congruence. }
  assert (Hk : (k, u) ∈ filter (fun kv : Z * User.t => User.Email kv.2 = email)
                           (map_to_list (users d))).
  { apply list_elem_of_filter. split; [done|]. by apply elem_of_map_to_list. }
  destruct (filter _ _) as [|x l]; [set_solver|].
  rewrite (Hall x) by left. done.
Qed.

(** With no row for the e-mail, [SearchEmail] returns the zero user,
    whose hash is empty. *)
Lemma SearchEmail_none e email d :
  env_exec e = true -> (forall k u, users d !! k = Some u -> User.Email u <> email) ->
  Users.SearchEmail e email d = Ok User.zero.
Proof.
  intros Hx Hno. unfold Users.SearchEmail, guard, first_or. rewrite Hx.
  destruct (filter _ (map_to_list (users d))) as [|[k u] l] eqn:Hf; [done|].
  assert ((k, u) ∈ filter (fun kv : Z * User.t => User.Email kv.2 = email) (map_to_list (users d)))
    as Hin by (rewrite Hf; left).
  apply list_elem_of_filter in Hin as [Hem Hin]. apply elem_of_map_to_list in Hin.
  by destruct (Hno k u Hin Hem).
Qed.

Lemma elem_of_take_1 {A} (x : A) l : x ∈ take 1 l -> x ∈ l.
Proof. intros (i & Hi & _)%elem_of_take. apply list_elem_of_lookup. eauto. Qed.

(** The empty database (both AUTO_INCREMENT counters at 1) is well formed. *)
Lemma wf_empty : wf (mkDb ∅ ∅ ∅ 1 1).
Proof.
  constructor; simpl; try lia; intros *; rewrite ?lookup_empty; [done..|set_solver|done].
Qed.
#[export] Hint Resolve wf_empty : store.

(** A database holding one user row [k] and nothing else is well formed. *)
Lemma wf_one_user k u : 1 <= k -> User.ID u = k -> wf (mkDb {[k := u]} ∅ ∅ (k + 1) 1).
Proof.
  intros Hk Hid. constructor; simpl; try lia.
  - intros k' u' [<- <-]%lookup_singleton_Some. lia.
  - intros k' p. by rewrite lookup_empty.
  - set_solver.
  - intros k' p. by rewrite lookup_empty.
Qed.

(** A database holding one user row [ku] and one publication row [kp]
    is well formed. *)
Lemma wf_user_pub ku u kp p :
  1 <= ku -> User.ID u = ku -> 1 <= kp -> Publication.ID p = kp -> 0 <= Publication.Likes p ->
  wf (mkDb {[ku := u]} ∅ {[kp := p]} (ku + 1) (kp + 1)).
Proof.
  intros Hku Hu Hkp Hp Hl. constructor; simpl; try lia.
  - intros k' u' [<- <-]%lookup_singleton_Some. lia.
  - intros k' p' [<- <-]%lookup_singleton_Some. lia.
  - set_solver.
  - by intros k' p' [<- <-]%lookup_singleton_Some.
Qed.

(** ** [LIKE] against the reference "contains, ignoring case" *)

Lemma like_list_pct p s :
  like_list ("%"%char :: p) s = like_list p s || match s with [] => false | _ :: s' => like_list ("%"%char :: p) s' end.
Proof. by destruct s. Qed.

Lemma like_list_lit c p s :
  c <> "%"%char -> c <> "_"%char ->
  like_list (c :: p) s = match s with
    | [] => false
    | d :: s' => bool_decide (GoStrings.lower_byte c = GoStrings.lower_byte d) && like_list p s'
    end.
Proof.
  intros H1 H2. simpl. destruct (ascii_dec c "%"); [done|]. destruct s as [|d s]; [done|].
  destruct (ascii_dec c "_"); [done|]. by destruct (ascii_dec _ _); case_bool_decide.
Qed.

Lemma like_list_pct_end s : like_list ["%"%char] s = true.
Proof. induction s as [|d s IH]; [done|]. by rewrite like_list_pct, IH, orb_true_r. Qed.

Lemma no_wildcards_cons c q :
  forallb (fun c => negb (bool_decide (c = "%"%char) || bool_decide (c = "_"%char))) (c :: q) = true ->
  c <> "%"%char /\ c <> "_"%char /\
  forallb (fun c => negb (bool_decide (c = "%"%char) || bool_decide (c = "_"%char))) q = true.
Proof.
  simpl. intros [Hc Hq]%andb_true_iff. apply negb_true_iff, orb_false_iff in Hc as [H1 H2].
  apply bool_decide_eq_false in H1, H2. auto.
Qed.

(** A pattern [q%] matches the strings that start with [q], ignoring case. *)
Lemma like_prefix q s :
  forallb (fun c => negb (bool_decide (c = "%"%char) || bool_decide (c = "_"%char))) q = true ->
  like_list (q ++ ["%"%char]) s = true <->
  exists post, map GoStrings.lower_byte s = map GoStrings.lower_byte q ++ post.
Proof.
  revert s. induction q as [|c q IH]; intros s Hq; cbn [app map].
  - rewrite like_list_pct_end. split; [eauto|done].
  - destruct (no_wildcards_cons _ _ Hq) as (H1 & H2 & Hq').
    rewrite like_list_lit by done. destruct s as [|d s]; simpl.
    + split; [done|]. by intros [post ?].
    + rewrite andb_true_iff, bool_decide_eq_true, IH by done. split.
      * intros [-> [post ->]]. eauto.
      * intros [post [= -> Hs]]. eauto.
Qed.

(** A pattern [%q%] matches the strings that contain [q], ignoring case. *)
Lemma like_infix q s :
  forallb (fun c => negb (bool_decide (c = "%"%char) || bool_decide (c = "_"%char))) q = true ->
  like_list ("%"%char :: q ++ ["%"%char]) s = true <->
  exists pre post, map GoStrings.lower_byte s = pre ++ map GoStrings.lower_byte q ++ post.
Proof.
  intros Hq. induction s as [|d s IH]; rewrite like_list_pct, orb_true_iff, like_prefix by done.
  - split; [intros [[post Hp]|]; [by exists [], post|done]|].
    intros ([|x pre] & post & Hp); [by left; exists post|discriminate].
  - rewrite IH. split.
    + intros [[post Hp]|(pre & post & Hp)]; [by exists [], post|].
      exists (GoStrings.lower_byte d :: pre), post. simpl. by rewrite Hp.
    + intros ([|x pre] & post & Hp); [left; by exists post|right].
      simpl in Hp. injection Hp as _ Hp. eauto.
Qed.

(** ** Properties of the repositories *)

(** The pattern [Users.Search] builds against its reference: for a search term without the wildcards '%' and '_',
    [s LIKE %q%] under the case-insensitive collation holds exactly when
    [s] contains [q], ignoring case. *)
Lemma like_contains s q :
  no_wildcards q = true -> like s ("%" ++ q ++ "%") = true <-> contains_ci s q.
Proof.
  intros Hq. unfold like. rewrite !list_ascii_of_string_app. by apply like_infix.
Qed.

(** C29: [Users.Search] returns the [id, name, nick, email, createdat]
    columns of exactly the users whose name or nick contains the search
    term, ignoring case (for a term without LIKE wildcards). *)
Theorem Search_spec e q d us :
  no_wildcards q = true -> Users.Search e q d = Ok us ->
  forall u, u ∈ us <-> exists k v, users d !! k = Some v /\ u = user_columns v /\
    (contains_ci (User.Name v) q \/ contains_ci (User.Nick v) q).
Proof.
  intros Hq. unfold Users.Search, guard. destruct (env_exec e); [|discriminate].
  intros [= <-] u. change (map ?f ?l) with (f <$> l). rewrite list_elem_of_fmap. split.
  - intros ([k v] & -> & Hin). apply list_elem_of_filter in Hin as [Hl Hin].
    apply elem_of_map_to_list in Hin. exists k, v. simpl in *.
    by rewrite <- !like_contains.
  - intros (k & v & Hk & -> & Hc). exists (k, v). split; [done|].
    apply list_elem_of_filter. rewrite elem_of_map_to_list. simpl.
    by rewrite !like_contains.
Qed.

(** C18: [Users.SearchFollowers] joins on the wrong column
    ([u.id = s.follower_id]): every user it returns is the queried user
    itself (its row, once per account it follows), never one of its
    followers. *)
Theorem SearchFollowers_only_self e u d us :
  Users.SearchFollowers e u d = Ok us ->
  Forall (fun v => user_columns <$> users d !! u = Some v) us.
Proof.
  unfold Users.SearchFollowers, guard. destruct (env_exec e); [|discriminate].
  intros [= <-]. apply Forall_forall. intros v Hv.
  apply list_elem_of_omap in Hv as ([a b] & Hin & Hv).
  apply list_elem_of_filter in Hin as [Hb _]. simpl in *. by subst.
Qed.

(** C27: [Users.SearchFollowing] (join [u.id = s.user_id], filter
    [s.follower_id = ?]) returns the [id, name, nick, email, createdat]
    columns of exactly the users that [a] follows and that still have a
    row; unlike [SearchFollowers] (C18), this query joins on the right
    column. *)
Theorem SearchFollowing_spec e a d us :
  Users.SearchFollowing e a d = Ok us ->
  forall v, v ∈ us <-> exists b u, (b, a) ∈ followers d /\ users d !! b = Some u /\ v = user_columns u.
Proof.
  unfold Users.SearchFollowing, guard. destruct (env_exec e); [|discriminate].
  intros [= <-] v. rewrite list_elem_of_omap. split.
  - intros ([b c] & Hin & Hv). apply list_elem_of_filter in Hin as [Hc Hin]. simpl in *. subst c.
    apply elem_of_elements in Hin. destruct (users d !! b) eqn:Hb; simplify_eq/=. eauto.
  - intros (b & u & Hin & Hu & ->). exists (b, a). split; [|simpl; by rewrite Hu].
    apply list_elem_of_filter. split; [done|by apply elem_of_elements].
Qed.

(** C19: [Publications.Search] (the feed) reads at most one row
    ([if rows.Next()] instead of a loop), and a row it returns is a
    publication whose author has at least one follower and which is
    either followed by the caller or has the caller's id as its own
    publication id ([where p.id = ?] instead of [p.author_id = ?]). *)
Theorem Search_feed_shape e u d ps :
  Publications.Search e u d = Ok ps ->
  (List.length ps <= 1)%nat /\
  Forall (fun p => exists k q, publications d !! k = Some q /\
     Publications.joined d q = Some p /\
     (exists f, (Publication.AuthorID q, f) ∈ followers d) /\
     (Publication.ID q = u \/ (Publication.AuthorID q, u) ∈ followers d)) ps.
Proof.
  unfold Publications.Search, guard. destruct (env_exec e); [|discriminate].
  intros [= <-]. split; [apply firstn_le_length|].
  apply Forall_forall. intros p Hp.
  apply elem_of_take_1, list_elem_of_omap in Hp as ([k q] & Hin & Hj).
  apply list_elem_of_filter in Hin as [Hwhere Hin].
  apply list_elem_of_filter in Hin as [([a f] & Hf & Ha) Hin].
  apply elem_of_map_to_list in Hin. simpl in *. subst a.
  exists k, q. split_and!; [done|done|by exists f|].
  destruct Hwhere as [|([a' u'] & Hin' & Ha' & Hu')]; [by left|right]. simpl in *. by subst.
Qed.

(** Witness: Bob (id 2) follows Ana (id 1).  Ana's followers come back
    empty, and asking for Bob's followers returns Bob himself. *)
Lemma SearchFollowers_only_self_witness :
  let e := mkEnv "k" 100 0 true true in
  let bob := User.mk 2 "Bob" "bob" "bob@mail.com" "h2" 0 in
  let d := mkDb (<[1 := User.mk 1 "Ana" "ana" "ana@mail.com" "h1" 0]> {[2 := bob]})
             {[(1, 2)]} ∅ 3 1 in
  Users.SearchFollowers e 1 d = Ok [] /\
  Users.SearchFollowers e 2 d = Ok [user_columns bob] /\
  Forall (fun v => user_columns <$> users d !! 2 = Some v) [user_columns bob].
Proof.
  intros e bob d.
  assert (H : Users.SearchFollowers e 2 d = Ok [user_columns bob]) by reflexivity.
  split; [reflexivity|]. split; [exact H|].
  exact (SearchFollowers_only_self e 2 d _ H).
Defined.

(** Witness: Ana (id 1) follows Bob (id 2), who has two publications;
    Ana's own publication 5 has no follower of its author.  The feed of
    Ana holds one row only. *)
Lemma Search_feed_shape_witness :
  let e := mkEnv "k" 100 0 true true in
  let d := mkDb (<[1 := User.mk 1 "Ana" "ana" "ana@mail.com" "h1" 0]>
                   {[2 := User.mk 2 "Bob" "bob" "bob@mail.com" "h2" 0]})
             {[(2, 1)]}
             (<[5 := Publication.mk 5 "mine" "c" 1 "" 0 0]>
               (<[6 := Publication.mk 6 "b1" "c" 2 "" 0 0]>
                 {[7 := Publication.mk 7 "b2" "c" 2 "" 0 0]})) 3 8 in
  let ps := [Publication.mk 7 "b2" "c" 2 "bob" 0 0] in
  Publications.Search e 1 d = Ok ps /\
  (List.length ps <= 1)%nat /\
  Forall (fun p => exists k q, publications d !! k = Some q /\
     Publications.joined d q = Some p /\
     (exists f, (Publication.AuthorID q, f) ∈ followers d) /\
     (Publication.ID q = 1 \/ (Publication.AuthorID q, 1) ∈ followers d)) ps.
Proof.
  intros e d ps.
  assert (H : Publications.Search e 1 d = Ok ps) by reflexivity.
  split; [exact H|]. exact (Search_feed_shape e 1 d ps H).
Defined.

(** Witness: Ana (1) follows Bob (2); Bob follows nobody. *)
Lemma SearchFollowing_spec_witness :
  let e := mkEnv "k" 100 0 true true in
  let ana := User.mk 1 "Ana" "ana" "ana@mail.com" "h1" 0 in
  let bob := User.mk 2 "Bob" "bob" "bob@mail.com" "h2" 0 in
  let d := mkDb (<[1 := ana]> {[2 := bob]}) {[(2, 1)]} ∅ 3 1 in
  Users.SearchFollowing e 1 d = Ok [user_columns bob] /\
  (user_columns bob ∈ [user_columns bob] <->
   exists b u, (b, 1) ∈ followers d /\ users d !! b = Some u /\ user_columns bob = user_columns u).
Proof.
  intros e ana bob d.
  assert (H : Users.SearchFollowing e 1 d = Ok [user_columns bob]) by reflexivity.
  split; [exact H|]. exact (SearchFollowing_spec e 1 d _ H (user_columns bob)).
Defined.

(** Witness: searching "AN" finds Ana, not Bob. *)
Lemma Search_spec_witness :
  let e := mkEnv "k" 100 0 true true in
  let ana := User.mk 1 "Ana" "ana" "ana@mail.com" "h1" 0 in
  let d := mkDb (<[1 := ana]> {[2 := User.mk 2 "Bob" "bob" "bob@mail.com" "h2" 0]}) ∅ ∅ 3 1 in
  no_wildcards "AN" = true /\ Users.Search e "AN" d = Ok [user_columns ana] /\
  forall u, u ∈ [user_columns ana] <-> exists k v, users d !! k = Some v /\ u = user_columns v /\
    (contains_ci (User.Name v) "AN" \/ contains_ci (User.Nick v) "AN").
Proof.
  intros e ana d.
  assert (Hq : no_wildcards "AN" = true) by reflexivity.
  assert (Hs : Users.Search e "AN" d = Ok [user_columns ana]) by reflexivity.
  split; [exact Hq|]. split; [exact Hs|]. exact (Search_spec e "AN" d _ Hq Hs).
Defined.

End Store.
