(* ===== verification/Spec.v ===== *)
(** * The abstract specification of the API

    What the service promises, independently of the handlers, the SQL and
    the router: the state is three tables (accounts, the follow relation,
    publications) without the AUTO_INCREMENT counters; a request either
    leaves that state alone or performs one operation of [op], which the
    caller must be [allowed] to perform (the single authorization
    predicate of the specification's OwnershipGuard, section 4.4), and
    whose [effect] on the tables is stated field by field.  [Refinement]
    proves that every request the server serves is such a step. *)

From S2P Require Import Prelude Security Models Http Auth Store.
Import Security Http Auth Store.

Module Spec.

(** The abstract state and the abstraction of a database. *)
Record astate := mkA {
  a_users : gmap Z User.t;
  a_follows : gset (Z * Z);
  a_posts : gmap Z Publication.t
}.

Definition abs (d : db) : astate := mkA (users d) (followers d) (publications d).

(** The operations of the service. *)
Inductive op :=
| ORegister (u : User.t)
| OEditProfile (k : Z) (name nick email : string)
| ODeleteAccount (k : Z)
| OSetPassword (k : Z) (hash : string)
| OFollow (user follower : Z)
| OUnfollow (user follower : Z)
| OPost (p : Publication.t)
| OEditPost (k : Z) (title content : string)
| ODeletePost (k : Z)
| OLike (k : Z)
| ODislike (k : Z).

(** Pointwise descriptions of a table change. *)
Definition adds {A} (m m' : gmap Z A) (k : Z) (v : A) : Prop :=
  m !! k = None /\ m' !! k = Some v /\ forall j, j <> k -> m' !! j = m !! j.

Definition updates {A} (m m' : gmap Z A) (k : Z) (f : A -> A) : Prop :=
  m' !! k = f <$> m !! k /\ forall j, j <> k -> m' !! j = m !! j.

Definition removes {A} (m m' : gmap Z A) (k : Z) : Prop :=
  m' !! k = None /\ forall j, j <> k -> m' !! j = m !! j.

Section WithServices.
Context `{Hasher} `{Signer}.

(** The identity a request is authenticated as, if any. *)
Definition caller (e : env) (r : request) : option Z :=
  match ExtractUserID e r with Ok u => Some u | Err _ => None end.

(** The authorization rule of each operation: registering is public;
    a profile, an account and a password belong to the account's owner;
    changing a password also needs the current password, verified
    against the stored hash; a follow edge belongs to the follower, who
    is not the followed user; a publication belongs to its author; likes
    are not owned. *)
Definition allowed (c : option Z) (s : astate) (o : op) : Prop :=
  match o with
  | ORegister _ => True
  | OEditProfile k _ _ _ | ODeleteAccount k => c = Some k
  | OSetPassword k _ => c = Some k /\
      exists u cur, a_users s !! k = Some u /\ PasswordCheck (User.Password u) cur = Ok tt
  | OFollow a b | OUnfollow a b => c = Some b /\ a <> b
  | OPost p => c = Some (Publication.AuthorID p)
  | OEditPost k _ _ | ODeletePost k =>
      forall p, a_posts s !! k = Some p -> c = Some (Publication.AuthorID p)
  | OLike _ | ODislike _ => True
  end.

(** The new profile fields of an account. *)
Definition profile (name nick email : string) (u : User.t) : User.t :=
  User.mk (User.ID u) name nick email (User.Password u) (User.CreatedAt u).

(** The new title and content of a publication. *)
Definition retitle (title content : string) (p : Publication.t) : Publication.t :=
  Publication.mk (Publication.ID p) title content (Publication.AuthorID p)
    (Publication.AuthorNick p) (Publication.Likes p) (Publication.CreatedAt p).

Definition relike (n : Z) (p : Publication.t) : Publication.t :=
  Publication.mk (Publication.ID p) (Publication.Title p) (Publication.Content p)
    (Publication.AuthorID p) (Publication.AuthorNick p) n (Publication.CreatedAt p).

(** The effect of each operation on the tables.  A new account is stored
    under its own id with a password that is a bcrypt hash, never the
    plain text; a new password is a bcrypt hash too; a new publication
    starts with no likes; a dislike never takes the count below 0. *)
Inductive effect : op -> astate -> astate -> Prop :=
| eff_register u s s' :
    adds (a_users s) (a_users s') (User.ID u) u ->
    (exists salt pw, HashPassword salt pw = Ok (User.Password u)) ->
    a_follows s' = a_follows s -> a_posts s' = a_posts s ->
    effect (ORegister u) s s'
| eff_edit_profile k n ni em s s' :
    updates (a_users s) (a_users s') k (profile n ni em) ->
    a_follows s' = a_follows s -> a_posts s' = a_posts s ->
    effect (OEditProfile k n ni em) s s'
| eff_delete_account k s s' :
    removes (a_users s) (a_users s') k ->
    a_follows s' = a_follows s -> a_posts s' = a_posts s ->
    effect (ODeleteAccount k) s s'
| eff_set_password k h s s' :
    updates (a_users s) (a_users s') k (fun u => User.set_password u h) ->
    (exists salt pw, HashPassword salt pw = Ok h) ->
    a_follows s' = a_follows s -> a_posts s' = a_posts s ->
    effect (OSetPassword k h) s s'
| eff_follow a b s s' :
    a_users s' = a_users s -> a_follows s' = {[(a, b)]} ∪ a_follows s -> a_posts s' = a_posts s ->
    effect (OFollow a b) s s'
| eff_unfollow a b s s' :
    a_users s' = a_users s -> a_follows s' = a_follows s ∖ {[(a, b)]} -> a_posts s' = a_posts s ->
    effect (OUnfollow a b) s s'
| eff_post p s s' :
    adds (a_posts s) (a_posts s') (Publication.ID p) p -> Publication.Likes p = 0 ->
    a_users s' = a_users s -> a_follows s' = a_follows s ->
    effect (OPost p) s s'
| eff_edit_post k t c s s' :
    updates (a_posts s) (a_posts s') k (retitle t c) ->
    a_users s' = a_users s -> a_follows s' = a_follows s ->
    effect (OEditPost k t c) s s'
| eff_delete_post k s s' :
    removes (a_posts s) (a_posts s') k ->
    a_users s' = a_users s -> a_follows s' = a_follows s ->
    effect (ODeletePost k) s s'
| eff_like k s s' :
    updates (a_posts s) (a_posts s') k (fun p => relike (Publication.Likes p + 1) p) ->
    a_users s' = a_users s -> a_follows s' = a_follows s ->
    effect (OLike k) s s'
| eff_dislike k s s' :
    updates (a_posts s) (a_posts s') k (fun p => relike (Z.max 0 (Publication.Likes p - 1)) p) ->
    a_users s' = a_users s -> a_follows s' = a_follows s ->
    effect (ODislike k) s s'.

(** One step of the specification, for a request of caller [c]: nothing
    changes, or one allowed operation takes place. *)
Inductive spec_step (c : option Z) (s : astate) : astate -> Prop :=
| spec_skip : spec_step c s s
| spec_op o s' : allowed c s o -> effect o s s' -> spec_step c s s'.

End WithServices.

End Spec.
