(* ===== verification/Handler.v ===== *)
(** * The shape of a handler

    Every handler of [src/src/controllers] is a sequence of steps of the
    form [v, err := f(...); if err != nil { answers.Err(w, status, err);
    return }], a few guards of the form [if cond { answers.Err(w, 403,
    ...); return }], and a final [answers.JSON].  [M] is that shape: a
    state monad over the database whose result is either the value of the
    step or the response already written (the early [return]).  [run]
    gives the response and the final database. *)

From S2P Require Import Prelude Models Http Store.
Import Http Store.

Module Handler.

Definition M (A : Type) : Type := db -> (response + A) * db.

Definition ret {A} (a : A) : M A := fun d => (inr a, d).

Definition bind {A B} (m : M A) (k : A -> M B) : M B :=
  fun d => match m d with
           | (inl resp, d') => (inl resp, d')
           | (inr a, d') => k a d'
           end.

Declare Scope handler_scope.
Delimit Scope handler_scope with handler.
Notation "x <- m ;; k" := (bind m (fun x => k))
  (at level 100, m at next level, right associativity) : handler_scope.
Notation "m ;; k" := (bind m (fun _ => k))
  (at level 100, right associativity) : handler_scope.

(** [answers.Err(w, s, err); return]. *)
Definition answer {A} (s : status) (e : goerr) : M A := fun d => (inl (Error s e), d).

(** [v, err := f(); if err != nil { answers.Err(w, s, err); return }] for a
    call that does not touch the database. *)
Definition check {A} (r : result A) (s : status) : M A :=
  match r with
  | Ok a => ret a
  | Err e => answer s e
  end.

(** [if cond { answers.Err(w, s, err); return }]. *)
Definition guard_that (cond : bool) (s : status) (e : goerr) : M unit :=
  if cond then answer s e else ret tt.

(** A repository query. *)
Definition query {A} (q : db -> result A) (s : status) : M A :=
  fun d => match q d with
           | Ok a => (inr a, d)
           | Err e => (inl (Error s e), d)
           end.

(** A repository statement that changes the database. *)
Definition write (f : db -> result db) (s : status) : M unit :=
  fun d => match f d with
           | Ok d' => (inr tt, d')
           | Err e => (inl (Error s e), d)
           end.

(** A repository insert returning [LastInsertId]. *)
Definition insert (f : db -> result (Z * db)) (s : status) : M Z :=
  fun d => match f d with
           | Ok (id, d') => (inr id, d')
           | Err e => (inl (Error s e), d)
           end.

(** [db, err := database.Connect(); if err != nil { answers.Err(w, 500, err);
    return }]. *)
Definition connect (e : env) : M unit :=
  guard_that (negb (env_connect e)) StatusInternalServerError ErrStorage.

(** The response written and the database after the handler returns. *)
Definition run (m : M response) (d : db) : response * db :=
  match m d with
  | (inl resp, d') => (resp, d')
  | (inr resp, d') => (resp, d')
  end.

(** ** Reasoning about handlers

    A handler is a chain of [bind]s; the lemmas below rewrite one step at
    a time.  [handler_step] unfolds the combinators and splits on the
    outcome of each call. *)

Lemma bind_ret {A B} (a : A) (k : A -> M B) d : bind (ret a) k d = k a d.
Proof. reflexivity. Qed.

Lemma bind_answer {A B} s e (k : A -> M B) d : bind (answer s e) k d = (inl (Error s e), d).
Proof. reflexivity. Qed.

(** A step that only reads leaves the database as it was. *)
Definition read_only {A} (m : M A) : Prop := forall d, snd (m d) = d.

Lemma check_read_only {A} (r : result A) s : read_only (check r s).
Proof. intros d. by destruct r. Qed.

Lemma query_read_only {A} (q : db -> result A) s : read_only (query q s).
Proof. intros d. unfold query. by destruct (q d). Qed.

Lemma guard_read_only c s e : read_only (guard_that c s e).
Proof. intros d. unfold guard_that. by destruct c. Qed.

Lemma connect_read_only e : read_only (connect e).
Proof. apply guard_read_only. Qed.

Lemma bind_read_only {A B} (m : M A) (k : A -> M B) :
  read_only m -> (forall a, read_only (k a)) -> read_only (bind m k).
Proof.
  intros Hm Hk d. unfold bind. specialize (Hm d).
  destruct (m d) as [[resp|a] d'] eqn:E; simpl in *; [done|]. subst. apply Hk.
Qed.

Lemma ret_read_only {A} (a : A) : read_only (ret a).
Proof. done. Qed.

Lemma answer_read_only {A} s e : read_only (@answer A s e).
Proof. done. Qed.

Create HintDb handler discriminated.
#[export] Hint Resolve check_read_only query_read_only guard_read_only connect_read_only
  ret_read_only answer_read_only : handler.
#[export] Hint Extern 1 (read_only (bind _ _)) => apply bind_read_only; intros : handler.

(** Reduce the combinators, and nothing else. *)
Ltac handler_simp :=
  repeat progress (unfold run, bind, ret, answer, check, guard_that, query, write, insert,
                     connect, Http.Error, Http.JSON in *;
                   cbv beta iota zeta delta [fst snd negb] in *).

(** Split on the innermost undecided call of the handler: a comparison of
    identifiers by its specification, any other call by its outcome. *)
Ltac handler_split :=
  match goal with
  | |- context [(?a =? ?b)%Z] => destruct (Z.eqb_spec a b)
  | |- context [match ?x with _ => _ end] =>
      lazymatch x with
      | context [match _ with _ => _ end] => fail
      | _ => destruct x eqn:?
      end
  end.

(** Walk every path of a handler. *)
Ltac handler_paths :=
  repeat (handler_simp; handler_split; simplify_eq); handler_simp.

End Handler.
