(* ===== verification/UsersCtl.v ===== *)
(** * The user handlers: [src/src/controllers/users.go]

    Each handler is a [Handler.M response], written step by step as the Go
    function: every [if err != nil { answers.Err(...); return }] is a
    [check]/[query]/[write] with its status, every guard a [guard_that],
    in the order of the code.  The path variable is read with
    [mux.Vars(r)["userId"]] and parsed with [strconv.ParseUint(_, 10, 64)];
    the caller's identity comes from [authentication.ExtractUserID]. *)

From S2P Require Import Prelude GoLib Security Models Http Auth Store Handler.
Import GoStrings GoStrconv Security Http Auth Store Handler.
Open Scope handler_scope.

Module UsersCtl.

Section WithServices.
Context `{Hasher} `{Signer}.

(** [strconv.ParseUint(mux.Vars(r)[name], 10, 64)]. *)
Definition param (r : request) (name : string) : result Z := ParseUint (var r name).

(** [CreateUser]. *)
Definition CreateUser (e : env) (r : request) : M response :=
  bodyRequest <- check (ReadAll r) StatusUnprocessableEntity ;;
  user <- check (unmarshal_user bodyRequest) StatusBadRequest ;;
  user <- check (User.Prepare (env_salt e) User.stage_register user) StatusBadRequest ;;
  connect e ;;
  id <- insert (Users.Create e user) StatusInternalServerError ;;
  ret (JSON StatusCreated (PUser (User.set_id user id))).

(** [SearchUsers]. *)
Definition SearchUsers (e : env) (r : request) : M response :=
  let nameOuNick := ToLower (default EmptyString (req_query r !! "user")) in
  connect e ;;
  users <- query (Users.Search e nameOuNick) StatusInternalServerError ;;
  ret (JSON StatusOK (PUsers users)).

(** [SearchUser]. *)
Definition SearchUser (e : env) (r : request) : M response :=
  userID <- check (param r "userId") StatusBadRequest ;;
  connect e ;;
  user <- query (Users.SearchID e userID) StatusInternalServerError ;;
  ret (JSON StatusOK (PUser user)).

(** [UpdateUser]. *)
Definition UpdateUser (e : env) (r : request) : M response :=
  userID <- check (param r "userId") StatusBadRequest ;;
  userIDToken <- check (ExtractUserID e r) StatusUnauthorized ;;
  guard_that (negb (userID =? userIDToken)) StatusForbidden
    (ErrNew "you cannot change a user other than yours") ;;
  bodyRequest <- check (ReadAll r) StatusUnprocessableEntity ;;
  user <- check (unmarshal_user bodyRequest) StatusBadRequest ;;
  user <- check (User.Prepare (env_salt e) User.stage_edit user) StatusBadRequest ;;
  connect e ;;
  write (Users.Update e userID user) StatusInternalServerError ;;
  ret (JSON StatusNoContent PNone).

(** [DeleteUser]. *)
Definition DeleteUser (e : env) (r : request) : M response :=
  userID <- check (param r "userId") StatusBadRequest ;;
  userIDToken <- check (ExtractUserID e r) StatusUnauthorized ;;
  guard_that (negb (userID =? userIDToken)) StatusForbidden
    (ErrNew "you cannot delete a user other than yours") ;;
  connect e ;;
  write (Users.Delete e userID) StatusInternalServerError ;;
  ret (JSON StatusNoContent PNone).

(** [FollowUser]. *)
Definition FollowUser (e : env) (r : request) : M response :=
  userID <- check (param r "userId") StatusBadRequest ;;
  followerID <- check (ExtractUserID e r) StatusUnauthorized ;;
  guard_that (userID =? followerID) StatusForbidden
    (ErrNew "you cannot follow your own username") ;;
  connect e ;;
  write (Users.Follow e userID followerID) StatusInternalServerError ;;
  ret (JSON StatusNoContent PNone).

(** [UnfollowollowUser]. *)
Definition UnfollowollowUser (e : env) (r : request) : M response :=
  userID <- check (param r "userId") StatusBadRequest ;;
  followerID <- check (ExtractUserID e r) StatusUnauthorized ;;
  guard_that (userID =? followerID) StatusForbidden
    (ErrNew "you can't stop following your own username") ;;
  connect e ;;
  write (Users.Unfollowollow e userID followerID) StatusInternalServerError ;;
  ret (JSON StatusNoContent PNone).

(** [SearchFollowers]. *)
Definition SearchFollowers (e : env) (r : request) : M response :=
  userID <- check (param r "userId") StatusBadRequest ;;
  connect e ;;
  followers <- query (Users.SearchFollowers e userID) StatusInternalServerError ;;
  ret (JSON StatusOK (PUsers followers)).

(** [SearchFollowing]. *)
Definition SearchFollowing (e : env) (r : request) : M response :=
  userID <- check (param r "userId") StatusBadRequest ;;
  connect e ;;
  following <- query (Users.SearchFollowing e userID) StatusInternalServerError ;;
  ret (JSON StatusOK (PUsers following)).

(** [UpdatePassword].  The error of [ioutil.ReadAll] is not checked: an
    unreadable body reaches [json.Unmarshal] and fails there. *)
Definition UpdatePassword (e : env) (r : request) : M response :=
  userID <- check (param r "userId") StatusBadRequest ;;
  userIDToken <- check (ExtractUserID e r) StatusUnauthorized ;;
  guard_that (negb (userID =? userIDToken)) StatusForbidden
    (ErrNew "you are not allowed to update the password of a user other than yours") ;;
  password <- check (unmarshal_password (req_body r)) StatusBadRequest ;;
  connect e ;;
  passwordSavedDatabase <- query (Users.SearchPassword e userID) StatusInternalServerError ;;
  (match PasswordCheck passwordSavedDatabase (Current password) with
   | Ok _ => ret tt
   | Err _ => answer StatusUnauthorized
                (ErrNew "the new password does not match the current password")
   end) ;;
  passwordWithHash <- check (HashPassword (env_salt e) (New password)) StatusBadRequest ;;
  write (Users.UpdatePassword e userID passwordWithHash) StatusInternalServerError ;;
  ret (JSON StatusNoContent PNone).

(** ** Lemmas: the first steps of the protected handlers *)

(** The handlers that act on the user named in the path only when it is
    the caller: [UpdateUser], [DeleteUser], [UpdatePassword]. *)
Definition owner_guarded : list (env -> request -> M response) :=
  [UpdateUser; DeleteUser; UpdatePassword].

(** The handlers that act on the follow edge from the caller to the user
    named in the path. *)
Definition self_guarded : list (env -> request -> M response) :=
  [FollowUser; UnfollowollowUser].

(** A password change with the right current password: the handler
    answers 204 and writes the hash of the new password into the caller's
    row. *)
Lemma UpdatePassword_run e r d u row pw s0 h' :
  param r "userId" = Ok u -> ExtractUserID e r = Ok u -> req_body r = BodyPassword pw ->
  env_connect e = true -> env_exec e = true ->
  users d !! u = Some row -> HashPassword s0 (Current pw) = Ok (User.Password row) ->
  HashPassword (env_salt e) (New pw) = Ok h' ->
  run (UpdatePassword e r) d =
    (JSON StatusNoContent PNone,
     set_users d (alter (fun row => User.set_password row h') u (users d))).
Proof.
  intros Hp Ht Hb Hc Hx Hrow Hold Hh'.
  pose proof (PasswordCheck_HashPassword _ _ _ Hold) as Hchk.
  unfold run, UpdatePassword, bind, check, guard_that, connect, query, write, answer, ret.
  rewrite Hp, Ht, Hb, Z.eqb_refl, Hc. simpl.
  unfold Users.SearchPassword, Users.UpdatePassword, guard. rewrite Hx, Hrow. simpl.
  by rewrite Hchk, Hh'.
Qed.

(** C3: Ownership guard of the user handlers: when the user in the
    path is not the caller, [UpdateUser], [DeleteUser] and
    [UpdatePassword] answer 403 and leave the database unchanged, before
    reading the body or connecting to the database. *)
Theorem owner_guard_forbidden h e r d uid tid :
  In h owner_guarded ->
  param r "userId" = Ok uid -> ExtractUserID e r = Ok tid -> uid <> tid ->
  resp_status (fst (run (h e r) d)) = StatusForbidden /\ snd (run (h e r) d) = d.
Proof.
  intros Hin Hp Ht Hne.
  destruct (Z.eqb_spec uid tid) as [|_]; [done|].
  destruct Hin as [<-|[<-|[<-|[]]]];
    unfold run, UpdateUser, DeleteUser, UpdatePassword, bind, check;
    rewrite Hp, Ht; simpl; destruct (Z.eqb_spec uid tid); done.
Qed.

(** C5: Self-reference guard: a caller that asks to follow or to stop
    following itself gets 403 and the database (in particular the follow
    table) is not touched; the guard comes before the connection. *)
Theorem self_guard_forbidden h e r d uid :
  In h self_guarded ->
  param r "userId" = Ok uid -> ExtractUserID e r = Ok uid ->
  resp_status (fst (run (h e r) d)) = StatusForbidden /\ snd (run (h e r) d) = d.
Proof.
  intros Hin Hp Ht.
  destruct Hin as [<-|[<-|[]]];
    unfold run, FollowUser, UnfollowollowUser, bind, check; rewrite Hp, Ht; simpl;
    by rewrite Z.eqb_refl.
Qed.

(** C13: Password change with a wrong current password: when the
    stored hash was made from [old] and the body's [Current] differs from
    it, [UpdatePassword] answers 401 and the database is unchanged. *)
Theorem UpdatePassword_wrong_current e r d u row pw s0 :
  param r "userId" = Ok u -> ExtractUserID e r = Ok u -> req_body r = BodyPassword pw ->
  env_connect e = true -> env_exec e = true ->
  users d !! u = Some row -> forall old, HashPassword s0 old = Ok (User.Password row) ->
  Current pw <> old -> (String.length (Current pw) <= 72)%nat ->
  run (UpdatePassword e r) d =
    (Error StatusUnauthorized (ErrNew "the new password does not match the current password"), d).
Proof.
  intros Hp Ht Hb Hc Hx Hrow old Hold Hne Hlen.
  pose proof (PasswordCheck_other _ _ _ _ Hold Hne Hlen) as Hchk.
  unfold run, UpdatePassword, bind, check, guard_that, connect, query, answer, ret.
  rewrite Hp, Ht, Hb, Z.eqb_refl, Hc. simpl.
  unfold Users.SearchPassword, guard. rewrite Hx, Hrow. simpl. by rewrite Hchk.
Qed.

(** C14: Password change with the right current password: the
    handler answers 204, the row of the caller now holds a fresh hash of
    [New], which verifies [New] and no longer verifies the old password,
    and no other row changes. *)
Theorem UpdatePassword_changes e r d u row pw s0 :
  param r "userId" = Ok u -> ExtractUserID e r = Ok u -> req_body r = BodyPassword pw ->
  env_connect e = true -> env_exec e = true ->
  users d !! u = Some row -> HashPassword s0 (Current pw) = Ok (User.Password row) ->
  (String.length (New pw) <= 72)%nat ->
  exists h',
    fst (run (UpdatePassword e r) d) = JSON StatusNoContent PNone /\
    users (snd (run (UpdatePassword e r) d)) !! u = Some (User.set_password row h') /\
    (forall k, k <> u -> users (snd (run (UpdatePassword e r) d)) !! k = users d !! k) /\
    PasswordCheck h' (New pw) = Ok tt /\
    (New pw <> Current pw -> PasswordCheck h' (Current pw) = Err ErrMismatchedHashAndPassword).
Proof.
  intros Hp Ht Hb Hc Hx Hrow Hold Hlen.
  destruct (generate_ok (env_salt e) (New pw) Hlen) as [h' Hh'].
  exists h'. rewrite (UpdatePassword_run e r d u row pw s0 h'); [|done..]. simpl.
  split; [done|]. split; [by rewrite lookup_alter_eq, Hrow|]. split.
  - intros k Hk. by rewrite lookup_alter_ne.
  - split; [by eapply compare_generated|].
    intros Hne. eapply compare_other; [exact Hh'|done|]. by apply HashPassword_length in Hold.
Qed.

(** C33: An empty new password is accepted: the specification has
    hashing fail with a credential error on an empty plaintext, but
    [UpdatePassword] passes [New] to [HashPassword] unchecked, bcrypt
    hashes the empty string, and the handler answers 204 with a hash that
    verifies the empty password stored in the caller's row. *)
Theorem UpdatePassword_accepts_empty e r d u row pw s0 :
  param r "userId" = Ok u -> ExtractUserID e r = Ok u -> req_body r = BodyPassword pw ->
  env_connect e = true -> env_exec e = true ->
  users d !! u = Some row -> HashPassword s0 (Current pw) = Ok (User.Password row) ->
  New pw = EmptyString ->
  exists h', run (UpdatePassword e r) d =
      (JSON StatusNoContent PNone,
       set_users d (alter (fun row => User.set_password row h') u (users d))) /\
    PasswordCheck h' EmptyString = Ok tt.
Proof.
  intros Hp Ht Hb Hc Hx Hrow Hold Hnew.
  destruct (generate_ok (env_salt e) (New pw)) as [h' Hh']; [by rewrite Hnew; simpl; lia|].
  exists h'. split; [by apply (UpdatePassword_run e r d u row pw s0 h')|].
  rewrite <- Hnew. by eapply compare_generated.
Qed.

(** C34: The zero value for a missing user (the open question of the
    specification): [SearchUser] for an identifier with no row answers
    200 with the zero [User], not with a "not found" error. *)
Theorem SearchUser_missing_zero e r d k :
  param r "userId" = Ok k -> users d !! k = None -> env_connect e = true -> env_exec e = true ->
  run (SearchUser e r) d = (JSON StatusOK (PUser User.zero), d).
Proof.
  intros Hp Hk Hc Hx. unfold SearchUser. handler_simp. rewrite Hp, Hc. handler_simp.
  unfold Users.SearchID, guard. rewrite Hx, Hk. done.
Qed.

(** C20: [CreateUser] answers with the user it stored, password
    field included: the 201 response carries the bcrypt hash of the
    password in the request body, the same hash as the stored row. *)
Theorem CreateUser_returns_hash e r d v :
  fst (run (CreateUser e r) d) = JSON StatusCreated (PUser v) ->
  (exists b u, ReadAll r = Ok b /\ unmarshal_user b = Ok u /\
     HashPassword (env_salt e) (User.Password u) = Ok (User.Password v)) /\
  exists row, users (snd (run (CreateUser e r) d)) !! User.ID v = Some row /\
    User.Password row = User.Password v.
Proof.
  unfold CreateUser. handler_paths; intros Hres; simplify_eq.
  match goal with
  | Hu : unmarshal_user ?b = Ok ?u,
    Hp : User.Prepare _ _ ?u = Ok ?u', Hc : Users.Create _ _ _ = Ok _ |- _ =>
      pose proof (User.Prepare_user_fields _ _ _ _ Hp) as (_ & _ & _ & _ & _ & Hh);
      rewrite String.eqb_refl in Hh;
      unfold Users.Create, guard in Hc; destruct (env_exec e); [|discriminate];
      injection Hc as <- <-; split; [exists b, u; split_and!; [reflexivity|exact Hu|exact Hh]|]
  end.
  eexists. simpl. by rewrite lookup_insert_eq.
Qed.

End WithServices.

(** ** Witnesses

    With the executable bcrypt and signer, the secret "k", the clock at
    100 and a token issued at 50 for user 1. *)
#[local] Existing Instance model_bcrypt.
#[local] Existing Instance model_signer.

Lemma owner_guard_forbidden_witness :
  let e := mkEnv "k" 100 0 true true in
  let r := mkRequest "PUT" "/users/7" {["userId" := "7"]} ∅
             (Some (bearer (sign "k" (mkClaims 1 50 (50 + TTL)))))
             (BodyUser (User.mk 0 "Eve" "eve" "eve@mail.com" "" 0)) in
  let d := mkDb ∅ ∅ ∅ 1 1 in
  In UpdateUser owner_guarded /\ param r "userId" = Ok 7 /\ ExtractUserID e r = Ok 1 /\
  7 <> 1 /\
  resp_status (fst (run (UpdateUser e r) d)) = StatusForbidden /\ snd (run (UpdateUser e r) d) = d.
Proof.
  intros e r d.
  assert (H1 : In UpdateUser owner_guarded) by (left; reflexivity).
  assert (H2 : param r "userId" = Ok 7) by reflexivity.
  assert (H3 : ExtractUserID e r = Ok 1) by reflexivity.
  assert (H4 : 7 <> 1) by lia.
  split; [exact H1|]. split; [exact H2|]. split; [exact H3|]. split; [exact H4|].
  exact (owner_guard_forbidden UpdateUser e r d 7 1 H1 H2 H3 H4).
Defined.

Lemma self_guard_forbidden_witness :
  let e := mkEnv "k" 100 0 true true in
  let r := mkRequest "POST" "/users/1/seguir" {["userId" := "1"]} ∅
             (Some (bearer (sign "k" (mkClaims 1 50 (50 + TTL))))) BodyInvalidJson in
  let d := mkDb ∅ ∅ ∅ 1 1 in
  In FollowUser self_guarded /\ param r "userId" = Ok 1 /\ ExtractUserID e r = Ok 1 /\
  resp_status (fst (run (FollowUser e r) d)) = StatusForbidden /\ snd (run (FollowUser e r) d) = d.
Proof.
  intros e r d.
  assert (H1 : In FollowUser self_guarded) by (left; reflexivity).
  assert (H2 : param r "userId" = Ok 1) by reflexivity.
  assert (H3 : ExtractUserID e r = Ok 1) by reflexivity.
  split; [exact H1|]. split; [exact H2|]. split; [exact H3|].
  exact (self_guard_forbidden FollowUser e r d 1 H1 H2 H3).
Defined.

Lemma UpdatePassword_wrong_current_witness :
  let e := mkEnv "k" 100 0 true true in
  let r := mkRequest "POST" "/users/1/update-password" {["userId" := "1"]} ∅
             (Some (bearer (sign "k" (mkClaims 1 50 (50 + TTL)))))
             (BodyPassword (mkPassword "bad" "new")) in
  let row := User.mk 1 "Ana" "ana" "ana@mail.com" "$2a$10$old" 0 in
  let d := mkDb {[1 := row]} ∅ ∅ 2 1 in
  param r "userId" = Ok 1 /\ ExtractUserID e r = Ok 1 /\
  req_body r = BodyPassword (mkPassword "bad" "new") /\
  env_connect e = true /\ env_exec e = true /\ users d !! 1 = Some row /\
  HashPassword 0 "old" = Ok (User.Password row) /\ Current (mkPassword "bad" "new") <> "old" /\
  (String.length (Current (mkPassword "bad" "new")) <= 72)%nat /\
  run (UpdatePassword e r) d =
    (Error StatusUnauthorized (ErrNew "the new password does not match the current password"), d).
Proof.
  intros e r row d.
  assert (H1 : param r "userId" = Ok 1) by reflexivity.
  assert (H2 : ExtractUserID e r = Ok 1) by reflexivity.
  assert (H6 : users d !! 1 = Some row) by reflexivity.
  assert (H7 : HashPassword 0 "old" = Ok (User.Password row)) by reflexivity.
  assert (H8 : Current (mkPassword "bad" "new") <> "old") by discriminate.
  assert (H9 : (String.length (Current (mkPassword "bad" "new")) <= 72)%nat) by (simpl; lia).
  split; [exact H1|]. split; [exact H2|]. split; [reflexivity|]. split; [reflexivity|].
  split; [reflexivity|]. split; [exact H6|]. split; [exact H7|]. split; [exact H8|].
  split; [exact H9|].
  exact (UpdatePassword_wrong_current e r d 1 row _ 0 H1 H2 eq_refl eq_refl eq_refl H6 "old" H7 H8 H9).
Defined.

Lemma UpdatePassword_changes_witness :
  let e := mkEnv "k" 100 0 true true in
  let r := mkRequest "POST" "/users/1/update-password" {["userId" := "1"]} ∅
             (Some (bearer (sign "k" (mkClaims 1 50 (50 + TTL)))))
             (BodyPassword (mkPassword "old" "new")) in
  let row := User.mk 1 "Ana" "ana" "ana@mail.com" "$2a$10$old" 0 in
  let d := mkDb {[1 := row]} ∅ ∅ 2 1 in
  param r "userId" = Ok 1 /\ ExtractUserID e r = Ok 1 /\ users d !! 1 = Some row /\
  HashPassword 0 (Current (mkPassword "old" "new")) = Ok (User.Password row) /\
  exists h',
    fst (run (UpdatePassword e r) d) = JSON StatusNoContent PNone /\
    users (snd (run (UpdatePassword e r) d)) !! 1 = Some (User.set_password row h') /\
    (forall k, k <> 1 -> users (snd (run (UpdatePassword e r) d)) !! k = users d !! k) /\
    PasswordCheck h' "new" = Ok tt /\
    ("new" <> "old" -> PasswordCheck h' "old" = Err ErrMismatchedHashAndPassword).
Proof.
  intros e r row d.
  assert (H1 : param r "userId" = Ok 1) by reflexivity.
  assert (H2 : ExtractUserID e r = Ok 1) by reflexivity.
  assert (H6 : users d !! 1 = Some row) by reflexivity.
  assert (H7 : HashPassword 0 (Current (mkPassword "old" "new")) = Ok (User.Password row))
    by reflexivity.
  split; [exact H1|]. split; [exact H2|]. split; [exact H6|]. split; [exact H7|].
  exact (UpdatePassword_changes e r d 1 row (mkPassword "old" "new") 0 H1 H2 eq_refl eq_refl
           eq_refl H6 H7 ltac:(simpl; lia)).
Defined.

Lemma CreateUser_returns_hash_witness :
  let e := mkEnv "k" 100 0 true true in
  let r := mkRequest "POST" "/users" ∅ ∅ None
             (BodyUser (User.mk 0 "Ana" "ana" "ana@mail.com" "pw" 0)) in
  let d := mkDb ∅ ∅ ∅ 1 1 in
  let v := User.mk 1 "Ana" "ana" "ana@mail.com" "$2a$10$pw" 0 in
  fst (run (CreateUser e r) d) = JSON StatusCreated (PUser v) /\
  (exists b u, ReadAll r = Ok b /\ unmarshal_user b = Ok u /\
     HashPassword (env_salt e) (User.Password u) = Ok (User.Password v)) /\
  exists row, users (snd (run (CreateUser e r) d)) !! User.ID v = Some row /\
    User.Password row = User.Password v.
Proof.
  intros e r d v.
  assert (H1 : fst (run (CreateUser e r) d) = JSON StatusCreated (PUser v)) by reflexivity.
  split; [exact H1|]. exact (CreateUser_returns_hash e r d v H1).
Defined.

(** Witness: Ana changes her password "old" to the empty one. *)
Lemma UpdatePassword_accepts_empty_witness :
  let e := mkEnv "k" 100 0 true true in
  let r := mkRequest "POST" "/users/1/update-password" {["userId" := "1"]} ∅
             (Some (bearer (sign "k" (mkClaims 1 50 (50 + TTL)))))
             (BodyPassword (mkPassword "old" "")) in
  let row := User.mk 1 "Ana" "ana" "ana@mail.com" "$2a$10$old" 0 in
  let d := mkDb {[1 := row]} ∅ ∅ 2 1 in
  param r "userId" = Ok 1 /\ ExtractUserID e r = Ok 1 /\ users d !! 1 = Some row /\
  HashPassword 0 (Current (mkPassword "old" "")) = Ok (User.Password row) /\
  exists h', run (UpdatePassword e r) d =
      (JSON StatusNoContent PNone,
       set_users d (alter (fun row => User.set_password row h') 1 (users d))) /\
    PasswordCheck h' EmptyString = Ok tt.
Proof.
  intros e r row d.
  assert (H1 : param r "userId" = Ok 1) by reflexivity.
  assert (H2 : ExtractUserID e r = Ok 1) by reflexivity.
  assert (H6 : users d !! 1 = Some row) by reflexivity.
  assert (H7 : HashPassword 0 (Current (mkPassword "old" "")) = Ok (User.Password row))
    by reflexivity.
  split; [exact H1|]. split; [exact H2|]. split; [exact H6|]. split; [exact H7|].
  exact (UpdatePassword_accepts_empty e r d 1 row (mkPassword "old" "") 0 H1 H2 eq_refl eq_refl
           eq_refl H6 H7 eq_refl).
Defined.

(** Witness: user 7 does not exist. *)
Lemma SearchUser_missing_zero_witness :
  let e := mkEnv "k" 100 0 true true in
  let r := mkRequest "GET" "/users/7" {["userId" := "7"]} ∅ None BodyUnreadable in
  let d := mkDb ∅ ∅ ∅ 1 1 in
  param r "userId" = Ok 7 /\ users d !! 7 = None /\
  run (SearchUser e r) d = (JSON StatusOK (PUser User.zero), d).
Proof.
  intros e r d.
  assert (H1 : param r "userId" = Ok 7) by reflexivity.
  assert (H2 : users d !! 7 = None) by reflexivity.
  split; [exact H1|]. split; [exact H2|].
  exact (SearchUser_missing_zero e r d 7 H1 H2 eq_refl eq_refl).
Defined.

End UsersCtl.
