(* ===== verification/PublicationsCtl.v ===== *)
(** * The publication handlers: [src/src/controllers/publications.go]

    Same shape as the user handlers.  The ownership check of
    [UpdatePublication] and [DeletePublication] compares the caller with
    the [AuthorID] of the publication as [Publications.SearchID] returns
    it, which is the zero [Publication] (author 0) when the join with the
    author's row finds nothing. *)

From S2P Require Import Prelude GoLib Security Models Http Auth Store Handler UsersCtl.
Import GoStrings GoStrconv Security Http Auth Store Handler UsersCtl.
Open Scope handler_scope.

Module PublicationsCtl.

Section WithServices.
Context `{Hasher} `{Signer}.

(** [CreatePublication]. *)
Definition CreatePublication (e : env) (r : request) : M response :=
  userID <- check (ExtractUserID e r) StatusUnauthorized ;;
  bodyRequest <- check (ReadAll r) StatusUnprocessableEntity ;;
  publication <- check (unmarshal_publication bodyRequest) StatusBadRequest ;;
  let publication := Publication.set_author publication userID in
  publication <- check (Publication.Prepare publication) StatusBadRequest ;;
  connect e ;;
  id <- insert (Publications.Create e publication) StatusInternalServerError ;;
  ret (JSON StatusCreated (PPublication (Publication.set_id publication id))).

(** [SearchPublications]. *)
Definition SearchPublications (e : env) (r : request) : M response :=
  userID <- check (ExtractUserID e r) StatusUnauthorized ;;
  connect e ;;
  publications <- query (Publications.Search e userID) StatusInternalServerError ;;
  ret (JSON StatusOK (PPublications publications)).

(** [SearchPublication]. *)
Definition SearchPublication (e : env) (r : request) : M response :=
  publicationID <- check (param r "publicationId") StatusBadRequest ;;
  connect e ;;
  publication <- query (Publications.SearchID e publicationID) StatusInternalServerError ;;
  ret (JSON StatusOK (PPublication publication)).

(** [UpdatePublication]. *)
Definition UpdatePublication (e : env) (r : request) : M response :=
  userID <- check (ExtractUserID e r) StatusUnauthorized ;;
  publicationID <- check (param r "publicationId") StatusBadRequest ;;
  connect e ;;
  publicationSavedDatabase <- query (Publications.SearchID e publicationID)
                                StatusInternalServerError ;;
  guard_that (negb (userID =? Publication.AuthorID publicationSavedDatabase)) StatusForbidden
    (ErrNew "you cannot change a post that is not yours") ;;
  bodyRequest <- check (ReadAll r) StatusUnprocessableEntity ;;
  publication <- check (unmarshal_publication bodyRequest) StatusBadRequest ;;
  publication <- check (Publication.Prepare publication) StatusBadRequest ;;
  write (Publications.Update e publicationID publication) StatusInternalServerError ;;
  ret (JSON StatusNoContent PNone).

(** [DeletePublication]. *)
Definition DeletePublication (e : env) (r : request) : M response :=
  userID <- check (ExtractUserID e r) StatusUnauthorized ;;
  publicationID <- check (param r "publicationId") StatusBadRequest ;;
  connect e ;;
  publicationSavedDatabase <- query (Publications.SearchID e publicationID)
                                StatusInternalServerError ;;
  guard_that (negb (userID =? Publication.AuthorID publicationSavedDatabase)) StatusForbidden
    (ErrNew "you cannot delete a post that is not yours") ;;
  write (Publications.Delete e publicationID) StatusInternalServerError ;;
  ret (JSON StatusNoContent PNone).

(** [SearchPublicationsUser]: reads the variable "userId". *)
Definition SearchPublicationsUser (e : env) (r : request) : M response :=
  userID <- check (param r "userId") StatusBadRequest ;;
  connect e ;;
  publications <- query (Publications.SearchUser e userID) StatusInternalServerError ;;
  ret (JSON StatusOK (PPublications publications)).

(** [LikePublication]: no identity, ownership or existence check. *)
Definition LikePublication (e : env) (r : request) : M response :=
  publicationID <- check (param r "publicationId") StatusBadRequest ;;
  connect e ;;
  write (Publications.LikePublication e publicationID) StatusInternalServerError ;;
  ret (JSON StatusNoContent PNone).

(** [DislikePublication]. *)
Definition DislikePublication (e : env) (r : request) : M response :=
  publicationID <- check (param r "publicationId") StatusBadRequest ;;
  connect e ;;
  write (Publications.DislikePublication e publicationID) StatusInternalServerError ;;
  ret (JSON StatusNoContent PNone).

(** ** Main properties *)

(** The two handlers that check the author of the publication in the
    path. *)
Definition author_guarded : list (env -> request -> M response) :=
  [UpdatePublication; DeletePublication].

(** C4: Ownership guard of the publication handlers: when the caller
    is not the author that [SearchID] reports for the publication in the
    path, [UpdatePublication] and [DeletePublication] answer 403 and leave
    the database unchanged (the check comes before the body is read and
    before any write). *)
Theorem publication_owner_forbidden h e r d tid pid saved :
  In h author_guarded ->
  ExtractUserID e r = Ok tid -> param r "publicationId" = Ok pid -> env_connect e = true ->
  Publications.SearchID e pid d = Ok saved -> tid <> Publication.AuthorID saved ->
  resp_status (fst (run (h e r) d)) = StatusForbidden /\ snd (run (h e r) d) = d.
Proof.
  intros Hin Ht Hp Hc Hs Hne.
  destruct Hin as [<-|[<-|[]]]; unfold UpdatePublication, DeletePublication;
    handler_simp; rewrite Ht, Hp, Hc; handler_simp; rewrite Hs; handler_simp;
    by destruct (Z.eqb_spec tid (Publication.AuthorID saved)).
Qed.

(** What a 201 answer of [CreatePublication] implies: the statements ran,
    the users table is as before, and the row stored under the returned
    id has the prepared title and content, the caller as author, no likes
    and the current time. *)
Lemma CreatePublication_ok e r d p :
  fst (run (CreatePublication e r) d) = JSON StatusCreated (PPublication p) ->
  env_exec e = true /\ users (snd (run (CreatePublication e r) d)) = users d /\
  exists tid, ExtractUserID e r = Ok tid /\ Publication.AuthorID p = tid /\
    publications (snd (run (CreatePublication e r) d)) !! Publication.ID p =
      Some (Publication.mk (Publication.ID p) (Publication.Title p) (Publication.Content p)
              tid EmptyString 0 (env_now e)).
Proof.
  unfold CreatePublication. handler_paths; intros Hres; simplify_eq.
  match goal with
  | Hp : Publication.Prepare (Publication.set_author _ ?a) = Ok ?p,
    Hc : Publications.Create _ _ _ = Ok _ |- _ =>
      pose proof (Publication.Prepare_set_author _ _ _ Hp) as Ha;
      unfold Publications.Create, guard in Hc; destruct (env_exec e) eqn:Hx; [|discriminate];
      injection Hc as <- <-
  end.
  split; [done|]. split; [done|].
  eexists. split; [done|]. simpl. split; [done|]. rewrite lookup_insert_eq. by rewrite Ha.
Qed.

(** C15: A created publication belongs to the caller: whatever author
    the body names, [CreatePublication] stores and returns the caller's
    id as [AuthorID], with the title and content [Prepare] made. *)
Theorem CreatePublication_author e r d p :
  fst (run (CreatePublication e r) d) = JSON StatusCreated (PPublication p) ->
  exists tid, ExtractUserID e r = Ok tid /\ Publication.AuthorID p = tid /\
    publications (snd (run (CreatePublication e r) d)) !! Publication.ID p =
      Some (Publication.mk (Publication.ID p) (Publication.Title p) (Publication.Content p)
              tid EmptyString 0 (env_now e)).
Proof. intros Hc. by destruct (CreatePublication_ok e r d p Hc) as (_ & _ & Hx). Qed.

(** C28: Round trip of a publication: after [CreatePublication] answers
    201 with [p], reading the id [p] carries with [SearchPublication]
    answers 200 with the stored row joined with the author's nick: the
    title and content [p] has, the caller as author, no likes and the
    creation time, whatever likes and date the request body named. *)
Theorem CreatePublication_SearchPublication e r r' d p u :
  fst (run (CreatePublication e r) d) = JSON StatusCreated (PPublication p) ->
  users d !! Publication.AuthorID p = Some u ->
  param r' "publicationId" = Ok (Publication.ID p) -> env_connect e = true ->
  run (SearchPublication e r') (snd (run (CreatePublication e r) d)) =
    (JSON StatusOK (PPublication (Publication.mk (Publication.ID p) (Publication.Title p)
       (Publication.Content p) (Publication.AuthorID p) (User.Nick u) 0 (env_now e))),
     snd (run (CreatePublication e r) d)).
Proof.
  intros Hc Hu Hp Hcon.
  destruct (CreatePublication_ok e r d p Hc) as (Hx & Husers & tid & _ & Ha & Hrow).
  unfold SearchPublication. handler_simp. rewrite Hp, Hcon. handler_simp.
  unfold Publications.SearchID, guard. rewrite Hx, Hrow. simpl.
  unfold Publications.joined. cbn [Publication.AuthorID]. rewrite Husers, <- Ha, Hu. done.
Qed.

(** C35: [SearchPublicationsUser] reads the path variable "userId",
    while its route ([routers/publications.go]) names it "usersId": with
    the variables that route binds, [mux.Vars(r)["userId"]] is the empty
    string and the handler always answers 400 with the syntax error of
    [ParseUint], before touching the database. *)
Theorem SearchPublicationsUser_wrong_var e r d v :
  run (SearchPublicationsUser e (with_vars r {["usersId" := v]})) d =
    (Error StatusBadRequest ErrSyntax, d).
Proof.
  unfold SearchPublicationsUser, param, var. handler_simp. cbn [req_vars with_vars].
  by rewrite lookup_singleton_ne.
Qed.

(** C36: Liking a publication that does not exist is not an error:
    [LikePublication] answers 204 and the tables are unchanged (the
    [update ... where id = ?] matches no row). *)
Theorem LikePublication_missing e r d k :
  param r "publicationId" = Ok k -> publications d !! k = None ->
  env_connect e = true -> env_exec e = true ->
  run (LikePublication e r) d = (JSON StatusNoContent PNone, d).
Proof.
  intros Hp Hk Hc Hx. unfold LikePublication. handler_simp. rewrite Hp, Hc. handler_simp.
  unfold Publications.LikePublication, guard. rewrite Hx. simpl.
  rewrite alter_id' by done. by destruct d.
Qed.

(** A publication [k] that [u] wrote. *)
Definition owns (u k : Z) (d : db) : Prop :=
  exists p, publications d !! k = Some p /\ Publication.AuthorID p = u.

(** The author the ownership check compares with is not [u] when [u]
    wrote no publication [k]: a missing publication, or one whose author
    row is missing, gives the zero value, whose author is 0. *)
Lemma SearchID_row_not_owner u k d :
  u <> 0 -> ~ owns u k d ->
  (u =? Publication.AuthorID (default Publication.zero (publications d !! k ≫= Publications.joined d))) = false.
Proof.
  intros Hu Hown. apply Z.eqb_neq. intros Heq.
  destruct (publications d !! k) as [p|] eqn:Hp; simpl in Heq; [|done].
  unfold Publications.joined in Heq.
  destruct (users d !! Publication.AuthorID p); simpl in Heq; [|done].
  apply Hown. by exists p.
Qed.

(** C37: The 403 of the ownership check does not reveal whether the
    publication exists.  For a caller other than 0 who wrote no
    publication with the id in the path, [UpdatePublication] and
    [DeletePublication] give the same answer on any two databases,
    whether the publication is missing from one and another user's in
    the other, and change neither database. *)
Theorem forbidden_hides_existence h e r d1 d2 :
  In h author_guarded ->
  (forall u k, ExtractUserID e r = Ok u -> param r "publicationId" = Ok k ->
     u <> 0 /\ ~ owns u k d1 /\ ~ owns u k d2) ->
  fst (run (h e r) d1) = fst (run (h e r) d2) /\
  snd (run (h e r) d1) = d1 /\ snd (run (h e r) d2) = d2.
Proof.
  intros Hin Hno. destruct Hin as [<-|[<-|[]]]; unfold UpdatePublication, DeletePublication;
    handler_simp; destruct (ExtractUserID e r) as [u|] eqn:Ht; handler_simp; try done;
    destruct (param r "publicationId") as [k|] eqn:Hp; handler_simp; try done;
    destruct (env_connect e); handler_simp; try done;
    unfold Publications.SearchID, guard; destruct (env_exec e); handler_simp; try done;
    destruct (Hno u k eq_refl eq_refl) as (Hu & H1 & H2);
    rewrite (SearchID_row_not_owner u k d1 Hu H1), (SearchID_row_not_owner u k d2 Hu H2);
    handler_simp; done.
Qed.

End WithServices.
#[local] Existing Instance model_bcrypt.
#[local] Existing Instance model_signer.

(** Witness: user 1 tries to edit publication 1 of user 2. *)
Lemma publication_owner_forbidden_witness :
  let e := mkEnv "k" 100 0 true true in
  let r := mkRequest "PUT" "/publications/1" {["publicationId" := "1"]} ∅
             (Some (bearer (sign "k" (mkClaims 1 50 (50 + TTL)))))
             (BodyPublication (Publication.mk 0 "x" "y" 0 "" 0 0)) in
  let d := mkDb {[2 := User.mk 2 "Bob" "bob" "bob@mail.com" "h" 0]} ∅
             {[1 := Publication.mk 1 "t" "c" 2 "" 0 0]} 3 2 in
  let saved := Publication.mk 1 "t" "c" 2 "bob" 0 0 in
  In UpdatePublication author_guarded /\ ExtractUserID e r = Ok 1 /\
  param r "publicationId" = Ok 1 /\ env_connect e = true /\
  Publications.SearchID e 1 d = Ok saved /\ 1 <> Publication.AuthorID saved /\
  resp_status (fst (run (UpdatePublication e r) d)) = StatusForbidden /\
  snd (run (UpdatePublication e r) d) = d.
Proof.
  intros e r d saved.
  assert (H1 : In UpdatePublication author_guarded) by (left; reflexivity).
  assert (H2 : ExtractUserID e r = Ok 1) by reflexivity.
  assert (H3 : param r "publicationId" = Ok 1) by reflexivity.
  assert (H4 : env_connect e = true) by reflexivity.
  assert (H5 : Publications.SearchID e 1 d = Ok saved) by reflexivity.
  assert (H6 : 1 <> Publication.AuthorID saved) by (simpl; lia).
  split; [exact H1|]. split; [exact H2|]. split; [exact H3|]. split; [exact H4|].
  split; [exact H5|]. split; [exact H6|].
  exact (publication_owner_forbidden UpdatePublication e r d 1 1 saved H1 H2 H3 H4 H5 H6).
Defined.

(** Witness: the body names author 9, the caller is user 1; the stored
    and returned publication has author 1. *)
Lemma CreatePublication_author_witness :
  let e := mkEnv "k" 100 0 true true in
  let r := mkRequest "POST" "/publications" ∅ ∅
             (Some (bearer (sign "k" (mkClaims 1 50 (50 + TTL)))))
             (BodyPublication (Publication.mk 0 " t " "c" 9 "" 0 0)) in
  let d := mkDb ∅ ∅ ∅ 1 1 in
  let p := Publication.mk 1 "t" "c" 1 "" 0 0 in
  fst (run (CreatePublication e r) d) = JSON StatusCreated (PPublication p) /\
  exists tid, ExtractUserID e r = Ok tid /\ Publication.AuthorID p = tid /\
    publications (snd (run (CreatePublication e r) d)) !! Publication.ID p =
      Some (Publication.mk (Publication.ID p) (Publication.Title p) (Publication.Content p)
              tid EmptyString 0 (env_now e)).
Proof.
  intros e r d p.
  assert (H : fst (run (CreatePublication e r) d) = JSON StatusCreated (PPublication p))
    by reflexivity.
  split; [exact H|]. exact (CreatePublication_author e r d p H).
Defined.

(** Witness: a like on publication 4 of an empty table. *)
Lemma LikePublication_missing_witness :
  let e := mkEnv "k" 100 0 true true in
  let r := mkRequest "POST" "/publications/4/like" {["publicationId" := "4"]} ∅ None
             BodyUnreadable in
  let d := mkDb ∅ ∅ ∅ 1 1 in
  param r "publicationId" = Ok 4 /\ publications d !! 4 = None /\
  run (LikePublication e r) d = (JSON StatusNoContent PNone, d).
Proof.
  intros e r d.
  assert (H1 : param r "publicationId" = Ok 4) by reflexivity.
  assert (H2 : publications d !! 4 = None) by reflexivity.
  split; [exact H1|]. split; [exact H2|].
  exact (LikePublication_missing e r d 4 H1 H2 eq_refl eq_refl).
Defined.

(** Witness: Ana (user 1) tries to edit publication 1; it is missing in
    one database and Bob's in the other: both answers are the same 403. *)
Lemma forbidden_hides_existence_witness :
  let e := mkEnv "k" 100 0 true true in
  let r := mkRequest "PUT" "/publications/1" {["publicationId" := "1"]} ∅
             (Some (bearer (sign "k" (mkClaims 1 50 (50 + TTL)))))
             (BodyPublication (Publication.mk 0 "x" "y" 0 "" 0 0)) in
  let bob := {[2 := User.mk 2 "Bob" "bob" "bob@mail.com" "h" 0]} in
  let d1 := mkDb bob ∅ ∅ 3 1 in
  let d2 := mkDb bob ∅ {[1 := Publication.mk 1 "t" "c" 2 "" 0 0]} 3 2 in
  resp_status (fst (run (UpdatePublication e r) d1)) = StatusForbidden /\
  fst (run (UpdatePublication e r) d1) = fst (run (UpdatePublication e r) d2) /\
  snd (run (UpdatePublication e r) d1) = d1 /\ snd (run (UpdatePublication e r) d2) = d2.
Proof.
  intros e r bob d1 d2.
  assert (Hno : forall u k, ExtractUserID e r = Ok u -> param r "publicationId" = Ok k ->
                  u <> 0 /\ ~ owns u k d1 /\ ~ owns u k d2).
  { intros u k Hu Hk. vm_compute in Hu, Hk. injection Hu as <-. injection Hk as <-.
    split; [lia|]. split.
    - intros (p & Hp & _). simpl in Hp. by rewrite lookup_empty in Hp.
    - intros (p & Hp & Ha). simpl in Hp. apply lookup_singleton_Some in Hp as [_ <-].
      simpl in Ha. lia. }
  split; [reflexivity|].
  exact (forbidden_hides_existence UpdatePublication e r d1 d2 (or_introl eq_refl) Hno).
Defined.

(** Witness: Ana (1) posts a body that claims 5 likes, a date of 7 and
    author 9; reading publication 1 back gives author 1, nick "ana", no
    likes and the time 100. *)
Lemma CreatePublication_SearchPublication_witness :
  let e := mkEnv "k" 100 0 true true in
  let r := mkRequest "POST" "/publications" ∅ ∅
             (Some (bearer (sign "k" (mkClaims 1 50 (50 + TTL)))))
             (BodyPublication (Publication.mk 0 "t" "c" 9 "" 5 7)) in
  let r' := mkRequest "POST" "/publications/1" {["publicationId" := "1"]} ∅ None BodyUnreadable in
  let ana := User.mk 1 "Ana" "ana" "ana@mail.com" "h" 0 in
  let d := mkDb {[1 := ana]} ∅ ∅ 2 1 in
  let p := Publication.mk 1 "t" "c" 1 "" 5 7 in
  fst (run (CreatePublication e r) d) = JSON StatusCreated (PPublication p) /\
  run (SearchPublication e r') (snd (run (CreatePublication e r) d)) =
    (JSON StatusOK (PPublication (Publication.mk 1 "t" "c" 1 "ana" 0 100)),
     snd (run (CreatePublication e r) d)).
Proof.
  intros e r r' ana d p.
  assert (Hc : fst (run (CreatePublication e r) d) = JSON StatusCreated (PPublication p))
    by reflexivity.
  split; [exact Hc|].
  exact (CreatePublication_SearchPublication e r r' d p ana Hc eq_refl eq_refl eq_refl).
Defined.

End PublicationsCtl.
