(* ===== verification/LoginCtl.v ===== *)
(** * The login handler: [src/src/controllers/login.go]

    [Login] reads the credentials, looks the user up by e-mail, checks the
    password against the stored bcrypt hash and answers with a fresh token
    for the stored user's id, written with [w.Write] (status 200). *)

From S2P Require Import Prelude GoLib Security Models Http Auth Store Handler UsersCtl.
Import Security Http Auth Store Handler.
Open Scope handler_scope.

Module LoginCtl.

Section WithServices.
Context `{Hasher} `{Signer}.

(** [Login]. *)
Definition Login (e : env) (r : request) : M response :=
  bodyRequest <- check (ReadAll r) StatusUnprocessableEntity ;;
  user <- check (unmarshal_user bodyRequest) StatusBadRequest ;;
  connect e ;;
  userSaveDatabase <- query (Users.SearchEmail e (User.Email user)) StatusInternalServerError ;;
  check (PasswordCheck (User.Password userSaveDatabase) (User.Password user)) StatusUnauthorized ;;
  token <- check (CreateToken (env_secret e) (env_now e) (User.ID userSaveDatabase))
             StatusInternalServerError ;;
  ret (mkResponse StatusOK (PToken token)).

(** ** Main properties of login *)

(** What a 200 answer of [Login] implies: the body named the e-mail of a
    row with a positive id equal to its key, the body's password verifies
    against that row's hash, and the token is [CreateToken]'s for that id
    now.  The zero value [SearchEmail] returns for an unknown e-mail has
    the empty hash, which verifies nothing. *)
Lemma Login_ok e r d tok :
  wf d -> fst (run (Login e r) d) = mkResponse StatusOK (PToken tok) ->
  exists b cred k u, ReadAll r = Ok b /\ unmarshal_user b = Ok cred /\
    users d !! k = Some u /\ 1 <= k < next_user d /\ User.ID u = k /\
    User.Email u = User.Email cred /\
    PasswordCheck (User.Password u) (User.Password cred) = Ok tt /\
    CreateToken (env_secret e) (env_now e) k = Ok tok.
Proof.
  intros Hwf. unfold Login. handler_paths; intros Hres; simplify_eq.
  match goal with
  | Hs : Users.SearchEmail _ _ _ = Ok ?v, Hc : PasswordCheck (User.Password ?v) _ = Ok ?t |- _ =>
      destruct (SearchEmail_cases _ _ _ _ Hs) as [->|(k & u & Hu & Hem & ->)];
      [by rewrite PasswordCheck_empty in Hc|destruct t]
  end.
  destruct (wf_users _ Hwf _ _ Hu) as [Hk Hid].
  eexists _, _, k, u. simpl in *. rewrite Hid in *. split_and!; eauto; lia.
Qed.

(** C11: A token is issued only for an existing user, after a
    successful password check: when [Login] answers 200 with a token, the
    body named an e-mail of a row of the users table with a positive id,
    the password of the body verifies against that row's hash, and the
    token is the one [CreateToken] makes for that id now.  In particular
    no token is ever issued for the id 0 of the zero value that
    [SearchEmail] returns for an unknown e-mail. *)
Theorem Login_token_sound e r d tok :
  wf d -> fst (run (Login e r) d) = mkResponse StatusOK (PToken tok) ->
  exists b cred k u, ReadAll r = Ok b /\ unmarshal_user b = Ok cred /\
    users d !! k = Some u /\ 1 <= k /\ User.Email u = User.Email cred /\
    PasswordCheck (User.Password u) (User.Password cred) = Ok tt /\
    CreateToken (env_secret e) (env_now e) k = Ok tok.
Proof.
  intros Hwf Hl. destruct (Login_ok e r d tok Hwf Hl) as (b & cred & k & u & Hx).
  exists b, cred, k, u. naive_solver lia.
Qed.

(** C8: Round trip through login: the token [Login] hands out
    authenticates every later request that carries it as a bearer token,
    under the same secret and before the token's expiry six hours after
    the login, as the id of the row the login matched.  The ids and times
    are [uint64]s: the users' AUTO_INCREMENT counter and the clock stay
    below [2^64]. *)
Theorem Login_token_authenticates e e' r r' d tok :
  wf d -> next_user d <= u64_modulus -> 0 <= env_now e -> env_now e + TTL < u64_modulus ->
  fst (run (Login e r) d) = mkResponse StatusOK (PToken tok) ->
  env_secret e' = env_secret e -> env_now e' < env_now e + TTL ->
  req_auth r' = Some (bearer tok) ->
  exists k u, users d !! k = Some u /\ User.ID u = k /\ ExtractUserID e' r' = Ok k.
Proof.
  intros Hwf Hnext Ht0 Hexp Hl Hs Hnow Hr.
  destruct (Login_ok e r d tok Hwf Hl) as (b & cred & k & u & _ & _ & Hu & Hk & Hid & _ & _ & Hc).
  exists k, u. split_and!; [done|done|].
  rewrite <- Hs in Hc. eapply ExtractUserID_CreateToken; [..|exact Hc|exact Hr];
    unfold is_u64, TTL in *; lia.
Qed.

(** C12: Register, then log in: a user created by [CreateUser] with
    an e-mail no other row has can log in with that e-mail and the
    password it registered; [Login] answers 200 with the token for the new
    row's id (the AUTO_INCREMENT value) issued now, and does not change the
    database. *)
Theorem register_then_login e r1 r2 d u u' cred :
  wf d -> env_connect e = true -> env_exec e = true ->
  req_body r1 = BodyUser u -> User.Prepare (env_salt e) User.stage_register u = Ok u' ->
  (forall k v, users d !! k = Some v -> User.Email v <> User.Email u') ->
  req_body r2 = BodyUser cred -> User.Email cred = User.Email u' ->
  User.Password cred = User.Password u ->
  fst (run (UsersCtl.CreateUser e r1) d) = JSON StatusCreated (PUser (User.set_id u' (next_user d))) /\
  run (Login e (r2)) (snd (run (UsersCtl.CreateUser e r1) d)) =
    (mkResponse StatusOK (PToken (sign (env_secret e)
       (mkClaims (next_user d) (env_now e) (env_now e + TTL)))),
     snd (run (UsersCtl.CreateUser e r1) d)).
Proof.
  intros Hwf Hc Hx Hb1 Hprep Hfresh Hb2 Hem Hpw.
  pose proof (User.Prepare_user_fields _ _ _ _ Hprep) as (_ & _ & _ & _ & _ & Hhash).
  simpl in Hhash.
  unfold UsersCtl.CreateUser, ReadAll. handler_simp. rewrite Hb1. unfold unmarshal_user. handler_simp.
  rewrite Hprep, Hc. handler_simp. unfold Users.Create, guard. rewrite Hx. handler_simp.
  split; [done|].
  unfold Login, ReadAll. handler_simp. rewrite Hb2. unfold unmarshal_user. rewrite Hc. handler_simp.
  set (row := User.mk (next_user d) (User.Name u') (User.Nick u') (User.Email u')
                (User.Password u') (env_now e)).
  rewrite (SearchEmail_unique e (User.Email cred) _ (next_user d) row Hx); cycle 1.
  - cbn [users]. by rewrite lookup_insert_eq.
  - by rewrite Hem.
  - cbn [users]. intros k' v. rewrite lookup_insert. case_decide; [done|].
    intros Hv Hv'. exfalso. apply (Hfresh k' v Hv). by rewrite Hv', Hem.
  - handler_simp. cbn [email_row User.Password User.ID row].
    rewrite Hpw, (PasswordCheck_HashPassword _ _ _ Hhash). handler_simp. done.
Qed.

(** C22: [Login] tells an unknown e-mail from a wrong password.  For the
    same request, on a database without a row for the e-mail the answer
    is 401 with bcrypt's "hash too short" error (the zero value's empty
    hash), and on a database whose one row for the e-mail holds the hash
    of another password it is 401 with "hash and password mismatch".
    The two 401 bodies differ, so the answer reveals whether an account
    exists for the e-mail; neither answer changes the database. *)
Theorem Login_reveals_account e r b cred d1 d2 k u salt pw :
  ReadAll r = Ok b -> unmarshal_user b = Ok cred -> env_connect e = true -> env_exec e = true ->
  (String.length (User.Password cred) <= 72)%nat ->
  (forall j v, users d1 !! j = Some v -> User.Email v <> User.Email cred) ->
  users d2 !! k = Some u -> User.Email u = User.Email cred ->
  (forall j v, users d2 !! j = Some v -> User.Email v = User.Email cred -> j = k) ->
  HashPassword salt pw = Ok (User.Password u) -> User.Password cred <> pw ->
  run (Login e r) d1 = (Error StatusUnauthorized ErrHashTooShort, d1) /\
  run (Login e r) d2 = (Error StatusUnauthorized ErrMismatchedHashAndPassword, d2).
Proof.
  intros Hb Hu Hc Hx Hlen Hno Hk Hem Huniq Hh Hne.
  unfold Login. split; handler_simp; rewrite Hb, Hu, Hc; handler_simp.
  - rewrite (SearchEmail_none e _ d1 Hx Hno). handler_simp.
    by rewrite PasswordCheck_empty.
  - rewrite (SearchEmail_unique e _ d2 k u Hx Hk Hem Huniq). handler_simp.
    cbn [email_row User.Password]. by rewrite (PasswordCheck_other salt pw _ _ Hh Hne Hlen).
Qed.

(** Changing one row's password keeps every row's e-mail. *)
Lemma set_password_emails d u h j v :
  users (set_users d (alter (fun row => User.set_password row h) u (users d))) !! j = Some v ->
  exists v0, users d !! j = Some v0 /\ User.Email v = User.Email v0.
Proof.
  cbn [users set_users]. rewrite lookup_alter. case_decide; [subst j|eauto].
  destruct (users d !! u) as [v0|]; simpl; [|done]. intros [= <-]. by exists v0.
Qed.

(** C30: A password change takes effect at login.  After [UpdatePassword]
    succeeds for the caller [u] (right current password, a different new
    one), a login with [u]'s e-mail and the new password gets the token
    for [u], and a login with the old password is refused with 401 and
    the bcrypt mismatch error (the e-mail being [u]'s alone). *)
Theorem password_change_then_login e r r1 r2 d u row pw s0 c1 c2 :
  wf d -> UsersCtl.param r "userId" = Ok u -> ExtractUserID e r = Ok u -> req_body r = BodyPassword pw ->
  env_connect e = true -> env_exec e = true ->
  users d !! u = Some row -> HashPassword s0 (Current pw) = Ok (User.Password row) ->
  (String.length (New pw) <= 72)%nat -> New pw <> Current pw ->
  (forall j v, users d !! j = Some v -> User.Email v = User.Email row -> j = u) ->
  req_body r1 = BodyUser c1 -> User.Email c1 = User.Email row -> User.Password c1 = New pw ->
  req_body r2 = BodyUser c2 -> User.Email c2 = User.Email row -> User.Password c2 = Current pw ->
  fst (run (UsersCtl.UpdatePassword e r) d) = JSON StatusNoContent PNone /\
  fst (run (Login e r1) (snd (run (UsersCtl.UpdatePassword e r) d))) =
    mkResponse StatusOK (PToken (sign (env_secret e) (mkClaims u (env_now e) (env_now e + TTL)))) /\
  fst (run (Login e r2) (snd (run (UsersCtl.UpdatePassword e r) d))) =
    Error StatusUnauthorized ErrMismatchedHashAndPassword.
Proof.
  intros Hwf Hp Ht Hb Hc Hx Hrow Hold Hlen Hne Huniq Hb1 He1 Hp1 Hb2 He2 Hp2.
  destruct (generate_ok (env_salt e) (New pw) Hlen) as [h' Hh'].
  rewrite (UsersCtl.UpdatePassword_run e r d u row pw s0 h'); [|done..]. cbn [fst snd].
  set (d' := set_users d (alter (fun row => User.set_password row h') u (users d))).
  assert (Hrow' : users d' !! u = Some (User.set_password row h')) by (simpl; by rewrite lookup_alter_eq, Hrow).
  assert (Huniq' : forall email, email = User.Email row -> forall j v, users d' !! j = Some v ->
                     User.Email v = email -> j = u).
  { intros email -> j v Hv Hem. destruct (set_password_emails _ _ _ _ _ Hv) as (v0 & Hv0 & Hev).
    apply (Huniq j v0 Hv0). congruence. }
  destruct (wf_users _ Hwf _ _ Hrow) as [_ Hid].
  assert (Hlogin : forall r' c', req_body r' = BodyUser c' -> User.Email c' = User.Email row ->
    fst (run (Login e r') d') =
      match PasswordCheck h' (User.Password c') with
      | Ok _ => mkResponse StatusOK (PToken (sign (env_secret e) (mkClaims u (env_now e) (env_now e + TTL))))
      | Err err => Error StatusUnauthorized err
      end).
  { intros r' c' Hb' He'. unfold Login, ReadAll. handler_simp. rewrite Hb'.
    unfold unmarshal_user. rewrite Hc. handler_simp.
    rewrite (SearchEmail_unique e _ d' u _ Hx Hrow' ltac:(done) (Huniq' _ He')). handler_simp.
    cbn [email_row User.Password User.ID User.set_password]. rewrite Hid.
    destruct (PasswordCheck h' (User.Password c')); handler_simp; done. }
  split; [done|]. rewrite (Hlogin r1 c1 Hb1 He1), (Hlogin r2 c2 Hb2 He2), Hp1, Hp2.
  rewrite (PasswordCheck_HashPassword _ _ _ Hh').
  by rewrite (PasswordCheck_other _ _ _ _ Hh' (not_eq_sym Hne) (HashPassword_length _ _ _ Hold)).
Qed.

End WithServices.
#[local] Existing Instance model_bcrypt.
#[local] Existing Instance model_signer.

(** Witness: Ana (id 1, password "pw") logs in at time 100. *)
Lemma Login_token_sound_witness :
  let e := mkEnv "k" 100 0 true true in
  let d := mkDb {[1 := User.mk 1 "Ana" "ana" "ana@mail.com" "$2a$10$pw" 0]} ∅ ∅ (1 + 1) 1 in
  let r := mkRequest "POST" "/login" ∅ ∅ None
             (BodyUser (User.mk 0 "" "" "ana@mail.com" "pw" 0)) in
  let tok := sign "k" (mkClaims 1 100 (100 + TTL)) in
  wf d /\ fst (run (Login e r) d) = mkResponse StatusOK (PToken tok) /\
  exists b cred k u, ReadAll r = Ok b /\ unmarshal_user b = Ok cred /\
    users d !! k = Some u /\ 1 <= k /\ User.Email u = User.Email cred /\
    PasswordCheck (User.Password u) (User.Password cred) = Ok tt /\
    CreateToken (env_secret e) (env_now e) k = Ok tok.
Proof.
  intros e d r tok.
  assert (Hwf : wf d) by (apply wf_one_user; simpl; lia).
  assert (H : fst (run (Login e r) d) = mkResponse StatusOK (PToken tok)) by reflexivity.
  split; [exact Hwf|]. split; [exact H|]. exact (Login_token_sound e r d tok Hwf H).
Defined.

(** Witness: the token of Ana's login at time 100 authenticates a request
    at time 5000 as user 1. *)
Lemma Login_token_authenticates_witness :
  let e := mkEnv "k" 100 0 true true in
  let e' := mkEnv "k" 5000 0 true true in
  let d := mkDb {[1 := User.mk 1 "Ana" "ana" "ana@mail.com" "$2a$10$pw" 0]} ∅ ∅ (1 + 1) 1 in
  let r := mkRequest "POST" "/login" ∅ ∅ None
             (BodyUser (User.mk 0 "" "" "ana@mail.com" "pw" 0)) in
  let tok := sign "k" (mkClaims 1 100 (100 + TTL)) in
  let r' := mkRequest "DELETE" "/users/1" ∅ ∅ (Some (bearer tok)) BodyUnreadable in
  wf d /\ next_user d <= u64_modulus /\ 0 <= env_now e /\ env_now e + TTL < u64_modulus /\
  fst (run (Login e r) d) = mkResponse StatusOK (PToken tok) /\
  env_secret e' = env_secret e /\ env_now e' < env_now e + TTL /\
  req_auth r' = Some (bearer tok) /\
  exists k u, users d !! k = Some u /\ User.ID u = k /\ ExtractUserID e' r' = Ok k.
Proof.
  intros e e' d r tok r'.
  assert (Hwf : wf d) by (apply wf_one_user; simpl; lia).
  assert (H1 : next_user d <= u64_modulus) by (simpl; unfold u64_modulus; lia).
  assert (H2 : 0 <= env_now e) by (simpl; lia).
  assert (H3 : env_now e + TTL < u64_modulus) by (simpl; unfold TTL, u64_modulus; lia).
  assert (H4 : fst (run (Login e r) d) = mkResponse StatusOK (PToken tok)) by reflexivity.
  assert (H5 : env_secret e' = env_secret e) by reflexivity.
  assert (H6 : env_now e' < env_now e + TTL) by (simpl; unfold TTL; lia).
  assert (H7 : req_auth r' = Some (bearer tok)) by reflexivity.
  split; [exact Hwf|]. split; [exact H1|]. split; [exact H2|]. split; [exact H3|].
  split; [exact H4|]. split; [exact H5|]. split; [exact H6|]. split; [exact H7|].
  exact (Login_token_authenticates e e' r r' d tok Hwf H1 H2 H3 H4 H5 H6 H7).
Defined.

(** Witness: Ana registers with password "pw" on the empty database, then
    logs in with it and gets the token for id 1. *)
Lemma register_then_login_witness :
  let e := mkEnv "k" 100 0 true true in
  let d := mkDb ∅ ∅ ∅ 1 1 in
  let u := User.mk 0 "Ana" "ana" "ana@mail.com" "pw" 0 in
  let u' := User.mk 0 "Ana" "ana" "ana@mail.com" "$2a$10$pw" 0 in
  let cred := User.mk 0 "" "" "ana@mail.com" "pw" 0 in
  let r1 := mkRequest "POST" "/users" ∅ ∅ None (BodyUser u) in
  let r2 := mkRequest "POST" "/login" ∅ ∅ None (BodyUser cred) in
  User.Prepare (env_salt e) User.stage_register u = Ok u' /\
  fst (run (UsersCtl.CreateUser e r1) d) = JSON StatusCreated (PUser (User.set_id u' (next_user d))) /\
  run (Login e r2) (snd (run (UsersCtl.CreateUser e r1) d)) =
    (mkResponse StatusOK (PToken (sign (env_secret e)
       (mkClaims (next_user d) (env_now e) (env_now e + TTL)))),
     snd (run (UsersCtl.CreateUser e r1) d)).
Proof.
  intros e d u u' cred r1 r2.
  assert (Hp : User.Prepare (env_salt e) User.stage_register u = Ok u') by reflexivity.
  assert (Hf : forall k v, users d !! k = Some v -> User.Email v <> User.Email u').
  { intros k v. simpl. by rewrite lookup_empty. }
  split; [exact Hp|].
  exact (register_then_login e r1 r2 d u u' cred wf_empty eq_refl eq_refl eq_refl Hp Hf
           eq_refl eq_refl eq_refl).
Defined.

(** Witness: "ana@mail.com" with the password "other": 401 "hash too
    short" on the empty database, 401 "mismatch" when Ana's account holds
    the hash of "pw". *)
Lemma Login_reveals_account_witness :
  let e := mkEnv "k" 100 0 true true in
  let cred := User.mk 0 "" "" "ana@mail.com" "other" 0 in
  let r := mkRequest "POST" "/login" ∅ ∅ None (BodyUser cred) in
  let d1 := mkDb ∅ ∅ ∅ 1 1 in
  let u := User.mk 1 "Ana" "ana" "ana@mail.com" "$2a$10$pw" 0 in
  let d2 := mkDb {[1 := u]} ∅ ∅ 2 1 in
  HashPassword 0 "pw" = Ok (User.Password u) /\
  run (Login e r) d1 = (Error StatusUnauthorized ErrHashTooShort, d1) /\
  run (Login e r) d2 = (Error StatusUnauthorized ErrMismatchedHashAndPassword, d2).
Proof.
  intros e cred r d1 u d2.
  assert (Hh : HashPassword 0 "pw" = Ok (User.Password u)) by reflexivity.
  assert (Hno : forall j v, users d1 !! j = Some v -> User.Email v <> User.Email cred).
  { intros j v Hv. simpl in Hv. by rewrite lookup_empty in Hv. }
  assert (Huniq : forall j v, users d2 !! j = Some v -> User.Email v = User.Email cred -> j = 1).
  { intros j v Hv _. simpl in Hv. by apply lookup_singleton_Some in Hv as [<- _]. }
  split; [exact Hh|].
  exact (Login_reveals_account e r (BodyUser cred) cred d1 d2 1 u 0 "pw"
           eq_refl eq_refl eq_refl eq_refl ltac:(cbn; lia) Hno eq_refl eq_refl Huniq Hh
           ltac:(discriminate)).
Defined.

(** Witness: Ana changes "old" to "new"; logging in with "new" gives her
    token, logging in with "old" is refused. *)
Lemma password_change_then_login_witness :
  let e := mkEnv "k" 100 0 true true in
  let r := mkRequest "POST" "/users/1/update-password" {["userId" := "1"]} ∅
             (Some (bearer (sign "k" (mkClaims 1 50 (50 + TTL)))))
             (BodyPassword (mkPassword "old" "new")) in
  let row := User.mk 1 "Ana" "ana" "ana@mail.com" "$2a$10$old" 0 in
  let d := mkDb {[1 := row]} ∅ ∅ (1 + 1) 1 in
  let c1 := User.mk 0 "" "" "ana@mail.com" "new" 0 in
  let c2 := User.mk 0 "" "" "ana@mail.com" "old" 0 in
  let r1 := mkRequest "POST" "/login" ∅ ∅ None (BodyUser c1) in
  let r2 := mkRequest "POST" "/login" ∅ ∅ None (BodyUser c2) in
  fst (run (UsersCtl.UpdatePassword e r) d) = JSON StatusNoContent PNone /\
  fst (run (Login e r1) (snd (run (UsersCtl.UpdatePassword e r) d))) =
    mkResponse StatusOK (PToken (sign "k" (mkClaims 1 100 (100 + TTL)))) /\
  fst (run (Login e r2) (snd (run (UsersCtl.UpdatePassword e r) d))) =
    Error StatusUnauthorized ErrMismatchedHashAndPassword.
Proof.
  intros e r row d c1 c2 r1 r2.
  assert (Hwf : wf d) by (apply wf_one_user; simpl; lia).
  assert (Huniq : forall j v, users d !! j = Some v -> User.Email v = User.Email row -> j = 1).
  { intros j v Hv _. simpl in Hv. by apply lookup_singleton_Some in Hv as [<- _]. }
  exact (password_change_then_login e r r1 r2 d 1 row (mkPassword "old" "new") 0 c1 c2 Hwf
           eq_refl eq_refl eq_refl eq_refl eq_refl eq_refl eq_refl ltac:(cbn; lia)
           ltac:(discriminate) Huniq eq_refl eq_refl eq_refl eq_refl eq_refl eq_refl).
Defined.

End LoginCtl.
