(* ===== verification/Router.v ===== *)
(** * Routing and middlewares: [src/src/router]

    The route table of [routers/users.go], [routers/login.go] and
    [routers/publications.go], [Configure] (which wraps each handler in
    [Logger(Authenticate(f))] or [Logger(f)] according to
    [RequiresAuthentication]), and the request dispatch of gorilla/mux:
    the first route whose path template and method both match serves the
    request, with the template's variables bound; a route whose template
    does not start with '/' was rejected by [HandleFunc] ("mux: path must
    start with a slash") and never matches; a path matched only with
    another method answers 405, no match 404.  The middlewares (package
    [middlewares], not under [src/]) are modelled from the specification:
    [Logger] records the request and calls the next handler; [Authenticate]
    validates the token and either answers 401 or calls the next handler.
    A served request yields the response, the new database and the events
    it produced: the log line and the invocation of the handler. *)

From S2P Require Import Prelude GoLib Security Models Http Auth Store Handler UsersCtl PublicationsCtl LoginCtl.
Import ListNotations GoStrings GoStrconv Security Http Auth Store Handler.

Module Router.

(** The handler functions of the controllers, by name. *)
Inductive handler_name :=
| HCreateUser | HSearchUsers | HSearchUser | HUpdateUser | HDeleteUser
| HFollowUser | HUnfollowollowUser | HSearchFollowers | HSearchFollowing | HUpdatePassword
| HLogin
| HCreatePublication | HSearchPublications | HSearchPublication | HUpdatePublication
| HDeletePublication | HSearchPublicationsUser | HLikePublication | HDislikePublication.

#[export] Instance handler_name_eq_dec : EqDecision handler_name.
Proof. solve_decision. Defined.

(** [router.Route]. *)
Record Route := mkRoute {
  URI : string;
  Methods : string;
  Function : handler_name;
  RequiresAuthentication : bool
}.

Definition MethodGet : string := "GET".
Definition MethodPost : string := "POST".
Definition MethodPut : string := "PUT".
Definition MethodDelete : string := "DELETE".

(** [routerUser] ([routers/users.go]). *)
Definition routerUser : list Route := [
  mkRoute "/users" MethodPost HCreateUser false;
  mkRoute "/users" MethodGet HSearchUsers true;
  mkRoute "/users/{userId}" MethodGet HSearchUser true;
  mkRoute "/users/{userId}" MethodPut HUpdateUser true;
  mkRoute "/users/{userId}" MethodDelete HDeleteUser true;
  mkRoute "/users/{userId}/seguir" MethodPost HFollowUser true;
  mkRoute "/users/{userId}/parar-de-seguir" MethodPost HUnfollowollowUser true;
  mkRoute "/users/{userId}/followers" MethodPost HSearchFollowers true;
  mkRoute "/users/{userId}/following" MethodPost HSearchFollowing true;
  mkRoute "/users/{userId}/update-password" MethodPost HUpdatePassword true
].

(** [routerLogin] ([routers/login.go]). *)
Definition routerLogin : Route := mkRoute "/login" MethodPost HLogin false.

(** [routerPublication] ([routers/publications.go]). *)
Definition routerPublication : list Route := [
  mkRoute "/publications" MethodPost HCreatePublication true;
  mkRoute "/publications" MethodGet HSearchPublications true;
  mkRoute "/publications/{publicationId}" MethodPost HSearchPublication true;
  mkRoute "/publications/{publicationId}" MethodPut HUpdatePublication true;
  mkRoute "/publications/{publicationId}" MethodDelete HDeletePublication true;
  mkRoute "users/{usersId}/publications" MethodGet HSearchPublicationsUser true;
  mkRoute "publications/{publicationId}/like" MethodPost HLikePublication true;
  mkRoute "publications/{publicationId}/dislike" MethodPost HDislikePublication true
].

(** What a served request produces besides the response. *)
Inductive event :=
| EvLog (method path : string)   (* the line written by Logger *)
| EvHandler (h : handler_name).  (* the controller function ran *)

#[export] Instance event_eq_dec : EqDecision event.
Proof. solve_decision. Defined.

Definition outcome : Type := response * db * list event.
Definition action : Type := env -> request -> db -> outcome.

Section WithServices.
Context `{Hasher} `{Signer}.

(** The controller function a route names. *)
Definition controller (h : handler_name) : env -> request -> M response :=
  match h with
  | HCreateUser => UsersCtl.CreateUser
  | HSearchUsers => UsersCtl.SearchUsers
  | HSearchUser => UsersCtl.SearchUser
  | HUpdateUser => UsersCtl.UpdateUser
  | HDeleteUser => UsersCtl.DeleteUser
  | HFollowUser => UsersCtl.FollowUser
  | HUnfollowollowUser => UsersCtl.UnfollowollowUser
  | HSearchFollowers => UsersCtl.SearchFollowers
  | HSearchFollowing => UsersCtl.SearchFollowing
  | HUpdatePassword => UsersCtl.UpdatePassword
  | HLogin => LoginCtl.Login
  | HCreatePublication => PublicationsCtl.CreatePublication
  | HSearchPublications => PublicationsCtl.SearchPublications
  | HSearchPublication => PublicationsCtl.SearchPublication
  | HUpdatePublication => PublicationsCtl.UpdatePublication
  | HDeletePublication => PublicationsCtl.DeletePublication
  | HSearchPublicationsUser => PublicationsCtl.SearchPublicationsUser
  | HLikePublication => PublicationsCtl.LikePublication
  | HDislikePublication => PublicationsCtl.DislikePublication
  end.

(** Calling the controller function as an [http.HandlerFunc]. *)
Definition dispatch (h : handler_name) : action :=
  fun e r d => let '(resp, d') := run (controller h e r) d in (resp, d', [EvHandler h]).

(** [middlewares.Logger(next)]. *)
Definition Logger (next : action) : action :=
  fun e r d => let '(resp, d', evs) := next e r d in
               (resp, d', EvLog (req_method r) (req_path r) :: evs).

(** [middlewares.Authenticate(next)]. *)
Definition Authenticate (next : action) : action :=
  fun e r d =>
    match ValidateToken (env_secret e) (env_now e) (extractToken (req_auth r)) with
    | Err err => (Error StatusUnauthorized err, d, [])
    | Ok _ => next e r d
    end.

(** The handler [Configure] registers for a route. *)
Definition wrap (route : Route) : action :=
  if RequiresAuthentication route then Logger (Authenticate (dispatch (Function route)))
  else Logger (dispatch (Function route)).

(** [Configure]: [routerUser], then [routerLogin], then [routerPublication]. *)
Definition routes : list Route := routerUser ++ [routerLogin] ++ routerPublication.

Definition Configure : list (Route * action) := map (fun rt => (rt, wrap rt)) routes.

End WithServices.

(** ** Path matching *)

(** A template segment "{name}" is a variable. *)
Definition var_name (seg : string) : option string :=
  match list_ascii_of_string seg with
  | "{" :: rest =>
      match rev rest with
      | "}" :: name_rev => Some (string_of_list_ascii (rev name_rev))
      | _ => None
      end
  | _ => None
  end%char.

(** [HandleFunc] accepted the template: it starts with '/'. *)
Definition template_ok (tpl : string) : bool :=
  match tpl with String "/" _ => true | _ => false end%char.

(** Match the '/'-segments of a path against those of a template, binding
    the variables (a variable matches a non-empty segment: [^/]+). *)
Fixpoint match_segments (tpl path : list string) (vars : gmap string string)
  : option (gmap string string) :=
  match tpl, path with
  | [], [] => Some vars
  | t :: ts, p :: ps =>
      match var_name t with
      | Some name => if String.eqb p EmptyString then None
                     else match_segments ts ps (<[name := p]> vars)
      | None => if String.eqb t p then match_segments ts ps vars else None
      end
  | _, _ => None
  end.

Definition match_path (tpl path : string) : option (gmap string string) :=
  if template_ok tpl then match_segments (Split "/" tpl) (Split "/" path) ∅ else None.

Definition route_matches (rt : Route) (r : request) : bool :=
  bool_decide (is_Some (match_path (URI rt) (req_path r))) && String.eqb (Methods rt) (req_method r).

Definition mux_not_found : response := mkResponse StatusNotFound PNone.
Definition mux_method_not_allowed : response := mkResponse StatusMethodNotAllowed PNone.

(** Serve one request with a configured table. *)
Fixpoint serve_with (table : list (Route * action)) (all : list (Route * action))
  (e : env) (r : request) (d : db) : outcome :=
  match table with
  | [] =>
      if existsb (fun ra => bool_decide (is_Some (match_path (URI ra.1) (req_path r)))) all
      then (mux_method_not_allowed, d, []) else (mux_not_found, d, [])
  | (rt, act) :: rest =>
      match match_path (URI rt) (req_path r) with
      | Some vars =>
          if String.eqb (Methods rt) (req_method r) then act e (with_vars r vars) d
          else serve_with rest all e r d
      | None => serve_with rest all e r d
      end
  end.

(** Unfold every controller function, for proofs by cases over all handlers. *)
Ltac unfold_controllers := unfold UsersCtl.CreateUser, UsersCtl.SearchUsers,
    UsersCtl.SearchUser, UsersCtl.UpdateUser, UsersCtl.DeleteUser, UsersCtl.FollowUser,
    UsersCtl.UnfollowollowUser, UsersCtl.SearchFollowers, UsersCtl.SearchFollowing,
    UsersCtl.UpdatePassword, LoginCtl.Login, PublicationsCtl.CreatePublication,
    PublicationsCtl.SearchPublications, PublicationsCtl.SearchPublication,
    PublicationsCtl.UpdatePublication, PublicationsCtl.DeletePublication,
    PublicationsCtl.SearchPublicationsUser, PublicationsCtl.LikePublication,
    PublicationsCtl.DislikePublication.

Section Serve.
Context `{Hasher} `{Signer}.

(** The server built by [router.Generate()]. *)
Definition serve (e : env) (r : request) (d : db) : outcome :=
  serve_with Configure Configure e r d.

(** ** Lemmas *)

(** Serving with a table built from routes either answers from mux
    without running anything, or runs the wrapped handler of one of the
    routes, on the request with the route's variables bound. *)
Lemma serve_with_cases (l : list Route) all e r d :
  serve_with (map (fun rt => (rt, wrap rt)) l) all e r d = (mux_not_found, d, []) \/
  serve_with (map (fun rt => (rt, wrap rt)) l) all e r d = (mux_method_not_allowed, d, []) \/
  exists rt vars, rt ∈ l /\ match_path (URI rt) (req_path r) = Some vars /\
    Methods rt = req_method r /\
    serve_with (map (fun rt => (rt, wrap rt)) l) all e r d = wrap rt e (with_vars r vars) d.
Proof.
  induction l as [|rt l IH]; simpl.
  - destruct (existsb _ _); auto.
  - destruct (match_path (URI rt) (req_path r)) as [vars|] eqn:Hm.
    + destruct (String.eqb_spec (Methods rt) (req_method r)).
      * right; right. exists rt, vars. split_and!; [by left|done..].
      * destruct IH as [|[|(rt' & vars' & ? & ? & ? & ?)]]; auto.
        right; right. exists rt', vars'. split_and!; [by right|done..].
    + destruct IH as [|[|(rt' & vars' & ? & ? & ? & ?)]]; auto.
      right; right. exists rt', vars'. split_and!; [by right|done..].
Qed.

Lemma serve_cases e r d :
  serve e r d = (mux_not_found, d, []) \/ serve e r d = (mux_method_not_allowed, d, []) \/
  exists rt vars, rt ∈ routes /\ match_path (URI rt) (req_path r) = Some vars /\
    Methods rt = req_method r /\ serve e r d = wrap rt e (with_vars r vars) d.
Proof. apply serve_with_cases. Qed.

(** The table is searched in order: a route whose template or method does
    not match is passed over, the first one that matches serves. *)
Lemma serve_with_skip rt act rest all e r d :
  match_path (URI rt) (req_path r) = None \/ String.eqb (Methods rt) (req_method r) = false ->
  serve_with ((rt, act) :: rest) all e r d = serve_with rest all e r d.
Proof.
  intros [Hm|Hm]; simpl; [by rewrite Hm|]. by destruct (match_path _ _); [rewrite Hm|].
Qed.

Lemma serve_with_hit rt act rest all e r d vars :
  match_path (URI rt) (req_path r) = Some vars -> String.eqb (Methods rt) (req_method r) = true ->
  serve_with ((rt, act) :: rest) all e r d = act e (with_vars r vars) d.
Proof. intros Hm Hmeth. simpl. by rewrite Hm, Hmeth. Qed.

(** The segments of the path "/users/{id}/<action>". *)
Lemma Split_users_path s action :
  s <> EmptyString -> GoStrings.has_byte "/" s = false -> GoStrings.has_byte "/" action = false ->
  Split "/" ("/users/" ++ s ++ "/" ++ action) = [""; "users"; s; action].
Proof.
  intros Hne Hs Ha.
  change ("/users/" ++ s ++ "/" ++ action)%string with (Join "/" [""; "users"; s; action]).
  apply Split_Join; [discriminate|]. repeat constructor; done.
Qed.

(** The segments of the path "/users/{id}". *)
Lemma Split_user_path s :
  s <> EmptyString -> GoStrings.has_byte "/" s = false ->
  Split "/" ("/users/" ++ s) = [""; "users"; s].
Proof.
  intros Hne Hs. change ("/users/" ++ s)%string with (Join "/" [""; "users"; s]).
  apply Split_Join; [discriminate|]. repeat constructor; done.
Qed.

Lemma dispatch_events h e r d : (dispatch h e r d).2 = [EvHandler h].
Proof. unfold dispatch. by destruct (run _ _). Qed.

(** The events of a wrapped handler: the log line first, then the
    handler when it ran; a protected handler runs only on a valid token. *)
Lemma wrap_events rt e r d :
  (wrap rt e r d).2 = [EvLog (req_method r) (req_path r)] /\
    RequiresAuthentication rt = true /\
    (exists err, ValidateToken (env_secret e) (env_now e) (extractToken (req_auth r)) = Err err) \/
  (wrap rt e r d).2 = [EvLog (req_method r) (req_path r); EvHandler (Function rt)] /\
    (RequiresAuthentication rt = true ->
     exists c, ValidateToken (env_secret e) (env_now e) (extractToken (req_auth r)) = Ok c).
Proof.
  unfold wrap, Logger, Authenticate. destruct (RequiresAuthentication rt).
  - destruct (ValidateToken _ _ _) as [c|err]; eauto.
    right. unfold dispatch. destruct (run _ _). split; eauto.
  - right. unfold dispatch. destruct (run _ _). split; [done|discriminate].
Qed.

(** A wrapped handler leaves the database as it was, or as the
    controller function left it. *)
Lemma wrap_db rt e r d :
  (wrap rt e r d).1.2 = d \/ (wrap rt e r d).1.2 = (run (controller (Function rt) e r) d).2.
Proof.
  unfold wrap, Logger, Authenticate, dispatch.
  destruct (RequiresAuthentication rt); [destruct (ValidateToken _ _ _)|];
    destruct (run _ _); auto.
Qed.

Lemma serve_db e r d :
  (serve e r d).1.2 = d \/
  exists rt vars, rt ∈ routes /\ (serve e r d).1.2 = (run (controller (Function rt) e (with_vars r vars)) d).2.
Proof.
  destruct (serve_cases e r d) as [E|[E|(rt & vars & Hrt & _ & _ & E)]]; rewrite ?E; auto.
  destruct (wrap_db rt e (with_vars r vars) d); eauto.
Qed.

(** Case analysis on the 19 routes of the table. *)
Ltac routes_cases Hin :=
  apply list_elem_of_In in Hin; simpl in Hin;
  repeat (destruct Hin as [<-|Hin]; [|]); try contradiction.

(** The public routes of the table are POST /users and POST /login. *)
Lemma routes_public rt :
  rt ∈ routes -> RequiresAuthentication rt = false -> Function rt = HCreateUser \/ Function rt = HLogin.
Proof. intros Hin. routes_cases Hin; simpl; by auto. Qed.

(** The routes [HandleFunc] accepted name no handler of the three
    registered with a template without its leading slash. *)
Lemma routes_registered rt :
  rt ∈ routes -> template_ok (URI rt) = true ->
  Function rt ∉ [HSearchPublicationsUser; HLikePublication; HDislikePublication].
Proof. intros Hin. routes_cases Hin; simpl; try discriminate; intros _; set_solver. Qed.

Lemma match_path_template_ok tpl path vars :
  match_path tpl path = Some vars -> template_ok tpl = true.
Proof. unfold match_path. by destruct (template_ok tpl). Qed.

(** ** Main properties of the router *)

(** C6: Logging and authentication come first: whenever a served
    request runs a controller function, the events are exactly the log
    line of [Logger] followed by that handler, and unless the handler is
    one of the two public ones ([CreateUser], [Login]) the request carried
    a token that [ValidateToken] accepts. *)
Theorem serve_authenticates e r d h :
  EvHandler h ∈ (serve e r d).2 ->
  (serve e r d).2 = [EvLog (req_method r) (req_path r); EvHandler h] /\
  (h = HCreateUser \/ h = HLogin \/
   exists c, ValidateToken (env_secret e) (env_now e) (extractToken (req_auth r)) = Ok c).
Proof.
  intros Hin.
  destruct (serve_cases e r d) as [E|[E|(rt & vars & Hrt & Hm & Hmeth & E)]];
    rewrite E in Hin |- *; simpl in Hin; [set_solver|set_solver|].
  destruct (wrap_events rt e (with_vars r vars) d) as [(Hev & _)|(Hev & Hauth)];
    rewrite Hev in Hin |- *; [set_solver|].
  assert (h = Function rt) as -> by set_solver.
  split; [done|].
  destruct (RequiresAuthentication rt) eqn:Hreq.
  - right; right. by apply Hauth.
  - destruct (routes_public rt Hrt Hreq); auto.
Qed.

(** A request whose token [ValidateToken] rejects never reaches a
    protected handler: mux answers without running anything, or the route
    is protected and the answer is 401 with the token error, the database
    unchanged and only the log line written, or the route is one of the
    two public ones and its handler runs (logged). *)
Lemma serve_token_error e r d err :
  ValidateToken (env_secret e) (env_now e) (extractToken (req_auth r)) = Err err ->
  ((serve e r d).2 = [] /\ (serve e r d).1.2 = d) \/
  (serve e r d = (Error StatusUnauthorized err, d, [EvLog (req_method r) (req_path r)])) \/
  (exists h, (h = HCreateUser \/ h = HLogin) /\
     (serve e r d).2 = [EvLog (req_method r) (req_path r); EvHandler h]).
Proof.
  intros Hv.
  destruct (serve_cases e r d) as [E|[E|(rt & vars & Hrt & Hm & Hmeth & E)]];
    rewrite E; [by left|by left|].
  unfold wrap. destruct (RequiresAuthentication rt) eqn:Hreq.
  - right; left. unfold Logger, Authenticate. simpl. by rewrite Hv.
  - right; right. exists (Function rt). split; [by apply routes_public|].
    unfold Logger. rewrite <- (dispatch_events (Function rt) e (with_vars r vars) d).
    by destruct (dispatch _ _ _ _) as [[? ?] ?].
Qed.

(** C7: A request without an [Authorization] header never reaches a
    protected handler: mux answers without running anything, or the
    answer is 401 ([ErrInvalidToken]) with the database unchanged and
    only the log line written, or the route is one of the two public
    ones ([CreateUser], [Login]) and its handler runs. *)
Theorem serve_unauthenticated e r d :
  req_auth r = None ->
  ((serve e r d).2 = [] /\ (serve e r d).1.2 = d) \/
  (serve e r d = (Error StatusUnauthorized ErrInvalidToken, d, [EvLog (req_method r) (req_path r)])) \/
  (exists h, (h = HCreateUser \/ h = HLogin) /\
     (serve e r d).2 = [EvLog (req_method r) (req_path r); EvHandler h]).
Proof. intros Hr. apply serve_token_error. by rewrite Hr. Qed.

(** C9: Expiry: a request carrying a correctly signed token whose expiry
    is not after the current time is treated as unauthenticated, with the
    distinguishable [ErrExpiredToken]: on a protected route the answer is
    401 with that error, the database unchanged. *)
Theorem serve_expired_token e r d c :
  claims_u64 c -> exp c <= env_now e ->
  req_auth r = Some (bearer (sign (env_secret e) c)) ->
  ((serve e r d).2 = [] /\ (serve e r d).1.2 = d) \/
  (serve e r d = (Error StatusUnauthorized ErrExpiredToken, d, [EvLog (req_method r) (req_path r)])) \/
  (exists h, (h = HCreateUser \/ h = HLogin) /\
     (serve e r d).2 = [EvLog (req_method r) (req_path r); EvHandler h]).
Proof.
  intros Hc Hle Hr. apply serve_token_error. rewrite Hr. unfold sign.
  rewrite extractToken_encode by auto using HMAC_u64. fold (sign (env_secret e) c).
  by apply ValidateToken_expired.
Qed.

(** C10: Tampering: a request carrying a token whose signature differs
    from the genuine one in any one of its 64 bits is treated as
    unauthenticated ([ErrInvalidToken]), whether or not the claims have
    expired: the signature is checked before the expiry. *)
Theorem serve_tampered_token e r d c i :
  claims_u64 c -> 0 <= i < 64 ->
  req_auth r = Some (bearer (encode c (Z.lxor (HMAC (env_secret e) (signing_input c)) (2 ^ i)))) ->
  ((serve e r d).2 = [] /\ (serve e r d).1.2 = d) \/
  (serve e r d = (Error StatusUnauthorized ErrInvalidToken, d, [EvLog (req_method r) (req_path r)])) \/
  (exists h, (h = HCreateUser \/ h = HLogin) /\
     (serve e r d).2 = [EvLog (req_method r) (req_path r); EvHandler h]).
Proof.
  intros Hc Hi Hr. apply serve_token_error. rewrite Hr.
  rewrite extractToken_encode by auto using lxor_u64, HMAC_u64, pow2_u64.
  by apply ValidateToken_tampered.
Qed.

(** C16: Three routes are dead: [routers/publications.go] registers
    "users/{usersId}/publications", "publications/{publicationId}/like"
    and "publications/{publicationId}/dislike" without the leading '/',
    which gorilla/mux rejects, so no request ever runs
    [SearchPublicationsUser], [LikePublication] or [DislikePublication]. *)
Theorem serve_never_runs e r d h :
  h ∈ [HSearchPublicationsUser; HLikePublication; HDislikePublication] ->
  EvHandler h ∉ (serve e r d).2.
Proof.
  intros Hh Hin.
  destruct (serve_cases e r d) as [E|[E|(rt & vars & Hrt & Hm & Hmeth & E)]];
    rewrite E in Hin; simpl in Hin; [set_solver|set_solver|].
  destruct (wrap_events rt e (with_vars r vars) d) as [(Hev & _)|(Hev & _)];
    rewrite Hev in Hin; [set_solver|].
  assert (h = Function rt) as -> by set_solver.
  by apply (routes_registered rt Hrt (match_path_template_ok _ _ _ Hm)).
Qed.

(** C31: A public route runs its handler, logged, whatever the request
    carries as a token (none, malformed, expired or valid): a POST to
    "/users" runs [CreateUser] and a POST to "/login" runs [Login]. *)
Theorem serve_public_runs e r d h path :
  (h = HCreateUser /\ path = "/users") \/ (h = HLogin /\ path = "/login") ->
  req_method r = "POST" -> req_path r = path ->
  (serve e r d).2 = [EvLog "POST" path; EvHandler h].
Proof.
  intros Hh Hm Hp. destruct r as [m p vars q auth b]; simpl in Hm, Hp; subst m p.
  destruct Hh as [[-> ->]|[-> ->]]; unfold serve; cbn -[wrap];
  match goal with
  | |- (wrap ?rt ?e ?r ?d).2 = _ =>
      destruct (wrap_events rt e r d) as [(_ & Hr & _)|(Hev & _)]; [discriminate|by rewrite Hev]
  end.
Qed.

(** Pass over a route of the table that the path does not match. *)
Ltac skip_route Hs := rewrite serve_with_skip by (left; unfold match_path; simpl;
  rewrite Hs; simpl; repeat case_match; reflexivity).

(** C32: Unfollowing is always possible: from any database, a caller
    with a valid token can remove its follow edge to any other user [a],
    by a POST to "/users/<a>/parar-de-seguir" (with [a] written in
    decimal): the server answers 204 and the edge is gone, whatever else
    the tables hold. *)
Theorem serve_unfollow_live e r d s a b c :
  ParseUint s = Ok a -> a <> b -> req_method r = "POST" ->
  req_path r = ("/users/" ++ s ++ "/" ++ "parar-de-seguir")%string ->
  ValidateToken (env_secret e) (env_now e) (extractToken (req_auth r)) = Ok c -> sub c = b ->
  env_connect e = true -> env_exec e = true ->
  (serve e r d).1.1 = JSON StatusNoContent PNone /\
  followers (serve e r d).1.2 = followers d ∖ {[(a, b)]}.
Proof.
  intros Hp Hab Hm Hpath Hv Hc Hcon Hx.
  destruct (ParseUint_digits _ _ Hp) as [Hne Hd].
  assert (Hs : Split "/" (req_path r) = [""; "users"; s; "parar-de-seguir"]).
  { rewrite Hpath. apply Split_users_path; [done|by apply all_digits_no_byte|done]. }
  unfold serve, Configure, routes, routerUser. cbn [map app].
  do 6 skip_route Hs.
  rewrite (serve_with_hit _ _ _ _ _ _ _ (<["userId" := s]> ∅)); cycle 1.
  { unfold match_path. simpl. rewrite Hs. simpl. by rewrite (proj2 (String.eqb_neq _ _) Hne). }
  { by rewrite Hm. }
  unfold wrap, Logger, Authenticate. cbn [RequiresAuthentication req_auth with_vars]. rewrite Hv.
  unfold dispatch, controller, UsersCtl.UnfollowollowUser, UsersCtl.param, var.
  cbn [Function req_vars req_auth with_vars].
  rewrite lookup_insert_eq. cbn [default id]. rewrite Hp.
  unfold ExtractUserID. cbn [req_auth with_vars]. rewrite Hv. handler_simp.
  destruct (Z.eqb_spec a (sub c)) as [E|_]; [congruence|]. rewrite Hcon. simpl.
  unfold Users.Unfollowollow, guard. rewrite Hx. simpl. by rewrite Hc.
Qed.

(** Reach [SearchUser] through "GET /users/{userId}" with a valid
    token: the answer is the handler's, on the request with [userId]
    bound to the path segment. *)
Lemma serve_get_user e r d s c :
  s <> EmptyString -> GoStrings.has_byte "/" s = false ->
  req_method r = "GET" -> req_path r = ("/users/" ++ s)%string ->
  ValidateToken (env_secret e) (env_now e) (extractToken (req_auth r)) = Ok c ->
  (serve e r d).1 = run (UsersCtl.SearchUser e (with_vars r (<["userId" := s]> ∅))) d.
Proof.
  intros Hne Hsl Hm Hpath Hv.
  assert (Hs : Split "/" (req_path r) = [""; "users"; s]) by (rewrite Hpath; by apply Split_user_path).
  unfold serve, Configure, routes, routerUser. cbn [map app].
  do 2 skip_route Hs.
  rewrite (serve_with_hit _ _ _ _ _ _ _ (<["userId" := s]> ∅)); cycle 1.
  { unfold match_path. simpl. rewrite Hs. simpl. by rewrite (proj2 (String.eqb_neq _ _) Hne). }
  { by rewrite Hm. }
  unfold wrap, Logger, Authenticate. cbn [RequiresAuthentication req_auth with_vars]. rewrite Hv.
  unfold dispatch, controller. cbn [Function]. by destruct (run _ _).
Qed.

(** C23: Round trip of the path id: for every [uint64] [k], a GET of
    "/users/<k in decimal>" with a valid token reaches [SearchUser] with
    the variable [userId] bound, which [strconv.ParseUint] reads back as
    [k]; the server answers 200 with the row [Users.SearchID] returns for
    [k] and leaves the database unchanged. *)
Theorem serve_user_path_roundtrip e r d k c u :
  is_u64 k -> req_method r = "GET" -> req_path r = ("/users/" ++ FormatUint k)%string ->
  ValidateToken (env_secret e) (env_now e) (extractToken (req_auth r)) = Ok c ->
  env_connect e = true -> Users.SearchID e k d = Ok u ->
  (serve e r d).1 = (JSON StatusOK (PUser u), d).
Proof.
  intros Hk Hm Hpath Hv Hcon Hu.
  pose proof (ParseUint_FormatUint k Hk) as Hp.
  destruct (ParseUint_digits _ _ Hp) as [Hne Hd].
  rewrite (serve_get_user e r d _ c Hne ltac:(by apply all_digits_no_byte) Hm Hpath Hv).
  unfold UsersCtl.SearchUser, UsersCtl.param, var. cbn [req_vars with_vars].
  rewrite lookup_insert_eq. cbn [default id]. rewrite Hp. handler_simp.
  rewrite Hcon. simpl. by rewrite Hu.
Qed.

(** C24: Bounds of the path id: a GET of "/users/<s>" with a valid
    token, where [s] is a decimal number of [2^64] or more, is answered
    400 with the range error of [strconv.ParseUint] and changes nothing:
    the id is not taken modulo [2^64], so it never reaches another
    user's row. *)
Theorem serve_user_path_overflow e r d s c :
  s <> EmptyString -> all_digits s = true -> u64_modulus <= dec_value s 0 ->
  req_method r = "GET" -> req_path r = ("/users/" ++ s)%string ->
  ValidateToken (env_secret e) (env_now e) (extractToken (req_auth r)) = Ok c ->
  (serve e r d).1 = (Error StatusBadRequest ErrRange, d).
Proof.
  intros Hne Hd Hge Hm Hpath Hv.
  rewrite (serve_get_user e r d _ c Hne ltac:(by apply all_digits_no_byte) Hm Hpath Hv).
  unfold UsersCtl.SearchUser, UsersCtl.param, var. cbn [req_vars with_vars].
  rewrite lookup_insert_eq. cbn [default id]. rewrite (ParseUint_overflow s Hne Hd Hge).
  by handler_simp.
Qed.

End Serve.

#[local] Existing Instance model_bcrypt.
#[local] Existing Instance model_signer.

(** Witness: a login request without any token runs [Login]. *)
Lemma serve_public_runs_witness :
  let e := mkEnv "k" 100 0 true true in
  let r := mkRequest "POST" "/login" ∅ ∅ None BodyUnreadable in
  let d := mkDb ∅ ∅ ∅ 1 1 in
  ((HLogin = HCreateUser /\ "/login" = "/users") \/ (HLogin = HLogin /\ "/login" = "/login")) /\
  req_method r = "POST" /\ req_path r = "/login" /\
  (serve e r d).2 = [EvLog "POST" "/login"; EvHandler HLogin].
Proof.
  intros e r d.
  assert (Hh : (HLogin = HCreateUser /\ "/login" = "/users") \/ (HLogin = HLogin /\ "/login" = "/login"))
    by (right; split; reflexivity).
  split; [exact Hh|]. split; [reflexivity|]. split; [reflexivity|].
  exact (serve_public_runs e r d HLogin "/login" Hh eq_refl eq_refl).
Defined.

(** Witness: user 1 unfollows user 2, given as "002". *)
Lemma serve_unfollow_live_witness :
  let e := mkEnv "k" 100 0 true true in
  let c := mkClaims 1 50 (50 + TTL) in
  let r := mkRequest "POST" "/users/002/parar-de-seguir" ∅ ∅
             (Some (bearer (sign "k" c))) BodyUnreadable in
  let d := mkDb ∅ {[(2, 1)]} ∅ 3 1 in
  ParseUint "002" = Ok 2 /\ 2 <> 1 /\
  ValidateToken (env_secret e) (env_now e) (extractToken (req_auth r)) = Ok c /\
  (serve e r d).1.1 = JSON StatusNoContent PNone /\
  followers (serve e r d).1.2 = followers d ∖ {[(2, 1)]}.
Proof.
  intros e c r d.
  assert (Hp : ParseUint "002" = Ok 2) by reflexivity.
  assert (Hab : 2 <> 1) by lia.
  assert (Hv : ValidateToken (env_secret e) (env_now e) (extractToken (req_auth r)) = Ok c)
    by reflexivity.
  split; [exact Hp|]. split; [exact Hab|]. split; [exact Hv|].
  exact (serve_unfollow_live e r d "002" 2 1 c Hp Hab eq_refl eq_refl Hv eq_refl eq_refl eq_refl).
Defined.

(** Witness: user 1, with a valid token, reads user 7. *)
Lemma serve_authenticates_witness :
  let e := mkEnv "k" 100 0 true true in
  let r := mkRequest "GET" "/users/7" ∅ ∅
             (Some (bearer (sign "k" (mkClaims 1 50 (50 + TTL))))) BodyUnreadable in
  let d := mkDb ∅ ∅ ∅ 1 1 in
  EvHandler HSearchUser ∈ (serve e r d).2 /\
  (serve e r d).2 = [EvLog (req_method r) (req_path r); EvHandler HSearchUser] /\
  (HSearchUser = HCreateUser \/ HSearchUser = HLogin \/
   exists c, ValidateToken (env_secret e) (env_now e) (extractToken (req_auth r)) = Ok c).
Proof.
  intros e r d.
  assert (Hin : EvHandler HSearchUser ∈ (serve e r d).2).
  { assert (E : (serve e r d).2 = [EvLog "GET" "/users/7"; EvHandler HSearchUser])
      by reflexivity.
    rewrite E. set_solver. }
  split; [exact Hin|]. exact (serve_authenticates e r d HSearchUser Hin).
Defined.

(** Witness: a request for user 7 without an [Authorization] header. *)
Lemma serve_unauthenticated_witness :
  let e := mkEnv "k" 100 0 true true in
  let r := mkRequest "GET" "/users/7" ∅ ∅ None BodyUnreadable in
  let d := mkDb ∅ ∅ ∅ 1 1 in
  req_auth r = None /\
  (((serve e r d).2 = [] /\ (serve e r d).1.2 = d) \/
   (serve e r d = (Error StatusUnauthorized ErrInvalidToken, d, [EvLog (req_method r) (req_path r)])) \/
   (exists h, (h = HCreateUser \/ h = HLogin) /\
      (serve e r d).2 = [EvLog (req_method r) (req_path r); EvHandler h])).
Proof.
  intros e r d.
  assert (Hr : req_auth r = None) by reflexivity.
  split; [exact Hr|]. exact (serve_unauthenticated e r d Hr).
Defined.

(** Witness: at time 100, a token of user 1 that expired at time 10. *)
Lemma serve_expired_token_witness :
  let e := mkEnv "k" 100 0 true true in
  let c := mkClaims 1 0 10 in
  let r := mkRequest "GET" "/users/7" ∅ ∅ (Some (bearer (sign "k" c))) BodyUnreadable in
  let d := mkDb ∅ ∅ ∅ 1 1 in
  claims_u64 c /\ exp c <= env_now e /\ req_auth r = Some (bearer (sign (env_secret e) c)) /\
  (((serve e r d).2 = [] /\ (serve e r d).1.2 = d) \/
   (serve e r d = (Error StatusUnauthorized ErrExpiredToken, d, [EvLog (req_method r) (req_path r)])) \/
   (exists h, (h = HCreateUser \/ h = HLogin) /\
      (serve e r d).2 = [EvLog (req_method r) (req_path r); EvHandler h])).
Proof.
  intros e c r d.
  assert (Hc : claims_u64 c) by (unfold claims_u64, is_u64, u64_modulus; simpl; lia).
  assert (Hl : exp c <= env_now e) by (simpl; lia).
  assert (Hr : req_auth r = Some (bearer (sign (env_secret e) c))) by reflexivity.
  split; [exact Hc|]. split; [exact Hl|]. split; [exact Hr|].
  exact (serve_expired_token e r d c Hc Hl Hr).
Defined.

(** Witness: bit 5 of the signature of a live token of user 1 flipped. *)
Lemma serve_tampered_token_witness :
  let e := mkEnv "k" 100 0 true true in
  let c := mkClaims 1 50 (50 + TTL) in
  let r := mkRequest "GET" "/users/7" ∅ ∅
             (Some (bearer (encode c (Z.lxor (HMAC "k" (signing_input c)) (2 ^ 5)))))
             BodyUnreadable in
  let d := mkDb ∅ ∅ ∅ 1 1 in
  claims_u64 c /\ 0 <= 5 < 64 /\
  req_auth r = Some (bearer (encode c (Z.lxor (HMAC (env_secret e) (signing_input c)) (2 ^ 5)))) /\
  (((serve e r d).2 = [] /\ (serve e r d).1.2 = d) \/
   (serve e r d = (Error StatusUnauthorized ErrInvalidToken, d, [EvLog (req_method r) (req_path r)])) \/
   (exists h, (h = HCreateUser \/ h = HLogin) /\
      (serve e r d).2 = [EvLog (req_method r) (req_path r); EvHandler h])).
Proof.
  intros e c r d.
  assert (Hc : claims_u64 c) by (unfold c, claims_u64, is_u64, u64_modulus, TTL; simpl; lia).
  assert (Hi : 0 <= 5 < 64) by lia.
  assert (Hr : req_auth r =
    Some (bearer (encode c (Z.lxor (HMAC (env_secret e) (signing_input c)) (2 ^ 5)))))
    by reflexivity.
  split; [exact Hc|]. split; [exact Hi|]. split; [exact Hr|].
  exact (serve_tampered_token e r d c 5 Hc Hi Hr).
Defined.

(** Witness: a like request on the path the route means to serve. *)
Lemma serve_never_runs_witness :
  let e := mkEnv "k" 100 0 true true in
  let r := mkRequest "POST" "/publications/1/like" ∅ ∅
             (Some (bearer (sign "k" (mkClaims 1 50 (50 + TTL))))) BodyUnreadable in
  let d := mkDb ∅ ∅ ∅ 1 1 in
  HLikePublication ∈ [HSearchPublicationsUser; HLikePublication; HDislikePublication] /\
  EvHandler HLikePublication ∉ (serve e r d).2.
Proof.
  intros e r d.
  assert (Hh : HLikePublication ∈ [HSearchPublicationsUser; HLikePublication; HDislikePublication])
    by set_solver.
  split; [exact Hh|]. exact (serve_never_runs e r d HLikePublication Hh).
Defined.

(** Witness: user 1 reads user 2 by "GET /users/2". *)
Lemma serve_user_path_roundtrip_witness :
  let e := mkEnv "k" 100 0 true true in
  let c := mkClaims 1 50 (50 + TTL) in
  let r := mkRequest "GET" ("/users/" ++ FormatUint 2) ∅ ∅ (Some (bearer (sign "k" c)))
             BodyUnreadable in
  let bob := User.mk 2 "Bob" "bob" "bob@mail.com" "h2" 0 in
  let d := mkDb (<[1 := User.mk 1 "Ana" "ana" "ana@mail.com" "h1" 0]> {[2 := bob]}) ∅ ∅ 3 1 in
  Users.SearchID e 2 d = Ok (user_columns bob) /\
  (serve e r d).1 = (JSON StatusOK (PUser (user_columns bob)), d).
Proof.
  intros e c r bob d.
  assert (Hu : Users.SearchID e 2 d = Ok (user_columns bob)) by reflexivity.
  split; [exact Hu|].
  exact (serve_user_path_roundtrip e r d 2 c _ ltac:(unfold is_u64, u64_modulus; lia)
           eq_refl eq_refl eq_refl eq_refl Hu).
Defined.

(** Witness: "GET /users/18446744073709551616" (that is, 2^64) is
    answered 400 with the range error. *)
Lemma serve_user_path_overflow_witness :
  let e := mkEnv "k" 100 0 true true in
  let c := mkClaims 1 50 (50 + TTL) in
  let s := "18446744073709551616" in
  let r := mkRequest "GET" ("/users/" ++ s) ∅ ∅ (Some (bearer (sign "k" c))) BodyUnreadable in
  let d := mkDb ∅ ∅ ∅ 1 1 in
  u64_modulus <= dec_value s 0 /\ (serve e r d).1 = (Error StatusBadRequest ErrRange, d).
Proof.
  intros e c s r d.
  assert (Hge : u64_modulus <= dec_value s 0) by (vm_compute; discriminate).
  split; [exact Hge|].
  exact (serve_user_path_overflow e r d s c ltac:(discriminate) eq_refl Hge eq_refl eq_refl eq_refl).
Defined.

End Router.
