(* ===== verification/Safety.v ===== *)
(** * Properties across all handlers

    The database invariant that every handler preserves, the footprint of
    each handler (which rows a request may change, as a function of the
    caller's identity), and their consequences for any sequence of
    requests served by the router. *)

From S2P Require Import Prelude GoLib Security Models Http Auth Store Handler UsersCtl PublicationsCtl LoginCtl Router.
Import Security Http Auth Store Handler Router.

Module Safety.

Create HintDb safety discriminated.

Section WithServices.
Context `{Hasher} `{Signer}.

(** Every controller function preserves the invariant. *)
Lemma controller_wf h e r d : wf d -> wf (run (controller h e r) d).2.
Proof.
  intros Hwf. destruct h; simpl; unfold_controllers;
    handler_paths; eauto with store safety.
Qed.

(** C17: Like counts never go negative, whatever handler runs: every
    handler, called on a well-formed database, leaves every publication
    with a like count of at least 0.  The case that needs the code is
    [DislikePublication], whose statement saturates at 0 with
    [case when likes > 0 then likes - 1 else 0].  The like and dislike
    routes are unreachable through the router (C16), so this invariant is
    stated for every handler call, not only for requests the router
    serves. *)
Theorem handlers_keep_likes_nonneg h e r d :
  wf d -> forall k p, publications (run (controller h e r) d).2 !! k = Some p -> 0 <= Publication.Likes p.
Proof. intros Hwf. apply wf_likes. by apply controller_wf. Qed.



End WithServices.

(** ** The footprint of a request

    [respects e r d d']: going from [d] to [d'], the request [r] changed
    only the data of its caller: an existing user row only if it is the
    caller's, the title, content or author of an existing publication only
    if the caller is its author, a follow edge only if the caller is the
    follower.  Likes are not owned: anyone may change them. *)
Definition pub_core (p : Publication.t) : string * string * Z :=
  (Publication.Title p, Publication.Content p, Publication.AuthorID p).

Section Footprint.
Context `{Signer}.

Record respects (e : env) (r : request) (d d' : db) : Prop := {
  resp_users : forall k u, users d !! k = Some u -> users d' !! k <> Some u ->
    ExtractUserID e r = Ok k;
  resp_pubs : forall k p, publications d !! k = Some p ->
    pub_core <$> publications d' !! k <> Some (pub_core p) ->
    ExtractUserID e r = Ok (Publication.AuthorID p);
  resp_follow_add : forall a b, (a, b) ∈ followers d' -> (a, b) ∉ followers d ->
    ExtractUserID e r = Ok b;
  resp_follow_del : forall a b, (a, b) ∈ followers d -> (a, b) ∉ followers d' ->
    ExtractUserID e r = Ok b;
  resp_pubs_new : forall k p, publications d !! k = None -> publications d' !! k = Some p ->
    ExtractUserID e r = Ok (Publication.AuthorID p)
}.

(** Close the goals of [respects] for a table the statement did not
    touch. *)
Ltac unchanged :=
  match goal with
  | |- ?x = Some ?y -> ?x <> Some ?y -> _ => let Hx := fresh in let Hn := fresh in
      intros Hx Hn; exfalso; exact (Hn Hx)
  | |- publications ?d !! ?k = Some ?p -> pub_core <$> publications ?d !! ?k <> Some (pub_core ?p) -> _ =>
      let Hx := fresh in let Hn := fresh in intros Hx Hn; exfalso; apply Hn; by rewrite Hx
  | |- ?a ∈ ?s -> ?a ∉ ?s -> _ => let Hx := fresh in let Hn := fresh in
      intros Hx Hn; exfalso; exact (Hn Hx)
  | |- ?x = None -> ?x = Some _ -> _ => let Hx := fresh in let Hn := fresh in
      intros Hx Hn; rewrite Hx in Hn; discriminate
  end.

Ltac respects_intro :=
  constructor; unfold set_users, set_publications, set_followers;
  cbn [users followers publications]; intros ??; try unchanged.

Lemma respects_refl e r d : respects e r d d.
Proof. respects_intro. Qed.

Lemma respects_users_alter e r d k (f : User.t -> User.t) :
  ExtractUserID e r = Ok k -> respects e r d (set_users d (alter f k (users d))).
Proof.
  intros Hk. respects_intro. intros Hu Hne. destruct (decide (k0 = k)) as [->|Hjk]; [done|].
  by rewrite lookup_alter_ne in Hne.
Qed.

Lemma users_Update_respects e r k u d d' :
  ExtractUserID e r = Ok k -> Users.Update e k u d = Ok d' -> respects e r d d'.
Proof.
  intros Hk. unfold Users.Update, guard. destruct (env_exec e); [|discriminate].
  intros [= <-]. by apply respects_users_alter.
Qed.

Lemma users_UpdatePassword_respects e r k pw d d' :
  ExtractUserID e r = Ok k -> Users.UpdatePassword e k pw d = Ok d' -> respects e r d d'.
Proof.
  intros Hk. unfold Users.UpdatePassword, guard. destruct (env_exec e); [|discriminate].
  intros [= <-]. by apply respects_users_alter.
Qed.

Lemma users_Delete_respects e r k d d' :
  ExtractUserID e r = Ok k -> Users.Delete e k d = Ok d' -> respects e r d d'.
Proof.
  intros Hk. unfold Users.Delete, guard. destruct (env_exec e); [|discriminate].
  intros [= <-]. respects_intro. intros Hu Hne. destruct (decide (k0 = k)) as [->|Hjk]; [done|].
  by rewrite lookup_delete_ne in Hne.
Qed.

Lemma users_Create_respects e r u d id d' :
  wf d -> Users.Create e u d = Ok (id, d') -> respects e r d d'.
Proof.
  intros Hwf. unfold Users.Create, guard. destruct (env_exec e); [|discriminate].
  intros [= <- <-]. respects_intro. intros Hu Hne. exfalso. apply Hne.
  rewrite lookup_insert_ne; [done|]. destruct (wf_users _ Hwf _ _ Hu). lia.
Qed.

Lemma users_Follow_respects e r a b d d' :
  ExtractUserID e r = Ok b -> Users.Follow e a b d = Ok d' -> respects e r d d'.
Proof.
  intros Hb. unfold Users.Follow, guard. destruct (env_exec e); [|discriminate].
  intros [= <-]. respects_intro.
  - intros [[= -> ->]%elem_of_singleton|]%elem_of_union Hn; [done|contradiction].
  - intros Hin Hn. exfalso. apply Hn. set_solver.
Qed.

Lemma users_Unfollow_respects e r a b d d' :
  ExtractUserID e r = Ok b -> Users.Unfollowollow e a b d = Ok d' -> respects e r d d'.
Proof.
  intros Hb. unfold Users.Unfollowollow, guard. destruct (env_exec e); [|discriminate].
  intros [= <-]. respects_intro.
  - intros Hin Hn. exfalso. set_solver.
  - intros Hin Hn. destruct (decide ((a0, b0) = (a, b))) as [[= -> ->]|Hne]; [done|].
    exfalso. set_solver.
Qed.

Lemma pubs_Create_respects e r q a p d id d' :
  wf d -> ExtractUserID e r = Ok a -> Publication.Prepare (Publication.set_author q a) = Ok p ->
  Publications.Create e p d = Ok (id, d') -> respects e r d d'.
Proof.
  intros Hwf Ha Hp. apply Publication.Prepare_set_author in Hp.
  unfold Publications.Create, guard. destruct (env_exec e); [|discriminate].
  intros [= <- <-]. respects_intro.
  - intros Hp' Hne. exfalso. apply Hne.
    rewrite lookup_insert_ne; [by rewrite Hp'|]. destruct (wf_pubs _ Hwf _ _ Hp'). lia.
  - intros Hnone. rewrite lookup_insert. case_decide; [|congruence].
    intros [= <-]. simpl. by rewrite Hp.
Qed.

(** [alter] creates no row. *)
Lemma alter_None_Some {A} (f : A -> A) j k (m : gmap Z A) p :
  m !! k = None -> alter f j m !! k = Some p -> False.
Proof. intros Hk. rewrite lookup_alter. case_decide; subst; by rewrite Hk. Qed.

(** The author [SearchID] reports for an existing publication is its
    author, unless the join with the author's row failed and the zero
    value (author 0) came back. *)
Lemma SearchID_author e k d saved p :
  Publications.SearchID e k d = Ok saved -> publications d !! k = Some p ->
  Publication.AuthorID saved = Publication.AuthorID p \/ Publication.AuthorID saved = 0.
Proof.
  unfold Publications.SearchID, guard. destruct (env_exec e); [|discriminate].
  intros [= <-] Hp. rewrite Hp. simpl. unfold Publications.joined.
  destruct (users d !! Publication.AuthorID p); simpl; auto.
Qed.

Lemma respects_pubs_owned e r d d' k saved :
  ExtractUserID e r = Ok (Publication.AuthorID saved) -> Publication.AuthorID saved <> 0 ->
  Publications.SearchID e k d = Ok saved ->
  users d' = users d -> followers d' = followers d ->
  (forall j, j <> k -> publications d' !! j = publications d !! j) ->
  (publications d !! k = None -> publications d' !! k = None) ->
  respects e r d d'.
Proof.
  intros Hk Hnz Hs Hu Hf Hother Hk'. constructor; rewrite ?Hu, ?Hf; intros ??; try unchanged.
  2: { intros Hnone. destruct (decide (k0 = k)) as [->|Hjk]; [by rewrite Hk'|].
       rewrite Hother, Hnone by done. discriminate. }
  intros Hp Hne. destruct (decide (k0 = k)) as [->|Hjk].
  - destruct (SearchID_author _ _ _ _ _ Hs Hp) as [<-|H0]; [done|].
    by rewrite H0 in Hnz.
  - exfalso. apply Hne. by rewrite Hother, Hp.
Qed.

Lemma pubs_Update_respects e r k p d saved d' :
  ExtractUserID e r = Ok (Publication.AuthorID saved) -> Publication.AuthorID saved <> 0 ->
  Publications.SearchID e k d = Ok saved ->
  Publications.Update e k p d = Ok d' -> respects e r d d'.
Proof.
  intros Hk Hnz Hs. unfold Publications.Update, guard. destruct (env_exec e); [|discriminate].
  intros [= <-]. eapply respects_pubs_owned; [done..| |].
  - intros j Hj. cbn [publications set_publications]. by rewrite lookup_alter_ne.
  - intros Hn. cbn [publications set_publications]. by rewrite lookup_alter, Hn; case_decide.
Qed.

Lemma pubs_Delete_respects e r k d saved d' :
  ExtractUserID e r = Ok (Publication.AuthorID saved) -> Publication.AuthorID saved <> 0 ->
  Publications.SearchID e k d = Ok saved ->
  Publications.Delete e k d = Ok d' -> respects e r d d'.
Proof.
  intros Hk Hnz Hs. unfold Publications.Delete, guard. destruct (env_exec e); [|discriminate].
  intros [= <-]. eapply respects_pubs_owned; [done..| |].
  - intros j Hj. cbn [publications set_publications]. by rewrite lookup_delete_ne.
  - intros _. cbn [publications set_publications]. by rewrite lookup_delete_eq.
Qed.

(** A statement that changes only the likes of a publication. *)
Lemma respects_likes e r d k (f : Publication.t -> Publication.t) :
  (forall p, pub_core (f p) = pub_core p) ->
  respects e r d (set_publications d (alter f k (publications d))).
Proof.
  intros Hf. respects_intro; [|by intros ? ?%alter_None_Some]. intros Hp Hne. exfalso. apply Hne.
  rewrite lookup_alter, Hp. case_decide; [subst; rewrite Hp|done].
  change (Some (pub_core (f p)) = Some (pub_core p)). by rewrite Hf.
Qed.

Lemma pubs_Like_respects e r k d d' :
  Publications.LikePublication e k d = Ok d' -> respects e r d d'.
Proof.
  unfold Publications.LikePublication, guard. destruct (env_exec e); [|discriminate].
  intros [= <-]. by apply respects_likes.
Qed.

Lemma pubs_Dislike_respects e r k d d' :
  Publications.DislikePublication e k d = Ok d' -> respects e r d d'.
Proof.
  unfold Publications.DislikePublication, guard. destruct (env_exec e); [|discriminate].
  intros [= <-]. by apply respects_likes.
Qed.

End Footprint.

#[export] Hint Resolve respects_refl users_Update_respects users_UpdatePassword_respects
  users_Delete_respects users_Create_respects users_Follow_respects users_Unfollow_respects
  pubs_Create_respects pubs_Update_respects pubs_Delete_respects pubs_Like_respects
  pubs_Dislike_respects : safety.

Section WithServices2.
Context `{Hasher} `{Signer}.

(** Every controller function stays within its caller's footprint, for a
    caller whose identifier is not 0. *)
Lemma controller_respects h e r d :
  wf d -> (forall u, ExtractUserID e r = Ok u -> u <> 0) ->
  respects e r d (run (controller h e r) d).2.
Proof.
  intros Hwf Hnz. destruct h; simpl; unfold_controllers; handler_paths; eauto with store safety.
Qed.

Lemma ExtractUserID_with_vars e r vars : ExtractUserID e (with_vars r vars) = ExtractUserID e r.
Proof. reflexivity. Qed.

Lemma serve_wf e r d : wf d -> wf (Router.serve e r d).1.2.
Proof.
  intros Hwf. destruct (serve_db e r d) as [->|(rt & vars & _ & ->)]; [done|].
  by apply controller_wf.
Qed.

(** The databases the server can reach from the empty database. *)
Definition empty_db : db := mkDb ∅ ∅ ∅ 1 1.

Inductive reachable : db -> Prop :=
| reachable_init : reachable empty_db
| reachable_step e r d : reachable d -> reachable (Router.serve e r d).1.2.

Lemma reachable_wf d : reachable d -> wf d.
Proof.
  induction 1 as [|e r d _ IH].
  - apply wf_empty.
  - by apply serve_wf.
Qed.

(** C2: No principal follows itself: in every database reachable by
    any sequence of requests, the follow table has no edge from a user to
    itself (the self-reference guard of [FollowUser] holds for the whole
    history). *)
Theorem reachable_no_self_follow d a b : reachable d -> (a, b) ∈ followers d -> a <> b.
Proof. intros Hr. by apply (wf_followers _ (reachable_wf d Hr)). Qed.

(** C1: Non-interference: whatever request the server receives, it
    changes an existing user row only if the caller (the subject of the
    request's valid token) owns it, changes the title, content or author
    of an existing publication only if the caller is its author, and adds
    or removes a follow edge only if the caller is the follower.  This
    holds on every reachable database, for callers whose identifier is
    not 0 (the zero value [Publications.SearchID] returns for a
    publication whose author row is gone). *)
Theorem serve_respects e r d :
  reachable d -> (forall u, ExtractUserID e r = Ok u -> u <> 0) ->
  respects e r d (Router.serve e r d).1.2.
Proof.
  intros Hr Hnz. destruct (serve_db e r d) as [->|(rt & vars & _ & ->)]; [apply respects_refl|].
  pose proof (controller_respects (Function rt) e (with_vars r vars) d (reachable_wf d Hr)) as Hc.
  rewrite ExtractUserID_with_vars in Hc. specialize (Hc Hnz).
  destruct Hc; constructor; by rewrite <- ?(ExtractUserID_with_vars e r vars).
Qed.

End WithServices2.

#[local] Existing Instance model_bcrypt.
#[local] Existing Instance model_signer.

(** Witness: from the empty database, user 1 follows user 2. *)
Lemma reachable_no_self_follow_witness :
  let e := mkEnv "k" 100 0 true true in
  let r := mkRequest "POST" "/users/2/seguir" ∅ ∅
             (Some (bearer (sign "k" (mkClaims 1 50 (50 + TTL))))) BodyUnreadable in
  let d := (Router.serve e r empty_db).1.2 in
  reachable d /\ (2, 1) ∈ followers d /\ 2 <> 1.
Proof.
  intros e r d.
  assert (Hr : reachable d) by exact (reachable_step e r empty_db reachable_init).
  assert (Hin : (2, 1) ∈ followers d) by (apply (bool_decide_unpack ((2, 1) ∈ followers d)); vm_compute; reflexivity).
  split; [exact Hr|]. split; [exact Hin|].
  exact (reachable_no_self_follow d 2 1 Hr Hin).
Defined.

(** Witness: user 1 dislikes publication 1, whose count is 0: the count
    stays 0. *)
Lemma handlers_keep_likes_nonneg_witness :
  let e := mkEnv "k" 100 0 true true in
  let r := mkRequest "POST" "/publications/1/dislike" {["publicationId" := "1"]} ∅
             (Some (bearer (sign "k" (mkClaims 1 50 (50 + TTL))))) BodyUnreadable in
  let p := Publication.mk 1 "t" "c" 2 "" 0 0 in
  let d := mkDb {[2 := User.mk 2 "Bob" "bob" "bob@mail.com" "h" 0]} ∅ {[1 := p]} (2 + 1) (1 + 1) in
  wf d /\ publications (run (controller HDislikePublication e r) d).2 !! 1 = Some p /\
  0 <= Publication.Likes p.
Proof.
  intros e r p d.
  assert (Hwf : wf d) by (apply wf_user_pub; simpl; lia).
  assert (Hp : publications (run (controller HDislikePublication e r) d).2 !! 1 = Some p)
    by reflexivity.
  split; [exact Hwf|]. split; [exact Hp|].
  exact (handlers_keep_likes_nonneg HDislikePublication e r d Hwf 1 p Hp).
Defined.


(** Witness: user 1 edits its own row, from the empty database. *)
Lemma serve_respects_witness :
  let e := mkEnv "k" 100 0 true true in
  let r := mkRequest "PUT" "/users/1" ∅ ∅
             (Some (bearer (sign "k" (mkClaims 1 50 (50 + TTL)))))
             (BodyUser (User.mk 0 "Ana" "ana" "ana@mail.com" "" 0)) in
  reachable empty_db /\ (forall u, ExtractUserID e r = Ok u -> u <> 0) /\
  respects e r empty_db (Router.serve e r empty_db).1.2.
Proof.
  intros e r.
  assert (E : ExtractUserID e r = Ok 1) by reflexivity.
  assert (Hnz : forall u, ExtractUserID e r = Ok u -> u <> 0).
  { intros u Hu. rewrite E in Hu. injection Hu as <-. lia. }
  split; [exact reachable_init|]. split; [exact Hnz|].
  exact (serve_respects e r empty_db reachable_init Hnz).
Defined.

End Safety.
