(* ===== verification/Server.v ===== *)
(** * The running server: [src/main.go]

    [main] loads the configuration, builds the router with
    [router.Generate()] and hands it to [http.ListenAndServe], which
    serves the requests it receives, each by the router, on the one
    shared database.  [ListenAndServe] below serves a list of requests in
    the order they reach the database.  net/http runs handlers
    concurrently, so the statements of two requests may interleave:
    between the ownership check of [UpdatePublication] or
    [DeletePublication] (a [SELECT]) and its write (an [UPDATE] or
    [DELETE]), any other requests may run.  The last part of the file
    shows that the fact the check established still holds at the write,
    whatever ran in between: a publication never changes author and its
    id is never reused. *)

From S2P Require Import Prelude GoLib Security Models Http Auth Store Handler UsersCtl PublicationsCtl LoginCtl Router Safety.
Import Security Http Auth Store Handler Router Safety.

Module Server.

Section WithServices.
Context `{Hasher} `{Signer}.

(** [http.ListenAndServe(addr, router.Generate())]: every request is
    served by the router on the database the previous ones left; the
    outcomes are the responses and events, in order. *)
Fixpoint ListenAndServe (reqs : list (env * request)) (d : db) : db * list (response * list event) :=
  match reqs with
  | [] => (d, [])
  | (e, r) :: rest =>
      let '(resp, d', evs) := Router.serve e r d in
      let '(d'', outs) := ListenAndServe rest d' in
      (d'', (resp, evs) :: outs)
  end.

End WithServices.

Create HintDb stable discriminated.

(** ** Author stability

    [author_at k a d]: the id [k] was handed out (it is below the
    publications counter) and, if a publication [k] exists, its author is
    [a]. *)
Definition author_at (k a : Z) (d : db) : Prop :=
  k < next_pub d /\ forall q, publications d !! k = Some q -> Publication.AuthorID q = a.

Lemma author_at_same k a d d' :
  next_pub d <= next_pub d' -> publications d' = publications d ->
  author_at k a d -> author_at k a d'.
Proof. intros Hn Hp [Hk Hq]. split; [lia|]. by rewrite Hp. Qed.

(** A statement that changes a row but not its author. *)
Lemma author_at_alter k a d j (f : Publication.t -> Publication.t) :
  (forall q, Publication.AuthorID (f q) = Publication.AuthorID q) ->
  author_at k a d -> author_at k a (set_publications d (alter f j (publications d))).
Proof.
  intros Hf [Hk Hq]. split; [done|]. cbn [publications set_publications].
  intros q. rewrite lookup_alter. case_decide; [subst|by apply Hq].
  destruct (publications d !! k) as [p|] eqn:Hp; [|done]. intros [= <-]. rewrite Hf. by apply Hq.
Qed.

Lemma users_Create_stable e u d id d' k a :
  Users.Create e u d = Ok (id, d') -> author_at k a d -> author_at k a d'.
Proof.
  unfold Users.Create, guard. destruct (env_exec e); [|discriminate].
  intros [= <- <-]. by apply author_at_same.
Qed.

Lemma users_Update_stable e i u d d' k a :
  Users.Update e i u d = Ok d' -> author_at k a d -> author_at k a d'.
Proof. unfold Users.Update, guard. destruct (env_exec e); [|discriminate]. intros [= <-]. by apply author_at_same. Qed.

Lemma users_UpdatePassword_stable e i pw d d' k a :
  Users.UpdatePassword e i pw d = Ok d' -> author_at k a d -> author_at k a d'.
Proof. unfold Users.UpdatePassword, guard. destruct (env_exec e); [|discriminate]. intros [= <-]. by apply author_at_same. Qed.

Lemma users_Delete_stable e i d d' k a :
  Users.Delete e i d = Ok d' -> author_at k a d -> author_at k a d'.
Proof. unfold Users.Delete, guard. destruct (env_exec e); [|discriminate]. intros [= <-]. by apply author_at_same. Qed.

Lemma users_Follow_stable e i j d d' k a :
  Users.Follow e i j d = Ok d' -> author_at k a d -> author_at k a d'.
Proof. unfold Users.Follow, guard. destruct (env_exec e); [|discriminate]. intros [= <-]. by apply author_at_same. Qed.

Lemma users_Unfollow_stable e i j d d' k a :
  Users.Unfollowollow e i j d = Ok d' -> author_at k a d -> author_at k a d'.
Proof. unfold Users.Unfollowollow, guard. destruct (env_exec e); [|discriminate]. intros [= <-]. by apply author_at_same. Qed.

(** A new publication takes the counter's value, above every id handed
    out before: it never lands on [k]. *)
Lemma pubs_Create_stable e p d id d' k a :
  Publications.Create e p d = Ok (id, d') -> author_at k a d -> author_at k a d'.
Proof.
  unfold Publications.Create, guard. destruct (env_exec e); [|discriminate].
  intros [= <- <-] [Hk Hq]. split; simpl; [lia|].
  intros q. rewrite lookup_insert_ne by lia. apply Hq.
Qed.

Lemma pubs_Update_stable e j p d d' k a :
  Publications.Update e j p d = Ok d' -> author_at k a d -> author_at k a d'.
Proof.
  unfold Publications.Update, guard. destruct (env_exec e); [|discriminate].
  intros [= <-]. by apply author_at_alter.
Qed.

Lemma pubs_Delete_stable e j d d' k a :
  Publications.Delete e j d = Ok d' -> author_at k a d -> author_at k a d'.
Proof.
  unfold Publications.Delete, guard. destruct (env_exec e); [|discriminate].
  intros [= <-] [Hk Hq]. split; [done|]. cbn [publications set_publications].
  intros q. rewrite lookup_delete. case_decide; [done|apply Hq].
Qed.

Lemma pubs_Like_stable e j d d' k a :
  Publications.LikePublication e j d = Ok d' -> author_at k a d -> author_at k a d'.
Proof.
  unfold Publications.LikePublication, guard. destruct (env_exec e); [|discriminate].
  intros [= <-]. by apply author_at_alter.
Qed.

Lemma pubs_Dislike_stable e j d d' k a :
  Publications.DislikePublication e j d = Ok d' -> author_at k a d -> author_at k a d'.
Proof.
  unfold Publications.DislikePublication, guard. destruct (env_exec e); [|discriminate].
  intros [= <-]. by apply author_at_alter.
Qed.

#[export] Hint Resolve users_Create_stable users_Update_stable users_UpdatePassword_stable
  users_Delete_stable users_Follow_stable users_Unfollow_stable pubs_Create_stable
  pubs_Update_stable pubs_Delete_stable pubs_Like_stable pubs_Dislike_stable : stable.

Section Stability.
Context `{Hasher} `{Signer}.

(** Every controller function keeps the author of every publication id. *)
Lemma controller_stable h e r d k a :
  author_at k a d -> author_at k a (run (controller h e r) d).2.
Proof. intros Ha. destruct h; simpl; unfold_controllers; handler_paths; eauto with stable. Qed.

Lemma serve_stable e r d k a : author_at k a d -> author_at k a (Router.serve e r d).1.2.
Proof.
  intros Ha. destruct (serve_db e r d) as [->|(rt & vars & _ & ->)]; [done|].
  by apply controller_stable.
Qed.

Lemma ListenAndServe_stable reqs d k a :
  author_at k a d -> author_at k a (ListenAndServe reqs d).1.
Proof.
  revert d. induction reqs as [|[e r] rest IH]; intros d Ha; [done|]. simpl.
  pose proof (serve_stable e r d k a Ha) as Hs.
  destruct (Router.serve e r d) as [[resp d'] evs]. simpl in Hs.
  specialize (IH d' Hs). by destruct (ListenAndServe rest d').
Qed.

(** What the ownership check of [UpdatePublication] and
    [DeletePublication] learns: a non-zero author from [SearchID] is the
    author of the publication, whose id was handed out. *)
Lemma SearchID_author_at e k d saved :
  wf d -> Publications.SearchID e k d = Ok saved -> Publication.AuthorID saved <> 0 ->
  author_at k (Publication.AuthorID saved) d.
Proof.
  intros Hwf Hs Hnz. unfold Publications.SearchID, guard in Hs.
  destruct (env_exec e); [|discriminate]. injection Hs as Hs.
  destruct (publications d !! k) as [p|] eqn:Hp; simpl in Hs; [|by subst].
  unfold Publications.joined in Hs.
  destruct (users d !! Publication.AuthorID p); simpl in Hs; [|by subst].
  subst saved. destruct (wf_pubs _ Hwf _ _ Hp) as [Hk _]. split; [lia|].
  intros q Hq. rewrite Hp in Hq. by injection Hq as <-.
Qed.

(** C38: Check-then-write is safe under interleaving.  The ownership
    check of [UpdatePublication] and [DeletePublication] reads the author
    of publication [k] ([SearchID], a non-zero author) and the write comes
    later, in a separate statement; whatever requests the server serves
    in between, from any callers, the publication [k], if it still
    exists, still has that author when the write runs: authors never
    change and a deleted id is never handed out again. *)
Theorem ownership_check_stable e k d saved reqs :
  wf d -> Publications.SearchID e k d = Ok saved -> Publication.AuthorID saved <> 0 ->
  forall q, publications (ListenAndServe reqs d).1 !! k = Some q ->
    Publication.AuthorID q = Publication.AuthorID saved.
Proof.
  intros Hwf Hs Hnz. apply ListenAndServe_stable. by eapply SearchID_author_at.
Qed.

(** The outcome of one served request, as the server produces it: mux
    answers 404 or 405 by itself, with no event; otherwise a route of the
    table matches the path and the method, [Logger] records the request
    first, and then either [Authenticate] rejects a protected route's
    token with 401 and the token's error, or the route's handler runs,
    once, a protected one only on a valid token. *)
Definition answered (e : env) (r : request) (resp : response) (evs : list event) : Prop :=
  (evs = [] /\ (resp = mux_not_found \/ resp = mux_method_not_allowed)) \/
  exists rt, rt ∈ routes /\ is_Some (match_path (URI rt) (req_path r)) /\
    Methods rt = req_method r /\
    ((RequiresAuthentication rt = true /\
      exists err, ValidateToken (env_secret e) (env_now e) (extractToken (req_auth r)) = Err err /\
        resp = Error StatusUnauthorized err /\ evs = [EvLog (req_method r) (req_path r)]) \/
     ((RequiresAuthentication rt = true ->
       exists c, ValidateToken (env_secret e) (env_now e) (extractToken (req_auth r)) = Ok c) /\
      evs = [EvLog (req_method r) (req_path r); EvHandler (Function rt)])).

Lemma serve_answered e r d : answered e r (Router.serve e r d).1.1 (Router.serve e r d).2.
Proof.
  unfold answered.
  destruct (serve_cases e r d) as [E|[E|(rt & vars & Hrt & Hm & Hmeth & E)]]; rewrite E; [by eauto|by eauto|].
  right. exists rt. split_and!; [done|by rewrite Hm|done|].
  unfold wrap, Logger, Authenticate, dispatch. cbn [req_auth req_method req_path with_vars].
  destruct (RequiresAuthentication rt).
  - destruct (ValidateToken _ _ _) as [c|err]; [right|left; eauto 10].
    destruct (run _ _). split; eauto.
  - right. destruct (run _ _). split; [discriminate|done].
Qed.

(** C39: The server loop takes every request to its response: for each
    request, in order, [ListenAndServe] gives exactly one outcome, and
    that outcome is mux's 404 or 405 with no event, or the log line
    followed by the 401 of [Authenticate] with the token's error, or the
    log line followed by exactly one run of the matched route's handler
    (a protected one only on a valid token).  No request is dropped,
    retried, answered before it is logged, or handled twice. *)
Theorem ListenAndServe_answers_once reqs d :
  Forall2 (fun er out => answered er.1 er.2 out.1 out.2) reqs (ListenAndServe reqs d).2.
Proof.
  revert d. induction reqs as [|[e r] rest IH]; intros d; simpl; [constructor|].
  pose proof (serve_answered e r d) as Hs.
  destruct (Router.serve e r d) as [[resp d'] evs]. simpl in Hs.
  specialize (IH d'). destruct (ListenAndServe rest d') as [d'' outs]. by constructor.
Qed.

End Stability.

#[local] Existing Instance model_bcrypt.
#[local] Existing Instance model_signer.

(** Witness: Bob (user 2) owns publication 1; before his write runs, Ana
    (user 1) posts and Bob edits the publication; publication 1 is still
    there, and still Bob's. *)
Lemma ownership_check_stable_witness :
  let e := mkEnv "k" 100 0 true true in
  let tok u := Some (bearer (sign "k" (mkClaims u 50 (50 + TTL)))) in
  let d := mkDb {[2 := User.mk 2 "Bob" "bob" "bob@mail.com" "h" 0]} ∅
             {[1 := Publication.mk 1 "t" "c" 2 "" 0 0]} 3 2 in
  let saved := Publication.mk 1 "t" "c" 2 "bob" 0 0 in
  let reqs := [(e, mkRequest "POST" "/publications" ∅ ∅ (tok 1)
                     (BodyPublication (Publication.mk 0 "a" "b" 0 "" 0 0)));
               (e, mkRequest "PUT" "/publications/1" ∅ ∅ (tok 2)
                     (BodyPublication (Publication.mk 0 "x" "y" 0 "" 0 0)))] in
  wf d /\ Publications.SearchID e 1 d = Ok saved /\ Publication.AuthorID saved <> 0 /\
  is_Some (publications (ListenAndServe reqs d).1 !! 1) /\
  forall q, publications (ListenAndServe reqs d).1 !! 1 = Some q ->
    Publication.AuthorID q = Publication.AuthorID saved.
Proof.
  intros e tok d saved reqs.
  assert (Hwf : wf d) by (apply (wf_user_pub 2 _ 1 _); simpl; lia).
  assert (Hs : Publications.SearchID e 1 d = Ok saved) by reflexivity.
  assert (Hnz : Publication.AuthorID saved <> 0) by (simpl; lia).
  split; [exact Hwf|]. split; [exact Hs|]. split; [exact Hnz|].
  split; [vm_compute; eexists; reflexivity|].
  exact (ownership_check_stable e 1 d saved reqs Hwf Hs Hnz).
Defined.

End Server.
