(* ===== verification/Refinement.v ===== *)
(** * The server refines the abstract specification

    Every request the server serves, on a well-formed database and for a
    caller whose identifier is not 0, is a step of [Spec.spec_step]:
    either the tables ([Spec.abs]) do not change, or exactly one
    operation of [Spec.op] takes place, which the caller is allowed to
    perform and whose effect is the one [Spec.effect] describes.  The
    proof goes repository method by repository method (one lemma each,
    in the hint database [refine]), then handler by handler, then through
    the router.  A run of the server loop is then a run of the
    specification, one step per request. *)

From S2P Require Import Prelude GoLib Security Models Http Auth Store Spec Handler UsersCtl PublicationsCtl LoginCtl Router Safety Server.
Import Security Http Auth Store Spec Handler Router Safety Server.

Module Refinement.

Create HintDb refine discriminated.

(** ** The table changes of the specification *)

Lemma adds_insert {A} (m : gmap Z A) k v : m !! k = None -> adds m (<[k := v]> m) k v.
Proof.
  intros Hk. split_and!; [done|by rewrite lookup_insert_eq|].
  intros j Hj. by rewrite lookup_insert_ne.
Qed.

Lemma updates_alter {A} (m : gmap Z A) k f : updates m (alter f k m) k f.
Proof. split; [by rewrite lookup_alter_eq|]. intros j Hj. by rewrite lookup_alter_ne. Qed.

Lemma updates_alter_ext {A} (m : gmap Z A) k f g :
  (forall x, f x = g x) -> updates m (alter f k m) k g.
Proof.
  intros Hfg. split; [rewrite lookup_alter_eq; destruct (m !! k); simpl; by rewrite ?Hfg|].
  intros j Hj. by rewrite lookup_alter_ne.
Qed.

Lemma removes_delete {A} (m : gmap Z A) k : removes m (delete k m) k.
Proof. split; [by rewrite lookup_delete_eq|]. intros j Hj. by rewrite lookup_delete_ne. Qed.

(** The count [DislikePublication] writes is [max 0 (likes - 1)]. *)
Lemma dislike_count n : (if 0 <? n then n - 1 else 0) = Z.max 0 (n - 1).
Proof. destruct (Z.ltb_spec 0 n); lia. Qed.

Section WithServices.
Context `{Hasher} `{Signer}.

Lemma caller_ok e r k : ExtractUserID e r = Ok k -> caller e r = Some k.
Proof. unfold caller. by intros ->. Qed.

(** Perform the operation [o]: its authorization, then its effect. *)
Ltac spec_op o := apply (spec_op _ _ o); [simpl; try (apply caller_ok; assumption)|].

(** ** Each repository write is an allowed operation *)

Lemma users_Create_refines e r salt u0 u d id d' :
  wf d -> User.Prepare salt User.stage_register u0 = Ok u -> Users.Create e u d = Ok (id, d') ->
  spec_step (caller e r) (abs d) (abs d').
Proof.
  intros Hwf Hp. unfold Users.Create, guard. destruct (env_exec e); [|discriminate].
  intros [= <- <-].
  pose proof (User.Prepare_user_fields _ _ _ _ Hp) as (_ & _ & _ & _ & _ & Hh).
  rewrite String.eqb_refl in Hh.
  spec_op (ORegister (User.mk (next_user d) (User.Name u) (User.Nick u) (User.Email u)
                        (User.Password u) (env_now e))); [done|].
  constructor; simpl; [|by eauto|done|done].
  apply adds_insert. destruct (users d !! next_user d) as [v|] eqn:Hv; [|done].
  destruct (wf_users _ Hwf _ _ Hv). lia.
Qed.

Lemma users_Update_refines e r k u d d' :
  ExtractUserID e r = Ok k -> Users.Update e k u d = Ok d' ->
  spec_step (caller e r) (abs d) (abs d').
Proof.
  intros Hk. unfold Users.Update, guard. destruct (env_exec e); [|discriminate]. intros [= <-].
  spec_op (OEditProfile k (User.Name u) (User.Nick u) (User.Email u)).
  constructor; [apply updates_alter|done|done].
Qed.

Lemma users_Delete_refines e r k d d' :
  ExtractUserID e r = Ok k -> Users.Delete e k d = Ok d' ->
  spec_step (caller e r) (abs d) (abs d').
Proof.
  intros Hk. unfold Users.Delete, guard. destruct (env_exec e); [|discriminate]. intros [= <-].
  spec_op (ODeleteAccount k). constructor; [apply removes_delete|done|done].
Qed.

Lemma users_UpdatePassword_refines e r k h0 cur v salt pw h d d' :
  ExtractUserID e r = Ok k -> Users.SearchPassword e k d = Ok h0 ->
  PasswordCheck h0 cur = Ok v -> HashPassword salt pw = Ok h ->
  Users.UpdatePassword e k h d = Ok d' ->
  spec_step (caller e r) (abs d) (abs d').
Proof.
  intros Hk. unfold Users.SearchPassword, Users.UpdatePassword, guard.
  destruct (env_exec e); [|discriminate]. intros [= <-] Hc Hh [= <-].
  spec_op (OSetPassword k h).
  - split; [by apply caller_ok|]. destruct (users d !! k) as [u|] eqn:Hu.
    + exists u, cur. simpl in *. split; [done|]. by destruct v.
    + simpl in Hc. by rewrite PasswordCheck_empty in Hc.
  - constructor; [apply updates_alter|by eauto|done|done].
Qed.

Lemma users_Follow_refines e r a b d d' :
  ExtractUserID e r = Ok b -> a <> b -> Users.Follow e a b d = Ok d' ->
  spec_step (caller e r) (abs d) (abs d').
Proof.
  intros Hb Hab. unfold Users.Follow, guard. destruct (env_exec e); [|discriminate].
  intros [= <-]. spec_op (OFollow a b); [split; [by apply caller_ok|done]|]. by constructor.
Qed.

Lemma users_Unfollow_refines e r a b d d' :
  ExtractUserID e r = Ok b -> a <> b -> Users.Unfollowollow e a b d = Ok d' ->
  spec_step (caller e r) (abs d) (abs d').
Proof.
  intros Hb Hab. unfold Users.Unfollowollow, guard. destruct (env_exec e); [|discriminate].
  intros [= <-]. spec_op (OUnfollow a b); [split; [by apply caller_ok|done]|]. by constructor.
Qed.

Lemma pubs_Create_refines e r q a p d id d' :
  wf d -> ExtractUserID e r = Ok a -> Publication.Prepare (Publication.set_author q a) = Ok p ->
  Publications.Create e p d = Ok (id, d') ->
  spec_step (caller e r) (abs d) (abs d').
Proof.
  intros Hwf Ha Hp. apply Publication.Prepare_set_author in Hp.
  unfold Publications.Create, guard. destruct (env_exec e); [|discriminate]. intros [= <- <-].
  spec_op (OPost (Publication.mk (next_pub d) (Publication.Title p) (Publication.Content p)
                    (Publication.AuthorID p) EmptyString 0 (env_now e))); [rewrite Hp; by apply caller_ok|].
  constructor; simpl; [|done|done|done].
  apply adds_insert. destruct (publications d !! next_pub d) as [v|] eqn:Hv; [|done].
  destruct (wf_pubs _ Hwf _ _ Hv). lia.
Qed.

(** The author [SearchID] reports, when it is not 0, is the author of
    the publication, if there is one. *)
Lemma SearchID_allowed e r k d saved :
  ExtractUserID e r = Ok (Publication.AuthorID saved) -> Publication.AuthorID saved <> 0 ->
  Publications.SearchID e k d = Ok saved ->
  forall p, publications d !! k = Some p -> caller e r = Some (Publication.AuthorID p).
Proof.
  intros Hk Hnz Hs p Hp. apply caller_ok.
  destruct (SearchID_author _ _ _ _ _ Hs Hp) as [<-|]; [done|contradiction].
Qed.

Lemma pubs_Update_refines e r k p d saved d' :
  ExtractUserID e r = Ok (Publication.AuthorID saved) -> Publication.AuthorID saved <> 0 ->
  Publications.SearchID e k d = Ok saved -> Publications.Update e k p d = Ok d' ->
  spec_step (caller e r) (abs d) (abs d').
Proof.
  intros Hk Hnz Hs. unfold Publications.Update, guard. destruct (env_exec e); [|discriminate].
  intros [= <-]. spec_op (OEditPost k (Publication.Title p) (Publication.Content p)).
  - by eapply SearchID_allowed.
  - constructor; [apply updates_alter|done|done].
Qed.

Lemma pubs_Delete_refines e r k d saved d' :
  ExtractUserID e r = Ok (Publication.AuthorID saved) -> Publication.AuthorID saved <> 0 ->
  Publications.SearchID e k d = Ok saved -> Publications.Delete e k d = Ok d' ->
  spec_step (caller e r) (abs d) (abs d').
Proof.
  intros Hk Hnz Hs. unfold Publications.Delete, guard. destruct (env_exec e); [|discriminate].
  intros [= <-]. spec_op (ODeletePost k).
  - by eapply SearchID_allowed.
  - constructor; [apply removes_delete|done|done].
Qed.

Lemma pubs_Like_refines e r k d d' :
  Publications.LikePublication e k d = Ok d' -> spec_step (caller e r) (abs d) (abs d').
Proof.
  unfold Publications.LikePublication, guard. destruct (env_exec e); [|discriminate].
  intros [= <-]. spec_op (OLike k); [done|]. constructor; [apply updates_alter|done|done].
Qed.

Lemma pubs_Dislike_refines e r k d d' :
  Publications.DislikePublication e k d = Ok d' -> spec_step (caller e r) (abs d) (abs d').
Proof.
  unfold Publications.DislikePublication, guard. destruct (env_exec e); [|discriminate].
  intros [= <-]. spec_op (ODislike k); [done|]. constructor; [|done|done].
  apply updates_alter_ext. intros p. unfold relike, Publications.set_likes. by rewrite dislike_count.
Qed.

End WithServices.

#[export] Hint Resolve spec_skip users_Create_refines users_Update_refines users_Delete_refines
  users_UpdatePassword_refines users_Follow_refines users_Unfollow_refines pubs_Create_refines
  pubs_Update_refines pubs_Delete_refines pubs_Like_refines pubs_Dislike_refines : refine.

Section Serve.
Context `{Hasher} `{Signer}.

(** Every controller function is a step of the specification. *)
Lemma controller_refines h e r d :
  wf d -> (forall u, ExtractUserID e r = Ok u -> u <> 0) ->
  spec_step (caller e r) (abs d) (abs (run (controller h e r) d).2).
Proof.
  intros Hwf Hnz. destruct h; simpl; unfold_controllers; handler_paths; eauto with refine.
Qed.

(** The caller does not depend on the path variables mux binds. *)
Lemma caller_with_vars e r vars : caller e (with_vars r vars) = caller e r.
Proof. reflexivity. Qed.

(** Through the router: a served request is a step of the specification. *)
Lemma serve_spec_step e r d :
  wf d -> (forall u, ExtractUserID e r = Ok u -> u <> 0) ->
  spec_step (caller e r) (abs d) (abs (Router.serve e r d).1.2).
Proof.
  intros Hwf Hnz. destruct (serve_db e r d) as [->|(rt & vars & _ & ->)]; [constructor|].
  rewrite <- (caller_with_vars e r vars). apply controller_refines; [done|].
  intros u. rewrite ExtractUserID_with_vars. apply Hnz.
Qed.

(** C26: Refinement of the API specification: whatever request the
    server receives, on a well-formed database and for a caller whose
    identifier is not 0, the tables either stay as they are or undergo
    exactly one operation of the specification that the caller is allowed
    to perform (registering, editing its own profile, deleting its own
    account, changing its own password after proving the current one,
    following or unfollowing someone else as itself, posting as itself,
    editing or deleting its own publications, liking), with exactly the
    effect the specification gives it. *)
Theorem serve_refines e r d :
  wf d -> (forall u, ExtractUserID e r = Ok u -> u <> 0) ->
  spec_step (caller e r) (abs d) (abs (Router.serve e r d).1.2).
Proof. apply serve_spec_step. Qed.

(** A run of the specification: one step per caller, in order. *)
Inductive spec_run : list (option Z) -> astate -> astate -> Prop :=
| spec_run_nil s : spec_run [] s s
| spec_run_cons c cs s s' s'' :
    spec_step c s s' -> spec_run cs s' s'' -> spec_run (c :: cs) s s''.

(** A request whose caller, if it has one, is not user 0. *)
Definition honest (er : env * request) : Prop :=
  forall u, ExtractUserID er.1 er.2 = Ok u -> u <> 0.

(** C40: Refinement of the server loop [main] starts: from any
    well-formed database, [ListenAndServe] over a sequence of requests of
    callers whose identifier is not 0 is a run of the specification with
    one step per request, in the order served, each step taken by that
    request's caller and allowed to it. *)
Theorem ListenAndServe_refines reqs d :
  wf d -> Forall honest reqs ->
  spec_run (map (fun er => caller er.1 er.2) reqs) (abs d) (abs (ListenAndServe reqs d).1).
Proof.
  intros Hwf Hh. revert d Hwf. induction Hh as [|[e r] rest Hnz _ IH]; intros d Hwf; simpl; [constructor|].
  pose proof (serve_spec_step e r d Hwf Hnz) as Hs. pose proof (serve_wf e r d Hwf) as Hw.
  destruct (Router.serve e r d) as [[resp d'] evs]. simpl in Hs, Hw.
  specialize (IH d' Hw). destruct (ListenAndServe rest d') as [d'' outs].
  by apply (spec_run_cons _ _ _ (abs d')).
Qed.

End Serve.

#[local] Existing Instance model_bcrypt.
#[local] Existing Instance model_signer.

(** Witness: from the empty database, user 1 follows user 2. *)
Lemma serve_refines_witness :
  let e := mkEnv "k" 100 0 true true in
  let r := mkRequest "POST" "/users/2/seguir" ∅ ∅
             (Some (bearer (sign "k" (mkClaims 1 50 (50 + TTL))))) BodyUnreadable in
  wf empty_db /\ (forall u, ExtractUserID e r = Ok u -> u <> 0) /\
  spec_step (caller e r) (abs empty_db) (abs (Router.serve e r empty_db).1.2).
Proof.
  intros e r.
  assert (E : ExtractUserID e r = Ok 1) by reflexivity.
  assert (Hnz : forall u, ExtractUserID e r = Ok u -> u <> 0).
  { intros u Hu. rewrite E in Hu. injection Hu as <-. lia. }
  split; [exact wf_empty|]. split; [exact Hnz|].
  exact (serve_refines e r empty_db wf_empty Hnz).
Defined.

(** Witness: from the empty database, user 1 follows user 2, then
    user 2 posts. *)
Lemma ListenAndServe_refines_witness :
  let e := mkEnv "k" 100 0 true true in
  let tok u := Some (bearer (sign "k" (mkClaims u 50 (50 + TTL)))) in
  let reqs := [(e, mkRequest "POST" "/users/2/seguir" ∅ ∅ (tok 1) BodyUnreadable);
               (e, mkRequest "POST" "/publications" ∅ ∅ (tok 2)
                     (BodyPublication (Publication.mk 0 "t" "c" 0 "" 0 0)))] in
  wf empty_db /\ Forall honest reqs /\
  spec_run (map (fun er => caller er.1 er.2) reqs) (abs empty_db)
    (abs (ListenAndServe reqs empty_db).1).
Proof.
  intros e tok reqs.
  assert (Hh : Forall honest reqs).
  { repeat constructor; intros u Hu; vm_compute in Hu; injection Hu as <-; lia. }
  split; [exact wf_empty|]. split; [exact Hh|].
  exact (ListenAndServe_refines reqs empty_db wf_empty Hh).
Defined.

End Refinement.
